(** * Combat Reflex (hit-reflex-trainer): a shallow embedding of the
      scheduler, the profile utilities, the history recorder and the
      statistics calculator, with the properties of the specification
      stated and settled against the code.

    Conventions of the embedding.
    - JavaScript numbers that hold whole milliseconds or counts are
      integers [Z].  A number with a fractional part is a rational [Q]; the
      result of an operation that is not exact on doubles (a quotient, a
      product with a draw, a sum of fractions) is the exact one rounded to
      the nearest double ([Js.toDouble]), as the code computes it.
    - [Math.random()] is a parameter [r : Q]; the code's contract for it is
      a double in [0, 1) ([unit_draw]).
    - A property that may be missing from a JavaScript object is an
      [option]; [None] is [undefined].
    - Strings are [string], holding the bytes of the UTF-8 encoding of the
      JavaScript string; the phases, modes and training types are the
      string constants of the source. *)

From Stdlib Require Import ZArith QArith Qround Qpower List String Bool Lia Lqa.
From Stdlib Require Import DecimalString Ascii.
From Stdlib Require HexadecimalString.
Import ListNotations.

Local Open Scope string_scope.
Local Open Scope Z_scope.

(** ** JavaScript primitives used by the code *)

Module Js.

(** [Math.floor]: the largest integer not above the number. *)
Definition Math_floor (x : Q) : Z := Qfloor x.

(** [Math.round]: the nearest integer, halves rounded towards +infinity. *)
Definition Math_round (x : Q) : Z := Qfloor (x + (1 # 2))%Q.

(** The contract of [Math.random()]: a double in [0, 1), of which the
    largest is 1 - 2^-53. *)
Definition unit_draw (r : Q) : Prop :=
  (0 <= r /\ r <= 1 - (1 # 9007199254740992))%Q.

(** [Array.prototype.find]. *)
Fixpoint find {A} (p : A -> bool) (l : list A) : option A :=
  match l with
  | [] => None
  | x :: l' => if p x then Some x else find p l'
  end.

(** [Array.prototype.includes] on strings. *)
Definition includes (l : list string) (s : string) : bool :=
  existsb (String.eqb s) l.

(** [Array.prototype.slice(0, n)]. *)
Definition slice0 {A} (n : nat) (l : list A) : list A := firstn n l.

(** [String(n)] for an integer. *)
Definition String_of (n : Z) : string := NilZero.string_of_int (Z.to_int n).

(** [a ?? b]. *)
Definition nullish {A} (a : option A) (b : A) : A :=
  match a with Some x => x | None => b end.

(** [a || b] on strings: the empty string is falsy. *)
Definition or_string (a : option string) (b : string) : string :=
  match a with
  | Some s => if String.eqb s EmptyString then b else s
  | None => b
  end.

(** Relational operators with a possibly [undefined] operand: [undefined]
    converts to NaN and every comparison with NaN is false. *)
Definition le_u (a b : option Z) : bool :=
  match a, b with Some x, Some y => x <=? y | _, _ => false end.
Definition lt_u (a b : option Z) : bool :=
  match a, b with Some x, Some y => x <? y | _, _ => false end.
Definition gt_u (a b : option Z) : bool := lt_u b a.

(** *** Numbers with a fractional part: IEEE 754 binary64

    A JavaScript number is a double.  Whole numbers below 2^53 are doubles
    themselves and their sums, differences and products are exact while
    they stay below 2^53; the result of any other operation is the exact
    one rounded to the nearest double, ties to the even one.  [toDouble]
    is that rounding, given as a fraction in lowest terms.  Overflow is
    not represented: the numbers of the program are counts and
    milliseconds. *)

(** The exponent of [x > 0]: the [e] with [2^e <= x < 2^(e+1)]. *)
Definition ilog2 (x : Q) : Z :=
  let e0 := Z.log2 (Qnum x) - Z.log2 (Zpos (Qden x)) in
  if Qle_bool (2 ^ e0) x then e0 else e0 - 1.

(** The integer nearest to [x], the even one at a tie. *)
Definition roundHalfEven (x : Q) : Z :=
  let f := Qfloor x in
  match (x - inject_Z f ?= 1 # 2)%Q with
  | Lt => f
  | Gt => f + 1
  | Eq => if Z.even f then f else f + 1
  end.

(** The double nearest to [x > 0]: 53 significant bits, and multiples of
    2^-1074 below 2^-1022. *)
Definition nearestDouble (x : Q) : Q :=
  let e := Z.max (ilog2 x - 52) (-1074) in
  Qred (inject_Z (roundHalfEven (x / 2 ^ e)) * 2 ^ e)%Q.

Definition toDouble (x : Q) : Q :=
  match Qnum x with
  | Z0 => 0%Q
  | Zpos _ => nearestDouble x
  | Zneg _ => (- nearestDouble (- x))%Q
  end.

(** [a + b], [a - b], [a * b] and [a / b] on doubles. *)
Definition fadd (a b : Q) : Q := toDouble (a + b).
Definition fsub (a b : Q) : Q := toDouble (a - b).
Definition fmul (a b : Q) : Q := toDouble (a * b).
Definition fdiv (a b : Q) : Q := toDouble (a / b).


(** [n.toString(16)] for an integer. *)
Definition toString16 (n : Z) : string :=
  HexadecimalString.NilZero.string_of_int (Z.to_hex_int n).

(** [ToInt32], the conversion that the bitwise operators apply. *)
Definition ToInt32 (n : Z) : Z :=
  (n + 2147483648) mod 4294967296 - 2147483648.

(** [x | 0]: the integer part of [x], taken towards zero, as a 32-bit
    integer. *)
Definition bitor0 (x : Q) : Z :=
  ToInt32 (if Qle_bool 0 x then Qfloor x else Qceiling x).

(** [String.prototype.startsWith]. *)
Definition startsWith (s searchString : string) : bool :=
  String.prefix searchString s.

(** [String.prototype.padStart(targetLength, '0')]. *)
Fixpoint zeros (n : nat) : string :=
  match n with
  | O => EmptyString
  | S n' => String "0"%char (zeros n')
  end.

Definition padStart0 (targetLength : nat) (s : string) : string :=
  (zeros (targetLength - String.length s) ++ s)%string.

(** What a call gives: the value it returns, or the exception it throws. *)
Inductive Result (A : Type) :=
| Returned (a : A)
| Thrown.
Arguments Returned {A} a.
Arguments Thrown {A}.

(** [Array.prototype.map] with a callback that may throw. *)
Fixpoint mapOrThrow {A B} (f : A -> Result B) (l : list A) : Result (list B) :=
  match l with
  | [] => Returned []
  | x :: l' =>
      match f x with
      | Thrown => Thrown
      | Returned y =>
          match mapOrThrow f l' with
          | Thrown => Thrown
          | Returned ys => Returned (y :: ys)
          end
      end
  end.


End Js.

(** ** src/utils/difficultyConfig.js *)

Module DifficultyConfig.

Record Range := { min : Z; max : Z }.

(** A combo configuration.  The [id] that the entries of [COMBO_SETTINGS]
    carry is the key of the association list below. *)
Record ComboConfig := {
  comboSize : Range;
  strikeInterval : Range;
  restBetweenCombos : Range;
  totalCombos : Z
}.

Record RestSettings := { enabled : bool; breakDuration : Z }.

(** [difficulty.totalHits] is a number in the built-in table and a range in
    a profile's settings; [App.jsx] tells them apart with
    [difficulty.totalHits?.min !== undefined]. *)
Inductive TotalHits :=
| HitsNumber (n : Z)
| HitsRange (r : Range).

(** The difficulty object held by the training state: a built-in
    [Difficulty] (no [combo], no [rest]) or the settings of a profile. *)
Record Difficulty := {
  id : string;
  name : string;
  minInterval : Z;
  maxInterval : Z;
  totalHits : TotalHits;
  combo : option ComboConfig;
  rest : option RestSettings
}.

(** An entry of the built-in table ([@typedef Difficulty]): [totalHits] is
    a number there. *)
Record BuiltinDifficulty := {
  b_id : string;
  b_name : string;
  b_minInterval : Z;
  b_maxInterval : Z;
  b_totalHits : Z
}.

(** A built-in entry seen as the difficulty object of the training state. *)
Definition asDifficulty (b : BuiltinDifficulty) : Difficulty :=
  {| id := b_id b; name := b_name b;
     minInterval := b_minInterval b; maxInterval := b_maxInterval b;
     totalHits := HitsNumber (b_totalHits b); combo := None; rest := None |}.

Definition DIFFICULTIES : list BuiltinDifficulty :=
  [ {| b_id := "very-easy"; b_name := "Very Easy";
       b_minInterval := 2500; b_maxInterval := 4000; b_totalHits := 18 |};
    {| b_id := "easy"; b_name := "Easy";
       b_minInterval := 1500; b_maxInterval := 2500; b_totalHits := 30 |};
    {| b_id := "normal"; b_name := "Normal";
       b_minInterval := 1000; b_maxInterval := 1800; b_totalHits := 45 |};
    {| b_id := "hard"; b_name := "Hard";
       b_minInterval := 600; b_maxInterval := 1200; b_totalHits := 68 |};
    {| b_id := "very-hard"; b_name := "Very Hard";
       b_minInterval := 300; b_maxInterval := 800; b_totalHits := 92 |} ].

Definition getRandomInterval (r : Q) (difficulty : Difficulty) : Z :=
  Js.Math_floor
    (Js.fmul r (inject_Z (maxInterval difficulty - minInterval difficulty + 1)))
  + minInterval difficulty.

(** The body of [getRandomInterval] on any two numbers.  The settings
    editor stores [Number(e.target.value)] as it is, so the bounds of a
    custom difficulty need not be whole; on whole bounds this is
    [getRandomInterval] above. *)
Definition getRandomIntervalOn (r minInterval maxInterval : Q) : Q :=
  Js.fadd
    (inject_Z (Js.Math_floor
                 (Js.fmul r (Js.fadd (Js.fsub maxInterval minInterval) 1))))
    minInterval.


Definition TRAINING_MODES : list string := ["punches"; "kicks"; "both"].
Definition TRAINING_TYPES : list string := ["single"; "combo"].

Definition mkCombo (s1 s2 i1 i2 r1 r2 n : Z) : ComboConfig :=
  {| comboSize := {| min := s1; max := s2 |};
     strikeInterval := {| min := i1; max := i2 |};
     restBetweenCombos := {| min := r1; max := r2 |};
     totalCombos := n |}.

Definition COMBO_SETTINGS : list (string * ComboConfig) :=
  [ ("very-easy", mkCombo 1 2 600 800 5000 6000 9);
    ("easy", mkCombo 1 3 500 700 4000 5000 12);
    ("normal", mkCombo 1 3 400 600 3000 4000 15);
    ("hard", mkCombo 1 4 300 500 2000 3000 17);
    ("very-hard", mkCombo 1 5 200 400 1500 2500 20) ].

Definition getComboSettings (difficultyId : string) : option ComboConfig :=
  option_map snd (Js.find (fun c => String.eqb (fst c) difficultyId) COMBO_SETTINGS).

(** The three generators share one body:
    [Math.floor(Math.random() * (max - min + 1)) + min]. *)
Definition randomInRange (r : Q) (rg : Range) : Z :=
  Js.Math_floor (Js.fmul r (inject_Z (max rg - min rg + 1))) + min rg.

Definition getRandomComboSize (r : Q) (comboConfig : ComboConfig) : Z :=
  randomInRange r (comboSize comboConfig).

Definition getRandomStrikeInterval (r : Q) (comboConfig : ComboConfig) : Z :=
  randomInRange r (strikeInterval comboConfig).

Definition getRandomComboRest (r : Q) (comboConfig : ComboConfig) : Z :=
  randomInRange r (restBetweenCombos comboConfig).

Definition SESSION_DURATION_MS : Z := 120000.
Definition BREAK_DURATION_MS : Z := 30000.
Definition MID_REST_DURATION_MS : Z := 7000.

(** [DIFFICULTIES[2]] *)
Definition DEFAULT_DIFFICULTY : BuiltinDifficulty :=
  {| b_id := "normal"; b_name := "Normal";
     b_minInterval := 1000; b_maxInterval := 1800; b_totalHits := 45 |}.

Definition getDifficultyById (i : string) : option BuiltinDifficulty :=
  Js.find (fun d => String.eqb (b_id d) i) DIFFICULTIES.

End DifficultyConfig.

(** ** src/utils/statsCalculator.js *)

Module StatsCalculator.

(** [totalHits > 0 ? Math.round((hitsCompleted / totalHits) * 100) : 0] *)
Definition completionRate (hitsCompleted totalHits : Z) : Z :=
  if 0 <? totalHits
  then Js.Math_round
         (Js.fmul (Js.fdiv (inject_Z hitsCompleted) (inject_Z totalHits)) 100)
  else 0.

(** [hitsCompleted > 1 ? Math.round(durationMs / (hitsCompleted - 1)) : 0] *)
Definition averagePace (durationMs hitsCompleted : Z) : Z :=
  if 1 <? hitsCompleted
  then Js.Math_round (Js.fdiv (inject_Z durationMs) (inject_Z (hitsCompleted - 1)))
  else 0.

Definition padStart2 (s : string) : string :=
  if (String.length s <? 2)%nat then ("0" ++ s)%string else s.

(** [formatTime] on a finite number of milliseconds. *)
Definition formatTime (ms : Z) : string :=
  if ms <? 0 then "00:00"
  else
    let totalSeconds := ms / 1000 in
    let minutes := totalSeconds / 60 in
    let seconds := totalSeconds mod 60 in
    (padStart2 (Js.String_of minutes) ++ ":" ++ padStart2 (Js.String_of seconds))%string.

(** The numeric fields of the object returned by [calculateSessionStats]. *)
Record SessionStats := {
  durationMs : Z;
  durationFormatted : string;
  stat_hitsCompleted : Z;
  stat_totalHits : Z;
  stat_completionRate : Z;
  stat_averagePace : Z
}.

Definition calculateSessionStats (startTime endTime hitsCompleted totalHits : Z)
  : SessionStats :=
  let durationMs := endTime - startTime in
  {| durationMs := durationMs;
     durationFormatted := formatTime durationMs;
     stat_hitsCompleted := hitsCompleted;
     stat_totalHits := totalHits;
     stat_completionRate := completionRate hitsCompleted totalHits;
     stat_averagePace := averagePace durationMs hitsCompleted |}.

(** [calculateAveragePace(hits, durationMs)] *)
Definition calculateAveragePace (hits durationMs : Z) : Z :=
  if (hits <? 2) || (durationMs <=? 0) then 0
  else Js.Math_round (Js.fdiv (inject_Z durationMs) (inject_Z (hits - 1))).

(** [formatTimeDetailed] on a finite whole number of milliseconds; [%] is
    the remainder that takes the sign of the dividend. *)
Definition formatTimeDetailed (ms : Z) : string :=
  if ms <? 0 then "00:00.000"
  else
    let totalSeconds := ms / 1000 in
    let minutes := totalSeconds / 60 in
    let seconds := Z.rem totalSeconds 60 in
    let milliseconds := Z.rem ms 1000 in
    (Js.padStart0 2 (Js.String_of minutes) ++ ":"
     ++ Js.padStart0 2 (Js.String_of seconds) ++ "."
     ++ Js.padStart0 3 (Js.String_of milliseconds))%string.


End StatsCalculator.

(** ** src/hooks/useLocalStorage.js *)

Module UseLocalStorage.

(** The state cell of [useLocalStorage(key, initialValue)].  [setValue]
    closes over [storedValue], the value of the render that created it;
    what it stores becomes the state (and the content of the storage key),
    and the [storedValue] of the next render.  [item] is the value parsed
    from the storage key, when there is one. *)
Record Cell (T : Type) := {
  storedValue : T;
  latest : T
}.
Arguments storedValue {T} c.
Arguments latest {T} c.


(** The argument of [setValue]: a value, or a function of the stored one. *)
Inductive Update (T : Type) :=
| Value (v : T)
| Updater (f : T -> T).
Arguments Value {T} v.
Arguments Updater {T} f.

(** [value instanceof Function ? value(storedValue) : value] is stored. *)
Definition setValue {T} (value : Update T) (c : Cell T) : Cell T :=
  let valueToStore :=
    match value with
    | Updater f => f (storedValue c)
    | Value v => v
    end in
  {| storedValue := storedValue c; latest := valueToStore |}.

(** The next render of the component that holds the cell. *)
Definition rerender {T} (c : Cell T) : Cell T :=
  {| storedValue := latest c; latest := latest c |}.

(** [window.localStorage]: the list of its keys, in the order of [key(i)],
    each with its value. *)
Definition Storage := list (string * string).

Definition getItem (key : string) (st : Storage) : option string :=
  option_map snd (Js.find (fun e => String.eqb (fst e) key) st).

Definition removeItem (key : string) (st : Storage) : Storage :=
  filter (fun e => negb (String.eqb (fst e) key)) st.

(** [removeFromStorage(key)] *)
Definition removeFromStorage (key : string) (st : Storage) : Storage :=
  removeItem key st.

(** The loop of [clearStorageByPrefix]: the keys [key(0)], [key(1)], ...
    that are not empty and start with the prefix. *)
Definition keysToRemove (prefix : string) (st : Storage) : list string :=
  filter (fun key => negb (String.eqb key EmptyString) && Js.startsWith key prefix)
         (map fst st).

(** [clearStorageByPrefix(prefix = 'combat-reflex')] *)
Definition clearStorageByPrefix (prefix : option string) (st : Storage) : Storage :=
  let prefix := Js.nullish prefix "combat-reflex" in
  fold_left (fun st' key => removeItem key st') (keysToRemove prefix st) st.

End UseLocalStorage.


(** ** src/context/TrainingContext.jsx *)

Module TrainingContext.

Import DifficultyConfig.

(** [TRAINING_PHASES]: the phases are the strings themselves. *)
Definition IDLE := "IDLE".
Definition COUNTDOWN := "COUNTDOWN".
Definition TRAINING := "TRAINING".
Definition MID_REST := "MID_REST".
Definition SESSION_END := "SESSION_END".
Definition BREAK := "BREAK".
Definition COMPLETE := "COMPLETE".

(** [Object.values(TRAINING_PHASES)] *)
Definition TRAINING_PHASES : list string :=
  [IDLE; COUNTDOWN; TRAINING; MID_REST; SESSION_END; BREAK; COMPLETE].

Record TrainingState := {
  mode : string;
  trainingType : string;
  difficulty : Difficulty;
  numberOfSessions : Z;
  phase : string;
  currentSession : Z;
  hitsCompleted : Z;
  combosCompleted : Z
}.

(** The payload of [SET_DIFFICULTY] is a settings object or an id. *)
Inductive DifficultyPayload :=
| PayloadObject (d : Difficulty)
| PayloadId (s : string).

(** The actions of the reducer, one constructor per [ACTIONS] entry, and
    [UNKNOWN] for any other [action.type]. *)
Inductive Action :=
| SET_MODE (payload : string)
| SET_TRAINING_TYPE (payload : string)
| SET_DIFFICULTY (payload : DifficultyPayload)
| SET_NUMBER_OF_SESSIONS (payload : Z)
| SET_PHASE (payload : string)
| INCREMENT_SESSION
| SET_HITS_COMPLETED (payload : Z)
| INCREMENT_HITS
| INCREMENT_COMBOS
| RESET_SESSION
| RESET_ALL
| UNKNOWN.

Definition initialState : TrainingState :=
  {| mode := "both";
     trainingType := "single";
     difficulty := asDifficulty DEFAULT_DIFFICULTY;
     numberOfSessions := 2;
     phase := IDLE;
     currentSession := 1;
     hitsCompleted := 0;
     combosCompleted := 0 |}.

Definition set_mode (s : TrainingState) (v : string) :=
  {| mode := v; trainingType := trainingType s; difficulty := difficulty s;
     numberOfSessions := numberOfSessions s; phase := phase s;
     currentSession := currentSession s; hitsCompleted := hitsCompleted s;
     combosCompleted := combosCompleted s |}.
Definition set_trainingType (s : TrainingState) (v : string) :=
  {| mode := mode s; trainingType := v; difficulty := difficulty s;
     numberOfSessions := numberOfSessions s; phase := phase s;
     currentSession := currentSession s; hitsCompleted := hitsCompleted s;
     combosCompleted := combosCompleted s |}.
Definition set_difficulty (s : TrainingState) (v : Difficulty) :=
  {| mode := mode s; trainingType := trainingType s; difficulty := v;
     numberOfSessions := numberOfSessions s; phase := phase s;
     currentSession := currentSession s; hitsCompleted := hitsCompleted s;
     combosCompleted := combosCompleted s |}.
Definition set_numberOfSessions (s : TrainingState) (v : Z) :=
  {| mode := mode s; trainingType := trainingType s; difficulty := difficulty s;
     numberOfSessions := v; phase := phase s;
     currentSession := currentSession s; hitsCompleted := hitsCompleted s;
     combosCompleted := combosCompleted s |}.
Definition set_phase (s : TrainingState) (v : string) :=
  {| mode := mode s; trainingType := trainingType s; difficulty := difficulty s;
     numberOfSessions := numberOfSessions s; phase := v;
     currentSession := currentSession s; hitsCompleted := hitsCompleted s;
     combosCompleted := combosCompleted s |}.
Definition set_currentSession (s : TrainingState) (v : Z) :=
  {| mode := mode s; trainingType := trainingType s; difficulty := difficulty s;
     numberOfSessions := numberOfSessions s; phase := phase s;
     currentSession := v; hitsCompleted := hitsCompleted s;
     combosCompleted := combosCompleted s |}.
Definition set_hitsCompleted (s : TrainingState) (v : Z) :=
  {| mode := mode s; trainingType := trainingType s; difficulty := difficulty s;
     numberOfSessions := numberOfSessions s; phase := phase s;
     currentSession := currentSession s; hitsCompleted := v;
     combosCompleted := combosCompleted s |}.
Definition set_combosCompleted (s : TrainingState) (v : Z) :=
  {| mode := mode s; trainingType := trainingType s; difficulty := difficulty s;
     numberOfSessions := numberOfSessions s; phase := phase s;
     currentSession := currentSession s; hitsCompleted := hitsCompleted s;
     combosCompleted := v |}.

Definition trainingReducer (state : TrainingState) (action : Action)
  : TrainingState :=
  match action with
  | SET_MODE payload =>
      if negb (Js.includes TRAINING_MODES payload) then state
      else set_mode state payload
  | SET_TRAINING_TYPE payload =>
      if negb (Js.includes TRAINING_TYPES payload) then state
      else set_trainingType state payload
  | SET_DIFFICULTY payload =>
      match payload with
      | PayloadObject d =>
          if negb (String.eqb (id d) EmptyString) then set_difficulty state d
          else state
      | PayloadId s =>
          match Js.find (fun d => String.eqb (b_id d) s) DIFFICULTIES with
          | None => state
          | Some d => set_difficulty state (asDifficulty d)
          end
      end
  | SET_NUMBER_OF_SESSIONS payload =>
      set_numberOfSessions state (Z.min 4 (Z.max 1 payload))
  | SET_PHASE payload =>
      if negb (Js.includes TRAINING_PHASES payload) then state
      else set_phase state payload
  | INCREMENT_SESSION => set_currentSession state (currentSession state + 1)
  | SET_HITS_COMPLETED payload => set_hitsCompleted state payload
  | INCREMENT_HITS => set_hitsCompleted state (hitsCompleted state + 1)
  | INCREMENT_COMBOS => set_combosCompleted state (combosCompleted state + 1)
  | RESET_SESSION => set_combosCompleted (set_hitsCompleted state 0) 0
  | RESET_ALL =>
      set_combosCompleted
        (set_hitsCompleted (set_currentSession (set_phase state IDLE) 1) 0) 0
  | UNKNOWN => state
  end.

Definition MAX_HISTORY_ENTRIES : nat := 10.

(** The object handed to [addToHistory] by [App.jsx].  The combo counters
    are present in combo mode only. *)
Record SessionData := {
  e_mode : string;
  e_trainingType : string;
  e_difficultyId : string;
  e_hitsCompleted : Z;
  e_totalHits : Z;
  e_combosCompleted : option Z;
  e_totalCombos : option Z;
  e_durationMs : Z;
  e_sessionNumber : Z;
  e_totalSessions : Z
}.

(** A stored entry: the session data, the generated [id] and the
    [timestamp].  The id [`session-${Date.now()}-${Math.random()...}`] is
    kept as the pair of the clock value and the draw it is printed from,
    and the timestamp as the clock value instead of its ISO rendering. *)
Record SessionHistoryEntry := {
  data : SessionData;
  entry_id : Z * Q;
  timestamp : Z
}.

Definition stampEntry (stamp : Z) (r : Q) (entry : SessionData)
  : SessionHistoryEntry :=
  {| data := entry; entry_id := (stamp, r); timestamp := stamp |}.

(** The updater that [addToHistory] passes to [setSessionHistory];
    [stamp] is [Date.now()] and [r] is [Math.random()]. *)
Definition addToHistory (stamp : Z) (r : Q) (entry : SessionData)
    (prev : list SessionHistoryEntry) : list SessionHistoryEntry :=
  Js.slice0 MAX_HISTORY_ENTRIES (stampEntry stamp r entry :: prev).

(** The cell of the session history, and the actions on it:
    [setSessionHistory(prev => [...].slice(0, MAX_HISTORY_ENTRIES))] and
    [setSessionHistory([])]. *)
Definition History := UseLocalStorage.Cell (list SessionHistoryEntry).

Definition actions_addToHistory (stamp : Z) (r : Q) (entry : SessionData)
    (c : History) : History :=
  UseLocalStorage.setValue
    (UseLocalStorage.Updater (addToHistory stamp r entry)) c.

Definition actions_clearHistory (c : History) : History :=
  UseLocalStorage.setValue (UseLocalStorage.Value []) c.


End TrainingContext.

(** ** src/components/ResultsScreen.jsx (the [stats] memo) *)

Module ResultsScreen.

Import TrainingContext.

(** [sessionHistory.reduce((sum, session) => sum + (session.totalHits || 0), 0)] *)
Definition totalExpectedHits (sessionHistory : list SessionHistoryEntry) : Z :=
  fold_left (fun sum session => sum + e_totalHits (data session)) sessionHistory 0.

(** [totalExpectedHits > 0
      ? Math.round((hitsCompleted / totalExpectedHits) * 100) : 100] *)
Definition completionRate (hitsCompleted : Z)
    (sessionHistory : list SessionHistoryEntry) : Z :=
  let total := totalExpectedHits sessionHistory in
  if 0 <? total
  then Js.Math_round
         (Js.fmul (Js.fdiv (inject_Z hitsCompleted) (inject_Z total)) 100)
  else 100.

End ResultsScreen.

(** ** src/utils/profileUtils.js *)

Module ProfileUtils.

(** Profiles are read back from storage and edited field by field, so every
    property of the objects below may be missing: each leaf is an [option]. *)
Record RangeSettings := { min : option Z; max : option Z }.

Record ComboSettings := {
  comboSize : option RangeSettings;
  strikeInterval : option RangeSettings;
  restBetweenCombos : option RangeSettings;
  totalCombos : option Z
}.

Record RestSettings := { enabled : option bool; breakDuration : option Z }.

Record DifficultySettings := {
  id : option string;
  name : option string;
  minInterval : option Z;
  maxInterval : option Z;
  totalHits : option RangeSettings;
  combo : option ComboSettings;
  rest : option RestSettings
}.

Record TrainingProfile := {
  p_id : option string;
  p_name : option string;
  isDefault : option bool;
  isReadOnly : option bool;
  createdAt : option Z;
  updatedAt : option Z;
  difficulties : option (list DifficultySettings)
}.

Definition DEFAULT_PROFILE_ID := "default".

(** An entry of [RECOMMENDED_VALUES]. *)
Record Recommended := {
  rec_minInterval : DifficultyConfig.Range;
  rec_maxInterval : DifficultyConfig.Range;
  rec_totalHits : DifficultyConfig.Range;
  rec_breakDuration : DifficultyConfig.Range;
  explanation : string
}.

Definition rg (a b : Z) : DifficultyConfig.Range :=
  {| DifficultyConfig.min := a; DifficultyConfig.max := b |}.

Definition RECOMMENDED_VALUES : list (string * Recommended) :=
  [ ("very-easy",
     {| rec_minInterval := rg 2000 3000; rec_maxInterval := rg 3500 5000;
        rec_totalHits := rg 15 20; rec_breakDuration := rg 30000 45000;
        explanation := "Beginner-friendly, allows full recovery between strikes" |});
    ("easy",
     {| rec_minInterval := rg 1200 1800; rec_maxInterval := rg 2200 3000;
        rec_totalHits := rg 25 35; rec_breakDuration := rg 25000 35000;
        explanation := "Gentle warmup progression for building stamina" |});
    ("normal",
     {| rec_minInterval := rg 800 1200; rec_maxInterval := rg 1500 2000;
        rec_totalHits := rg 40 50; rec_breakDuration := rg 20000 30000;
        explanation := "Balanced challenge for regular training sessions" |});
    ("hard",
     {| rec_minInterval := rg 500 800; rec_maxInterval := rg 1000 1400;
        rec_totalHits := rg 60 75; rec_breakDuration := rg 15000 25000;
        explanation := "Fast reactions required, high intensity workout" |});
    ("very-hard",
     {| rec_minInterval := rg 200 400; rec_maxInterval := rg 600 1000;
        rec_totalHits := rg 85 100; rec_breakDuration := rg 10000 20000;
        explanation := "Elite level training with minimal rest between strikes" |}) ].

(** [RECOMMENDED_VALUES[diff.id]] *)
Definition recommendedFor (i : option string) : option Recommended :=
  match i with
  | None => None
  | Some s =>
      option_map snd (Js.find (fun e => String.eqb (fst e) s) RECOMMENDED_VALUES)
  end.

(** [generateUUID()]: the callback of [replace(/[xy]/g, ...)] runs once for
    each [x] and [y] of the template, from left to right, and draws one
    number each time; [k] is the index of the next draw. *)
Definition uuidDigit (c : Ascii.ascii) (draw : Q) : string :=
  let r := Js.bitor0 (draw * 16)%Q in
  let v := if Ascii.eqb c "x"%char then r else Z.lor (Z.land r 3) 8 in
  Js.toString16 v.

Fixpoint replaceXY (template : string) (draws : nat -> Q) (k : nat) : string :=
  match template with
  | EmptyString => EmptyString
  | String c rest =>
      if Ascii.eqb c "x"%char || Ascii.eqb c "y"%char
      then (uuidDigit c (draws k) ++ replaceXY rest draws (S k))%string
      else String c (replaceXY rest draws k)
  end.

Definition generateUUID (draws : nat -> Q) (k : nat) : string :=
  replaceXY "xxxxxxxx-xxxx-4xxx-yxxx-xxxxxxxxxxxx" draws k.


(** [{ ...range }] of a built-in range. *)
Definition copyRange (r : DifficultyConfig.Range) : RangeSettings :=
  {| min := Some (DifficultyConfig.min r); max := Some (DifficultyConfig.max r) |}.

Definition createDifficultySettings (difficulty : DifficultyConfig.BuiltinDifficulty)
    (comboSettings : DifficultyConfig.ComboConfig) : DifficultySettings :=
  {| id := Some (DifficultyConfig.b_id difficulty);
     name := Some (DifficultyConfig.b_name difficulty);
     minInterval := Some (DifficultyConfig.b_minInterval difficulty);
     maxInterval := Some (DifficultyConfig.b_maxInterval difficulty);
     totalHits :=
       Some {| min := Some (DifficultyConfig.b_totalHits difficulty);
               max := Some (DifficultyConfig.b_totalHits difficulty) |};
     combo :=
       Some {| comboSize := Some (copyRange (DifficultyConfig.comboSize comboSettings));
               strikeInterval :=
                 Some (copyRange (DifficultyConfig.strikeInterval comboSettings));
               restBetweenCombos :=
                 Some (copyRange (DifficultyConfig.restBetweenCombos comboSettings));
               totalCombos := Some (DifficultyConfig.totalCombos comboSettings) |};
     rest := Some {| enabled := Some true;
                     breakDuration := Some DifficultyConfig.BREAK_DURATION_MS |} |}.

(** [DIFFICULTIES.map((diff, index) => createDifficultySettings(diff,
    COMBO_SETTINGS[index]))]: the two tables are walked in step. *)
Fixpoint zipSettings (ds : list DifficultyConfig.BuiltinDifficulty)
    (cs : list (string * DifficultyConfig.ComboConfig)) : list DifficultySettings :=
  match ds, cs with
  | d :: ds', c :: cs' => createDifficultySettings d (snd c) :: zipSettings ds' cs'
  | _, _ => []
  end.

(** The difficulties of the default profile. *)
Definition defaultDifficulties : list DifficultySettings :=
  zipSettings DifficultyConfig.DIFFICULTIES DifficultyConfig.COMBO_SETTINGS.

Definition createDefaultProfile : TrainingProfile :=
  {| p_id := Some DEFAULT_PROFILE_ID;
     p_name := Some "Default";
     isDefault := Some true;
     isReadOnly := Some true;
     createdAt := Some 0;
     updatedAt := Some 0;
     difficulties := Some defaultDifficulties |}.

(** [{ ...range }]: the copy of a range that may be missing is an object
    without the two ends. *)
Definition spreadRange (r : option RangeSettings) : RangeSettings :=
  match r with
  | Some r => {| min := min r; max := max r |}
  | None => {| min := None; max := None |}
  end.

Definition spreadRest (r : option RestSettings) : RestSettings :=
  match r with
  | Some r => {| enabled := enabled r; breakDuration := breakDuration r |}
  | None => {| enabled := None; breakDuration := None |}
  end.

(** The deep copy of a difficulty written out in [createNewProfile] (and in
    [duplicateProfile]):
    [{ ...diff, totalHits: { ...diff.totalHits },
       combo: { ...diff.combo, comboSize: { ...diff.combo.comboSize }, ... },
       rest: { ...diff.rest } }];
    reading [diff.combo.comboSize] throws when [diff.combo] is missing. *)
Definition copyDifficulty (diff : DifficultySettings) : Js.Result DifficultySettings :=
  match combo diff with
  | None => Js.Thrown
  | Some c =>
      Js.Returned
        {| id := id diff;
           name := name diff;
           minInterval := minInterval diff;
           maxInterval := maxInterval diff;
           totalHits := Some (spreadRange (totalHits diff));
           combo :=
             Some {| comboSize := Some (spreadRange (comboSize c));
                     strikeInterval := Some (spreadRange (strikeInterval c));
                     restBetweenCombos := Some (spreadRange (restBetweenCombos c));
                     totalCombos := totalCombos c |};
           rest := Some (spreadRest (rest diff)) |}
  end.

(** [createNewProfile(name)]; [uuid] is the result of [generateUUID()] and
    [now] of [Date.now()]. *)
Definition createNewProfile (uuid : string) (now : Z) (name : string)
  : Js.Result TrainingProfile :=
  match Js.mapOrThrow copyDifficulty defaultDifficulties with
  | Js.Thrown => Js.Thrown
  | Js.Returned ds =>
      Js.Returned
        {| p_id := Some uuid;
           p_name := Some name;
           isDefault := Some false;
           isReadOnly := Some false;
           createdAt := Some now;
           updatedAt := Some now;
           difficulties := Some ds |}
  end.


(** White space and line terminators, as removed by
    [String.prototype.trim]: U+0009 to U+000D and U+0020 in one byte,
    U+00A0 in two, and in three bytes U+1680, U+2000 to U+200A, U+2028,
    U+2029, U+202F, U+205F, U+3000 and U+FEFF. *)
Definition isSpace (c : Ascii.ascii) : bool :=
  let n := Ascii.nat_of_ascii c in
  ((9 <=? n) && (n <=? 13))%nat || (n =? 32)%nat.

Definition isSpace2 (a b : Ascii.ascii) : bool :=
  ((Ascii.nat_of_ascii a =? 194) && (Ascii.nat_of_ascii b =? 160))%nat.

Definition isSpace3 (a b c : Ascii.ascii) : bool :=
  let x := Ascii.nat_of_ascii a in
  let y := Ascii.nat_of_ascii b in
  let z := Ascii.nat_of_ascii c in
  (((x =? 225) && (y =? 154) && (z =? 128))
   || ((x =? 226) && (y =? 128)
       && (((128 <=? z) && (z <=? 138)) || (z =? 168) || (z =? 169) || (z =? 175)))
   || ((x =? 226) && (y =? 129) && (z =? 159))
   || ((x =? 227) && (y =? 128) && (z =? 128))
   || ((x =? 239) && (y =? 187) && (z =? 191)))%nat.

(** [s.trim() === '']: every character of [s] is white space. *)
Fixpoint trimsToEmpty (s : string) : bool :=
  match s with
  | EmptyString => true
  | String a s1 =>
      if isSpace a then trimsToEmpty s1
      else
        match s1 with
        | EmptyString => false
        | String b s2 =>
            if isSpace2 a b then trimsToEmpty s2
            else
              match s2 with
              | EmptyString => false
              | String c s3 =>
                  if isSpace3 a b c then trimsToEmpty s3 else false
              end
        end
  end.

(** The messages pushed for one difficulty. *)
Definition diffName (diff : DifficultySettings) (index : nat) : string :=
  Js.or_string (name diff) ("Difficulty " ++ Js.String_of (Z.of_nat index + 1))%string.

Definition when (c : bool) (msg : string) : list string :=
  if c then [msg] else [].

Definition shown (v : option Z) : string :=
  match v with Some n => Js.String_of n | None => "undefined" end.

Definition difficultyErrors (diff : DifficultySettings) (index : nat) : list string :=
  let dn := diffName diff index in
  when (Js.le_u (minInterval diff) (Some 0))
       (dn ++ ": minInterval must be positive")%string
  ++ when (Js.le_u (maxInterval diff) (Some 0))
       (dn ++ ": maxInterval must be positive")%string
  ++ when (Js.gt_u (minInterval diff) (maxInterval diff))
       (dn ++ ": minInterval cannot be greater than maxInterval")%string
  ++ match totalHits diff with
     | Some th =>
         when (Js.le_u (min th) (Some 0) || Js.le_u (max th) (Some 0))
              (dn ++ ": totalHits must be positive")%string
         ++ when (Js.gt_u (min th) (max th))
              (dn ++ ": totalHits min cannot be greater than max")%string
     | None => []
     end
  ++ match rest diff with
     | Some r =>
         when (Js.lt_u (breakDuration r) (Some 0))
              (dn ++ ": breakDuration cannot be negative")%string
     | None => []
     end.

Definition difficultyWarnings (diff : DifficultySettings) (index : nat) : list string :=
  let dn := diffName diff index in
  match recommendedFor (id diff) with
  | Some recommended =>
      let lo1 := DifficultyConfig.min (rec_minInterval recommended) in
      let hi1 := DifficultyConfig.max (rec_minInterval recommended) in
      let lo2 := DifficultyConfig.min (rec_maxInterval recommended) in
      let hi2 := DifficultyConfig.max (rec_maxInterval recommended) in
      when (Js.lt_u (minInterval diff) (Some lo1))
           (dn ++ ": minInterval (" ++ shown (minInterval diff)
               ++ "ms) is below recommended minimum (" ++ Js.String_of lo1 ++ "ms)")%string
      ++ when (Js.gt_u (minInterval diff) (Some hi1))
           (dn ++ ": minInterval (" ++ shown (minInterval diff)
               ++ "ms) is above recommended maximum (" ++ Js.String_of hi1 ++ "ms)")%string
      ++ when (Js.lt_u (maxInterval diff) (Some lo2))
           (dn ++ ": maxInterval (" ++ shown (maxInterval diff)
               ++ "ms) is below recommended minimum (" ++ Js.String_of lo2 ++ "ms)")%string
      ++ when (Js.gt_u (maxInterval diff) (Some hi2))
           (dn ++ ": maxInterval (" ++ shown (maxInterval diff)
               ++ "ms) is above recommended maximum (" ++ Js.String_of hi2 ++ "ms)")%string
  | None => []
  end.

(** [forEach((diff, index) => ...)] collecting what [f] pushes. *)
Fixpoint forEachIndexed {A} (f : A -> nat -> list string) (l : list A) (index : nat)
  : list string :=
  match l with
  | [] => []
  | x :: l' => f x index ++ forEachIndexed f l' (S index)
  end.

Record Validation := { errors : list string; warnings : list string }.

Definition nameMissing (profile : TrainingProfile) : bool :=
  match p_name profile with
  | None => true
  | Some s => trimsToEmpty s
  end.

Definition validateProfile (profile : TrainingProfile) : Validation :=
  let ds := match difficulties profile with Some l => l | None => [] end in
  {| errors :=
       when (nameMissing profile) "Profile name is required"
       ++ forEachIndexed difficultyErrors ds 0;
     warnings := forEachIndexed difficultyWarnings ds 0 |}.

(** [handleSave] of the profile editor: the profile is saved exactly when
    [validation.errors.length > 0] is false; the warnings are only shown. *)
Definition handleSave_accepts (profile : TrainingProfile) : bool :=
  match errors (validateProfile profile) with
  | [] => true
  | _ :: _ => false
  end.

(** [a ?? b] when the fallback may itself be missing. *)
Definition coalesce {A} (a b : option A) : option A :=
  match a with Some _ => a | None => b end.

(** [a || b] on strings that may be missing: a missing or empty [a] gives [b]. *)
Definition orElse (a b : option string) : option string :=
  match a with
  | Some s => if String.eqb s EmptyString then b else a
  | None => b
  end.

(** [o.f] for an object [o] of the default profile. *)
Definition get {R A} (o : option R) (f : R -> option A) : option A :=
  match o with Some r => f r | None => None end.

(** [d.id === defaultDiff.id] *)
Definition sameId (a b : option string) : bool :=
  match a, b with
  | Some x, Some y => String.eqb x y
  | None, None => true
  | _, _ => false
  end.

(** [custom ? { min: custom.min ?? d.min, max: custom.max ?? d.max } : { ...d }] *)
Definition mergeRange (custom d : option RangeSettings) : option RangeSettings :=
  match custom with
  | Some c =>
      Some {| min := coalesce (min c) (get d min);
              max := coalesce (max c) (get d max) |}
  | None => d
  end.

Definition mergeCombo (custom d : option ComboSettings) : option ComboSettings :=
  match custom with
  | Some c =>
      Some {| comboSize := mergeRange (comboSize c) (get d comboSize);
              strikeInterval := mergeRange (strikeInterval c) (get d strikeInterval);
              restBetweenCombos :=
                mergeRange (restBetweenCombos c) (get d restBetweenCombos);
              totalCombos := coalesce (totalCombos c) (get d totalCombos) |}
  | None => d
  end.

Definition mergeRest (custom d : option RestSettings) : option RestSettings :=
  match custom with
  | Some c =>
      Some {| enabled := coalesce (enabled c) (get d enabled);
              breakDuration := coalesce (breakDuration c) (get d breakDuration) |}
  | None => d
  end.

(** The body of the [map] callback of [mergeWithDefaults], given the result
    of the [find]. *)
Definition mergeDifficulty (customDiff : option DifficultySettings)
    (defaultDiff : DifficultySettings) : DifficultySettings :=
  match customDiff with
  | None => defaultDiff
  | Some c =>
      {| id := orElse (id c) (id defaultDiff);
         name := orElse (name c) (name defaultDiff);
         minInterval := coalesce (minInterval c) (minInterval defaultDiff);
         maxInterval := coalesce (maxInterval c) (maxInterval defaultDiff);
         totalHits := mergeRange (totalHits c) (totalHits defaultDiff);
         combo := mergeCombo (combo c) (combo defaultDiff);
         rest := mergeRest (rest c) (rest defaultDiff) |}
  end.

(** [partial.difficulties?.find(d => d.id === defaultDiff.id)] *)
Definition findCustom (partial : TrainingProfile) (defaultDiff : DifficultySettings)
  : option DifficultySettings :=
  match difficulties partial with
  | Some l => Js.find (fun d => sameId (id d) (id defaultDiff)) l
  | None => None
  end.

(** [uuid] is the result of [generateUUID()] and [now] of [Date.now()]. *)
Definition mergeWithDefaults (uuid : string) (now : Z) (partial : TrainingProfile)
  : TrainingProfile :=
  let mergedDifficulties :=
    map (fun defaultDiff => mergeDifficulty (findCustom partial defaultDiff) defaultDiff)
        defaultDifficulties in
  {| p_id := Some (Js.or_string (p_id partial) uuid);
     p_name := Some (Js.or_string (p_name partial) "Unnamed Profile");
     isDefault := Some (Js.nullish (isDefault partial) false);
     isReadOnly := Some (Js.nullish (isReadOnly partial) false);
     createdAt := Some (Js.nullish (createdAt partial) now);
     updatedAt := Some (Js.nullish (updatedAt partial) now);
     difficulties := Some mergedDifficulties |}.

Definition getRandomTotalHits (r : Q) (totalHits : DifficultyConfig.Range) : Z :=
  DifficultyConfig.randomInRange r totalHits.

End ProfileUtils.

(** ** src/App.jsx: the orchestrator [TrainingApp]

    The component is embedded as a machine over a [World]: the React state
    it renders from, its refs, the browser's pending timers, the clock and
    the calls made to the collaborators.

    - A [setState] or [dispatch] updates [pending] and marks the world
      [dirty]; [flush] then commits: the pending values become the
      [rendered] ones and the effects whose dependencies differ between the
      previous and the new render run, all cleanups first and then all
      bodies, in the order of declaration, until nothing is pending.
    - A closure passed to [setTimeout] is a [Callback]; it reads the rendered
      values when it fires.  The configuration (mode, training type,
      difficulty, number of sessions, active profile) and the identity of
      the audio callbacks are fixed while a run is in progress, so
      dependency arrays are compared on the values that change during a run.
    - Timers fire in the order of their due time, and in the order of
      registration among equal due times; a callback takes no time. *)

Module App.

Import DifficultyConfig TrainingContext.

Inductive Callback :=
| CountdownStart                (* () => runCountdown(3), after 100 ms *)
| CountdownTick (value : Z)     (* the 1000 ms tick of runCountdown(value) *)
| CountdownDone                 (* the 800 ms closure that starts training *)
| ActionFire                    (* the closure of scheduleNextAction *)
| ActionDisplayEnd              (* its inner 800 ms closure *)
| ComboStart                    (* () => scheduleCombo() *)
| StrikeFire                    (* a strike of scheduleCombo *)
| StrikeDisplayEnd              (* its inner 300 ms closure *)
| ComboComplete                 (* () => incrementCombos() *)
| BreakTick (remaining : Z).    (* the 1000 ms tick of runBreak(remaining) *)

Record Timer := { handle : Z; due : Z; callback : Callback }.

(** The values a render of [TrainingApp] sees: the context state and the
    component's own [useState] cells. *)
Record Render := {
  state : TrainingState;
  sessionHistory : list SessionHistoryEntry;
  countdownValue : Z;
  currentAction : option string;
  breakTimeRemaining : Z;
  trainingStartTime : option Z;
  trainingEndTime : option Z;
  sessionStartTime : option Z;
  sessionTotalHits : option Z
}.

Record Refs := {
  countdownTimerRef : option Z;
  actionTimerRef : option Z;
  breakTimerRef : option Z;
  warningPlayedRef : bool;
  comboTimersRef : list Z
}.

Record World := {
  rendered : Render;
  pending : Render;
  dirty : bool;
  refs : Refs;
  timers : list Timer;
  nextTimer : Z;
  now : Z;
  drawn : nat;                  (* how many draws Math.random() has given *)
  sounds : list string;         (* calls to the audio sink, newest first *)
  wakeLock : bool;
  phaseLog : list string        (* the phases rendered so far, newest first *)
}.

Definition with_state (v : TrainingState) (r : Render) : Render :=
  {| state := v; sessionHistory := sessionHistory r; countdownValue := countdownValue r;
     currentAction := currentAction r; breakTimeRemaining := breakTimeRemaining r;
     trainingStartTime := trainingStartTime r; trainingEndTime := trainingEndTime r;
     sessionStartTime := sessionStartTime r; sessionTotalHits := sessionTotalHits r |}.
Definition with_sessionHistory (v : list SessionHistoryEntry) (r : Render) : Render :=
  {| state := state r; sessionHistory := v; countdownValue := countdownValue r;
     currentAction := currentAction r; breakTimeRemaining := breakTimeRemaining r;
     trainingStartTime := trainingStartTime r; trainingEndTime := trainingEndTime r;
     sessionStartTime := sessionStartTime r; sessionTotalHits := sessionTotalHits r |}.
Definition with_countdownValue (v : Z) (r : Render) : Render :=
  {| state := state r; sessionHistory := sessionHistory r; countdownValue := v;
     currentAction := currentAction r; breakTimeRemaining := breakTimeRemaining r;
     trainingStartTime := trainingStartTime r; trainingEndTime := trainingEndTime r;
     sessionStartTime := sessionStartTime r; sessionTotalHits := sessionTotalHits r |}.
Definition with_currentAction (v : option string) (r : Render) : Render :=
  {| state := state r; sessionHistory := sessionHistory r; countdownValue :=
     countdownValue r; currentAction := v; breakTimeRemaining := breakTimeRemaining r;
     trainingStartTime := trainingStartTime r; trainingEndTime := trainingEndTime r;
     sessionStartTime := sessionStartTime r; sessionTotalHits := sessionTotalHits r |}.
Definition with_breakTimeRemaining (v : Z) (r : Render) : Render :=
  {| state := state r; sessionHistory := sessionHistory r; countdownValue :=
     countdownValue r; currentAction := currentAction r; breakTimeRemaining := v;
     trainingStartTime := trainingStartTime r; trainingEndTime := trainingEndTime r;
     sessionStartTime := sessionStartTime r; sessionTotalHits := sessionTotalHits r |}.
Definition with_trainingStartTime (v : option Z) (r : Render) : Render :=
  {| state := state r; sessionHistory := sessionHistory r; countdownValue :=
     countdownValue r; currentAction := currentAction r; breakTimeRemaining :=
     breakTimeRemaining r; trainingStartTime := v; trainingEndTime := trainingEndTime r;
     sessionStartTime := sessionStartTime r; sessionTotalHits := sessionTotalHits r |}.
Definition with_trainingEndTime (v : option Z) (r : Render) : Render :=
  {| state := state r; sessionHistory := sessionHistory r; countdownValue :=
     countdownValue r; currentAction := currentAction r; breakTimeRemaining :=
     breakTimeRemaining r; trainingStartTime := trainingStartTime r; trainingEndTime :=
     v; sessionStartTime := sessionStartTime r; sessionTotalHits := sessionTotalHits r
     |}.
Definition with_sessionStartTime (v : option Z) (r : Render) : Render :=
  {| state := state r; sessionHistory := sessionHistory r; countdownValue :=
     countdownValue r; currentAction := currentAction r; breakTimeRemaining :=
     breakTimeRemaining r; trainingStartTime := trainingStartTime r; trainingEndTime :=
     trainingEndTime r; sessionStartTime := v; sessionTotalHits := sessionTotalHits r
     |}.
Definition with_sessionTotalHits (v : option Z) (r : Render) : Render :=
  {| state := state r; sessionHistory := sessionHistory r; countdownValue :=
     countdownValue r; currentAction := currentAction r; breakTimeRemaining :=
     breakTimeRemaining r; trainingStartTime := trainingStartTime r; trainingEndTime :=
     trainingEndTime r; sessionStartTime := sessionStartTime r; sessionTotalHits := v
     |}.

Definition with_countdownTimerRef (v : option Z) (r : Refs) : Refs :=
  {| countdownTimerRef := v; actionTimerRef := actionTimerRef r; breakTimerRef :=
     breakTimerRef r; warningPlayedRef := warningPlayedRef r; comboTimersRef :=
     comboTimersRef r |}.
Definition with_actionTimerRef (v : option Z) (r : Refs) : Refs :=
  {| countdownTimerRef := countdownTimerRef r; actionTimerRef := v; breakTimerRef :=
     breakTimerRef r; warningPlayedRef := warningPlayedRef r; comboTimersRef :=
     comboTimersRef r |}.
Definition with_breakTimerRef (v : option Z) (r : Refs) : Refs :=
  {| countdownTimerRef := countdownTimerRef r; actionTimerRef := actionTimerRef r;
     breakTimerRef := v; warningPlayedRef := warningPlayedRef r; comboTimersRef :=
     comboTimersRef r |}.
Definition with_warningPlayedRef (v : bool) (r : Refs) : Refs :=
  {| countdownTimerRef := countdownTimerRef r; actionTimerRef := actionTimerRef r;
     breakTimerRef := breakTimerRef r; warningPlayedRef := v; comboTimersRef :=
     comboTimersRef r |}.
Definition with_comboTimersRef (v : list Z) (r : Refs) : Refs :=
  {| countdownTimerRef := countdownTimerRef r; actionTimerRef := actionTimerRef r;
     breakTimerRef := breakTimerRef r; warningPlayedRef := warningPlayedRef r;
     comboTimersRef := v |}.

Definition with_rendered (v : Render) (r : World) : World :=
  {| rendered := v; pending := pending r; dirty := dirty r; refs := refs r; timers :=
     timers r; nextTimer := nextTimer r; now := now r; drawn := drawn r; sounds :=
     sounds r; wakeLock := wakeLock r; phaseLog := phaseLog r |}.
Definition with_pending (v : Render) (r : World) : World :=
  {| rendered := rendered r; pending := v; dirty := dirty r; refs := refs r; timers :=
     timers r; nextTimer := nextTimer r; now := now r; drawn := drawn r; sounds :=
     sounds r; wakeLock := wakeLock r; phaseLog := phaseLog r |}.
Definition with_dirty (v : bool) (r : World) : World :=
  {| rendered := rendered r; pending := pending r; dirty := v; refs := refs r; timers :=
     timers r; nextTimer := nextTimer r; now := now r; drawn := drawn r; sounds :=
     sounds r; wakeLock := wakeLock r; phaseLog := phaseLog r |}.
Definition with_refs (v : Refs) (r : World) : World :=
  {| rendered := rendered r; pending := pending r; dirty := dirty r; refs := v; timers
     := timers r; nextTimer := nextTimer r; now := now r; drawn := drawn r; sounds :=
     sounds r; wakeLock := wakeLock r; phaseLog := phaseLog r |}.
Definition with_timers (v : list Timer) (r : World) : World :=
  {| rendered := rendered r; pending := pending r; dirty := dirty r; refs := refs r;
     timers := v; nextTimer := nextTimer r; now := now r; drawn := drawn r; sounds :=
     sounds r; wakeLock := wakeLock r; phaseLog := phaseLog r |}.
Definition with_nextTimer (v : Z) (r : World) : World :=
  {| rendered := rendered r; pending := pending r; dirty := dirty r; refs := refs r;
     timers := timers r; nextTimer := v; now := now r; drawn := drawn r; sounds :=
     sounds r; wakeLock := wakeLock r; phaseLog := phaseLog r |}.
Definition with_now (v : Z) (r : World) : World :=
  {| rendered := rendered r; pending := pending r; dirty := dirty r; refs := refs r;
     timers := timers r; nextTimer := nextTimer r; now := v; drawn := drawn r; sounds :=
     sounds r; wakeLock := wakeLock r; phaseLog := phaseLog r |}.
Definition with_drawn (v : nat) (r : World) : World :=
  {| rendered := rendered r; pending := pending r; dirty := dirty r; refs := refs r;
     timers := timers r; nextTimer := nextTimer r; now := now r; drawn := v; sounds :=
     sounds r; wakeLock := wakeLock r; phaseLog := phaseLog r |}.
Definition with_sounds (v : list string) (r : World) : World :=
  {| rendered := rendered r; pending := pending r; dirty := dirty r; refs := refs r;
     timers := timers r; nextTimer := nextTimer r; now := now r; drawn := drawn r;
     sounds := v; wakeLock := wakeLock r; phaseLog := phaseLog r |}.
Definition with_wakeLock (v : bool) (r : World) : World :=
  {| rendered := rendered r; pending := pending r; dirty := dirty r; refs := refs r;
     timers := timers r; nextTimer := nextTimer r; now := now r; drawn := drawn r;
     sounds := sounds r; wakeLock := v; phaseLog := phaseLog r |}.
Definition with_phaseLog (v : list string) (r : World) : World :=
  {| rendered := rendered r; pending := pending r; dirty := dirty r; refs := refs r;
     timers := timers r; nextTimer := nextTimer r; now := now r; drawn := drawn r;
     sounds := sounds r; wakeLock := wakeLock r; phaseLog := v |}.

Section Machine.

(** The sequence of values that [Math.random()] returns, and the lookup of
    the active profile ([getEffectiveComboSettings] of ProfileContext). *)
Variable draws : nat -> Q.
Variable getEffectiveComboSettings : string -> option ComboConfig.

Definition M (A : Type) : Type := World -> A * World.

Definition ret {A} (x : A) : M A := fun w => (x, w).

Definition bind {A B} (m : M A) (k : A -> M B) : M B :=
  fun w => let (x, w') := m w in k x w'.

Notation "x <- m ;; k" := (bind m (fun x => k))
  (at level 61, m at next level, right associativity).
Notation "m ;;; k" := (bind m (fun _ => k))
  (at level 61, right associativity).

Definition exec {A} (m : M A) (w : World) : World := snd (m w).

(** *** The environment *)

Definition Math_random : M Q :=
  fun w => (draws (drawn w), with_drawn (S (drawn w)) w).

Definition Date_now : M Z := fun w => (now w, w).

Definition setTimeout (cb : Callback) (delay : Z) : M Z :=
  fun w =>
    let h := nextTimer w in
    let t := {| handle := h; due := now w + Z.max 0 delay; callback := cb |} in
    (h, with_nextTimer (h + 1) (with_timers (timers w ++ [t]) w)).

Definition clearTimeout (h : Z) : M unit :=
  fun w => (tt, with_timers (filter (fun t => negb (handle t =? h)) (timers w)) w).

(** [if (ref.current) clearTimeout(ref.current)] *)
Definition clearIfSet (current : option Z) : M unit :=
  match current with
  | Some h => clearTimeout h
  | None => ret tt
  end.

(** [timers.forEach(timer => clearTimeout(timer))] *)
Fixpoint clearAll (hs : list Z) : M unit :=
  match hs with
  | [] => ret tt
  | h :: hs' => clearTimeout h ;;; clearAll hs'
  end.

Definition play (sound : string) : M unit :=
  fun w => (tt, with_sounds (sound :: sounds w) w).

Definition requestWakeLock : M unit := fun w => (tt, with_wakeLock true w).
Definition releaseWakeLock : M unit := fun w => (tt, with_wakeLock false w).

Definition render : M Render := fun w => (rendered w, w).
Definition getRefs : M Refs := fun w => (refs w, w).
Definition setRefs (f : Refs -> Refs) : M unit :=
  fun w => (tt, with_refs (f (refs w)) w).

Definition setState (f : Render -> Render) : M unit :=
  fun w => (tt, with_dirty true (with_pending (f (pending w)) w)).

Definition dispatch (a : Action) : M unit :=
  setState (fun r => with_state (trainingReducer (state r) a) r).

Definition setPhase (p : string) : M unit := dispatch (SET_PHASE p).
Definition incrementHits : M unit := dispatch INCREMENT_HITS.
Definition incrementCombos : M unit := dispatch INCREMENT_COMBOS.
Definition incrementSession : M unit := dispatch INCREMENT_SESSION.
Definition resetSession : M unit := dispatch RESET_SESSION.
Definition resetAll : M unit := dispatch RESET_ALL.

(** [addToHistory(entry)] of the context; the updater draws the id.  The
    [setValue] of useLocalStorage applies the updater to the history of the
    render that made the call, and the result becomes the state. *)
Definition addEntry (entry : SessionData) : M unit :=
  stamp <- Date_now ;;
  r <- Math_random ;;
  cur <- render ;;
  setState (with_sessionHistory
              (addToHistory stamp r entry (sessionHistory cur))).

(** *** Callbacks of the component *)

Definition getRandomAction (mode : string) : M string :=
  if String.eqb mode "punches" then ret "punch"
  else if String.eqb mode "kicks" then ret "kick"
  else r <- Math_random ;;
       ret (if Qle_bool (1 # 2) r then "kick" else "punch").

Definition playAction (action : string) : M unit :=
  if String.eqb action "punch" then play "punch" else play "kick".

Definition scheduleNextAction : M unit :=
  v <- render ;;
  r <- Math_random ;;
  let interval := getRandomInterval r (difficulty (state v)) in
  h <- setTimeout ActionFire interval ;;
  setRefs (with_actionTimerRef (Some h)).

Definition onActionFire : M unit :=
  v <- render ;;
  action <- getRandomAction (mode (state v)) ;;
  setState (with_currentAction (Some action)) ;;;
  playAction action ;;;
  _ <- setTimeout ActionDisplayEnd 800 ;;
  ret tt.

Definition onActionDisplayEnd : M unit :=
  setState (with_currentAction None) ;;;
  incrementHits.

Definition pushComboTimer (h : Z) : M unit :=
  setRefs (fun rf => with_comboTimersRef (comboTimersRef rf ++ [h]) rf).

(** The [for] loop of [scheduleCombo]: [n] iterations are left, [i] is the
    loop index; the result is the final [cumulativeDelay]. *)
Fixpoint strikeLoop (comboConfig : ComboConfig) (comboSize : Z) (n : nat) (i : Z)
    (cumulativeDelay : Z) : M Z :=
  match n with
  | O => ret cumulativeDelay
  | S n' =>
      strikeTimer <- setTimeout StrikeFire cumulativeDelay ;;
      pushComboTimer strikeTimer ;;;
      cumulativeDelay' <-
        (if i <? comboSize - 1
         then r <- Math_random ;;
              ret (cumulativeDelay + getRandomStrikeInterval r comboConfig)
         else ret cumulativeDelay) ;;
      strikeLoop comboConfig comboSize n' (i + 1) cumulativeDelay'
  end.

Definition scheduleCombo : M unit :=
  v <- render ;;
  match getEffectiveComboSettings (id (difficulty (state v))) with
  | None => ret tt
  | Some comboConfig =>
      r1 <- Math_random ;;
      let comboSize := getRandomComboSize r1 comboConfig in
      r2 <- Math_random ;;
      let restAfterCombo := getRandomComboRest r2 comboConfig in
      rf <- getRefs ;;
      clearAll (comboTimersRef rf) ;;;
      setRefs (with_comboTimersRef []) ;;;
      cumulativeDelay <-
        strikeLoop comboConfig comboSize (Z.to_nat comboSize) 0 0 ;;
      let comboEndDelay := cumulativeDelay + 300 in
      comboCompleteTimer <- setTimeout ComboComplete comboEndDelay ;;
      pushComboTimer comboCompleteTimer
  end.

Definition onStrikeFire : M unit :=
  v <- render ;;
  action <- getRandomAction (mode (state v)) ;;
  setState (with_currentAction (Some action)) ;;;
  playAction action ;;;
  _ <- setTimeout StrikeDisplayEnd 300 ;;
  ret tt.

Definition onStrikeDisplayEnd : M unit :=
  setState (with_currentAction None) ;;;
  incrementHits.

(** [difficulty.totalHits?.min !== undefined
      ? getRandomTotalHits(difficulty.totalHits) : difficulty.totalHits] *)
Definition sampleTotalHits (d : Difficulty) : M Z :=
  match totalHits d with
  | HitsRange rg => r <- Math_random ;; ret (ProfileUtils.getRandomTotalHits r rg)
  | HitsNumber n => ret n
  end.

Definition runCountdown (value : Z) : M unit :=
  (if 0 <? value then play "countdown" else ret tt) ;;;
  if 0 <? value
  then h <- setTimeout (CountdownTick value) 1000 ;;
       setRefs (with_countdownTimerRef (Some h))
  else h <- setTimeout CountdownDone 800 ;;
       setRefs (with_countdownTimerRef (Some h)).

Definition onCountdownTick (value : Z) : M unit :=
  setState (with_countdownValue (value - 1)) ;;;
  runCountdown (value - 1).

Definition onCountdownDone : M unit :=
  v <- render ;;
  t <- Date_now ;;
  (match trainingStartTime v with
   | None => setState (with_trainingStartTime (Some t))
   | Some _ => ret tt
   end) ;;;
  setState (with_sessionStartTime (Some t)) ;;;
  total <- sampleTotalHits (difficulty (state v)) ;;
  setState (with_sessionTotalHits (Some total)) ;;;
  play "sessionStart" ;;;
  setPhase TRAINING.

Definition runBreak (remaining : Z) : M unit :=
  if 0 <? remaining
  then
    rf <- getRefs ;;
    (if (remaining =? 5) && negb (warningPlayedRef rf)
     then play "warning" ;;; setRefs (with_warningPlayedRef true)
     else ret tt) ;;;
    h <- setTimeout (BreakTick remaining) 1000 ;;
    setRefs (with_breakTimerRef (Some h))
  else
    incrementSession ;;;
    resetSession ;;;
    setPhase COUNTDOWN.

Definition onBreakTick (remaining : Z) : M unit :=
  setState (with_breakTimeRemaining (remaining - 1)) ;;;
  runBreak (remaining - 1).

Definition run (cb : Callback) : M unit :=
  match cb with
  | CountdownStart => runCountdown 3
  | CountdownTick value => onCountdownTick value
  | CountdownDone => onCountdownDone
  | ActionFire => onActionFire
  | ActionDisplayEnd => onActionDisplayEnd
  | ComboStart => scheduleCombo
  | StrikeFire => onStrikeFire
  | StrikeDisplayEnd => onStrikeDisplayEnd
  | ComboComplete => incrementCombos
  | BreakTick remaining => onBreakTick remaining
  end.

(** *** Effects, in the order of their declaration

    For each [useEffect]: [..Changed] compares the dependencies of two
    renders, [..Cleanup] is the function the effect returned in the previous
    render (if it returned one), [..Effect] is its body. *)

Definition optZ_eqb (a b : option Z) : bool :=
  match a, b with
  | Some x, Some y => x =? y
  | None, None => true
  | _, _ => false
  end.

Definition phaseIs (v : Render) (p : string) : bool :=
  String.eqb (phase (state v)) p.

Definition typeIs (v : Render) (t : string) : bool :=
  String.eqb (trainingType (state v)) t.

Definition phaseChanged (prev cur : Render) : bool :=
  negb (String.eqb (phase (state prev)) (phase (state cur))).

Definition typeChanged (prev cur : Render) : bool :=
  negb (String.eqb (trainingType (state prev)) (trainingType (state cur))).

Definition hitsChanged (prev cur : Render) : bool :=
  negb (hitsCompleted (state prev) =? hitsCompleted (state cur)).

Definition combosChanged (prev cur : Render) : bool :=
  negb (combosCompleted (state prev) =? combosCompleted (state cur)).

Definition sessionChanged (prev cur : Render) : bool :=
  negb (currentSession (state prev) =? currentSession (state cur))
  || negb (numberOfSessions (state prev) =? numberOfSessions (state cur))
  || negb (optZ_eqb (sessionStartTime prev) (sessionStartTime cur)).

(** [!x] is false for a number other than 0. *)
Definition truthy (o : option Z) : bool :=
  match o with
  | Some n => negb (n =? 0)
  | None => false
  end.

(** A [null] operand of a subtraction counts as 0. *)
Definition orZero (o : option Z) : Z :=
  match o with Some n => n | None => 0 end.

(** Countdown phase.  The dependency array also lists [playCountdown] and
    [playSessionStart] of useAudio, whose identity changes once, in the
    render after [initAudio] has set [isReady]; the machine is run with the
    audio settled, as it is in every countdown after the first, and in the
    first one when the audio context does not start. *)
Definition countdownChanged (prev cur : Render) : bool :=
  phaseChanged prev cur
  || negb (optZ_eqb (trainingStartTime prev) (trainingStartTime cur)).

Definition countdownCleanup (prev : Render) : M unit :=
  if phaseIs prev COUNTDOWN
  then rf <- getRefs ;; clearIfSet (countdownTimerRef rf)
  else ret tt.

(** [initAudio()] only concerns the audio collaborator and is left out. *)
Definition countdownEffect (cur : Render) : M unit :=
  if phaseIs cur COUNTDOWN
  then
    setState (with_countdownValue 3) ;;;
    requestWakeLock ;;;
    _ <- setTimeout CountdownStart 100 ;;
    ret tt
  else ret tt.

(** Training phase, single mode. *)
Definition singleChanged (prev cur : Render) : bool :=
  phaseChanged prev cur || typeChanged prev cur || hitsChanged prev cur.

Definition singleActive (v : Render) : bool :=
  phaseIs v TRAINING && typeIs v "single".

Definition singleCleanup (prev : Render) : M unit :=
  if singleActive prev
  then rf <- getRefs ;; clearIfSet (actionTimerRef rf)
  else ret tt.

Definition singleEffect (cur : Render) : M unit :=
  if singleActive cur then scheduleNextAction else ret tt.

(** Training phase, combo mode.  The effect returns its cleanup only when
    it schedules a combo. *)
Definition comboChanged (prev cur : Render) : bool :=
  phaseChanged prev cur || typeChanged prev cur || combosChanged prev cur.

Definition comboActive (v : Render) : option ComboConfig :=
  if phaseIs v TRAINING && typeIs v "combo"
  then match getEffectiveComboSettings (id (difficulty (state v))) with
       | Some comboConfig =>
           if totalCombos comboConfig <=? combosCompleted (state v)
           then None
           else Some comboConfig
       | None => None
       end
  else None.

Definition comboCleanup (prev : Render) : M unit :=
  match comboActive prev with
  | Some _ =>
      rf <- getRefs ;;
      clearIfSet (actionTimerRef rf) ;;;
      clearAll (comboTimersRef rf) ;;;
      setRefs (with_comboTimersRef [])
  | None => ret tt
  end.

Definition comboEffect (cur : Render) : M unit :=
  match comboActive cur with
  | Some comboConfig =>
      restDuration <-
        (if combosCompleted (state cur) =? 0
         then ret 0
         else r <- Math_random ;; ret (getRandomComboRest r comboConfig)) ;;
      h <- setTimeout ComboStart restDuration ;;
      setRefs (with_actionTimerRef (Some h))
  | None => ret tt
  end.

(** The tail shared by the two completion effects. *)
Definition finishSession (cur : Render) : M unit :=
  if currentSession (state cur) <? numberOfSessions (state cur)
  then setPhase BREAK
  else
    t <- Date_now ;;
    setState (with_trainingEndTime (Some t)) ;;;
    releaseWakeLock ;;;
    setPhase COMPLETE.

(** Session completion, single mode. *)
Definition singleCompletionChanged (prev cur : Render) : bool :=
  phaseChanged prev cur || typeChanged prev cur || hitsChanged prev cur
  || negb (optZ_eqb (sessionTotalHits prev) (sessionTotalHits cur))
  || sessionChanged prev cur.

Definition singleComplete (v : Render) : bool :=
  phaseIs v TRAINING && typeIs v "single" && truthy (sessionTotalHits v)
  && (orZero (sessionTotalHits v) <=? hitsCompleted (state v)).

Definition singleCompletionEffect (cur : Render) : M unit :=
  if singleComplete cur
  then
    rf <- getRefs ;;
    clearIfSet (actionTimerRef rf) ;;;
    setState (with_currentAction None) ;;;
    play "sessionEnd" ;;;
    t <- Date_now ;;
    addEntry
      {| e_mode := mode (state cur);
         e_trainingType := trainingType (state cur);
         e_difficultyId := id (difficulty (state cur));
         e_hitsCompleted := hitsCompleted (state cur);
         e_totalHits := orZero (sessionTotalHits cur);
         e_combosCompleted := None;
         e_totalCombos := None;
         e_durationMs := t - orZero (sessionStartTime cur);
         e_sessionNumber := currentSession (state cur);
         e_totalSessions := numberOfSessions (state cur) |} ;;;
    finishSession cur
  else ret tt.

(** Session completion, combo mode; the target is read from the built-in
    table with [getComboSettings]. *)
Definition comboCompletionChanged (prev cur : Render) : bool :=
  phaseChanged prev cur || typeChanged prev cur || combosChanged prev cur
  || hitsChanged prev cur || sessionChanged prev cur.

Definition comboComplete (v : Render) : option ComboConfig :=
  match getComboSettings (id (difficulty (state v))) with
  | Some comboConfig =>
      if phaseIs v TRAINING && typeIs v "combo"
         && (totalCombos comboConfig <=? combosCompleted (state v))
      then Some comboConfig
      else None
  | None => None
  end.

Definition comboCompletionEffect (cur : Render) : M unit :=
  match comboComplete cur with
  | Some comboConfig =>
      rf <- getRefs ;;
      clearIfSet (actionTimerRef rf) ;;;
      clearAll (comboTimersRef rf) ;;;
      setRefs (with_comboTimersRef []) ;;;
      setState (with_currentAction None) ;;;
      play "sessionEnd" ;;;
      t <- Date_now ;;
      addEntry
        {| e_mode := mode (state cur);
           e_trainingType := trainingType (state cur);
           e_difficultyId := id (difficulty (state cur));
           e_hitsCompleted := hitsCompleted (state cur);
           e_totalHits := hitsCompleted (state cur);
           e_combosCompleted := Some (combosCompleted (state cur));
           e_totalCombos := Some (totalCombos comboConfig);
           e_durationMs := t - orZero (sessionStartTime cur);
           e_sessionNumber := currentSession (state cur);
           e_totalSessions := numberOfSessions (state cur) |} ;;;
      finishSession cur
  | None => ret tt
  end.

(** Break phase.
    [difficulty.rest?.enabled !== false
       ? Math.round((difficulty.rest?.breakDuration || 30000) / 1000) : 0] *)
Definition breakDurationOf (d : Difficulty) : Z :=
  match rest d with
  | None => Js.Math_round (Js.fdiv 30000 1000)
  | Some r =>
      if enabled r
      then
        let ms := if breakDuration r =? 0 then 30000 else breakDuration r in
        Js.Math_round (Js.fdiv (inject_Z ms) 1000)
      else 0
  end.

Definition breakCleanup (prev : Render) : M unit :=
  if phaseIs prev BREAK && negb (breakDurationOf (difficulty (state prev)) =? 0)
  then rf <- getRefs ;; clearIfSet (breakTimerRef rf)
  else ret tt.

Definition breakEffect (cur : Render) : M unit :=
  if phaseIs cur BREAK
  then
    let breakDuration := breakDurationOf (difficulty (state cur)) in
    if breakDuration =? 0
    then
      incrementSession ;;;
      resetSession ;;;
      setPhase COUNTDOWN
    else
      setState (with_breakTimeRemaining breakDuration) ;;;
      setRefs (with_warningPlayedRef false) ;;;
      runBreak breakDuration
  else ret tt.

(** Complete phase: set the end time if not already set. *)
Definition completeChanged (prev cur : Render) : bool :=
  phaseChanged prev cur
  || negb (optZ_eqb (trainingEndTime prev) (trainingEndTime cur)).

Definition completeEffect (cur : Render) : M unit :=
  if phaseIs cur COMPLETE && negb (truthy (trainingEndTime cur))
  then t <- Date_now ;; setState (with_trainingEndTime (Some t))
  else ret tt.

(** Back to IDLE: reset the training times. *)
Definition idleEffect (cur : Render) : M unit :=
  if phaseIs cur IDLE
  then
    setState (with_trainingStartTime None) ;;;
    setState (with_trainingEndTime None) ;;;
    setState (with_sessionStartTime None) ;;;
    setState (with_sessionTotalHits None) ;;;
    setState (with_currentAction None)
  else ret tt.

Definition guard (c : bool) (m : M unit) : M unit := if c then m else ret tt.

Definition cleanups (prev cur : Render) : M unit :=
  guard (countdownChanged prev cur) (countdownCleanup prev) ;;;
  guard (singleChanged prev cur) (singleCleanup prev) ;;;
  guard (comboChanged prev cur) (comboCleanup prev) ;;;
  guard (phaseChanged prev cur) (breakCleanup prev).

Definition bodies (prev cur : Render) : M unit :=
  guard (countdownChanged prev cur) (countdownEffect cur) ;;;
  guard (singleChanged prev cur) (singleEffect cur) ;;;
  guard (comboChanged prev cur) (comboEffect cur) ;;;
  guard (singleCompletionChanged prev cur) (singleCompletionEffect cur) ;;;
  guard (comboCompletionChanged prev cur) (comboCompletionEffect cur) ;;;
  guard (phaseChanged prev cur) (breakEffect cur) ;;;
  guard (completeChanged prev cur) (completeEffect cur) ;;;
  guard (phaseChanged prev cur) (idleEffect cur).

(** *** Rendering *)

Definition logPhase (prev cur : Render) (w : World) : World :=
  if phaseChanged prev cur
  then with_phaseLog (phase (state cur) :: phaseLog w) w
  else w.

(** One commit: the pending values are rendered and the effects run. *)
Definition commit : M unit :=
  fun w =>
    let prev := rendered w in
    let cur := pending w in
    (cleanups prev cur ;;; bodies prev cur)
      (logPhase prev cur (with_dirty false (with_rendered cur w))).

(** Commits until no update is pending; [fuel] bounds the cascade. *)
Fixpoint flush (fuel : nat) : M unit :=
  match fuel with
  | O => ret tt
  | S fuel' => fun w => if dirty w then (commit ;;; flush fuel') w else (tt, w)
  end.

Definition FUEL : nat := 8.

(** *** Timers *)

Fixpoint earliest (best : Timer) (l : list Timer) : Timer :=
  match l with
  | [] => best
  | t :: l' => earliest (if due t <? due best then t else best) l'
  end.

Definition nextDue (w : World) : option Timer :=
  match timers w with
  | [] => None
  | t :: l => Some (earliest t l)
  end.

(** The next pending timer fires: the clock moves to its due time, its
    callback runs and React renders.  [false] when no timer is pending. *)
Definition fire : M bool :=
  fun w =>
    match nextDue w with
    | None => (false, w)
    | Some t =>
        let w1 := with_now (Z.max (now w) (due t)) w in
        let w2 := snd (clearTimeout (handle t) w1) in
        (true, snd ((run (callback t) ;;; flush FUEL) w2))
    end.

Fixpoint fireN (n : nat) (w : World) : World :=
  match n with
  | O => w
  | S n' => fireN n' (snd (fire w))
  end.

(** *** Event handlers of the screens *)

(** ConfigScreen: [handleStartTraining]. *)
Definition handleStartTraining : M unit :=
  setPhase COUNTDOWN ;;; flush FUEL.

(** TrainingScreen: [handleConfirmStop], the confirmed stop. *)
Definition handleConfirmStop : M unit :=
  setPhase COMPLETE ;;; flush FUEL.

(** ResultsScreen: [handleTrainAgain] and [handleChangeSettings]. *)
Definition handleTrainAgain : M unit :=
  resetAll ;;; setPhase COUNTDOWN ;;; flush FUEL.

Definition handleChangeSettings : M unit :=
  resetAll ;;; setPhase IDLE ;;; flush FUEL.

(** *** The mounted component *)

Definition firstRender (s : TrainingState) (history : list SessionHistoryEntry)
  : Render :=
  {| state := s; sessionHistory := history; countdownValue := 3;
     currentAction := None; breakTimeRemaining := 30;
     trainingStartTime := None; trainingEndTime := None;
     sessionStartTime := None; sessionTotalHits := None |}.

Definition freshRefs : Refs :=
  {| countdownTimerRef := None; actionTimerRef := None; breakTimerRef := None;
     warningPlayedRef := false; comboTimersRef := [] |}.

(** The world right after the first render, before its effects. *)
Definition firstWorld (s : TrainingState) (history : list SessionHistoryEntry)
    (clock : Z) : World :=
  {| rendered := firstRender s history; pending := firstRender s history;
     dirty := false; refs := freshRefs; timers := []; nextTimer := 1;
     now := clock; drawn := 0; sounds := []; wakeLock := false;
     phaseLog := [phase s] |}.

(** On mount every effect body runs once. *)
Definition mountEffects (cur : Render) : M unit :=
  countdownEffect cur ;;; singleEffect cur ;;; comboEffect cur ;;;
  singleCompletionEffect cur ;;; comboCompletionEffect cur ;;;
  breakEffect cur ;;; completeEffect cur ;;; idleEffect cur.

Definition mount (s : TrainingState) (history : list SessionHistoryEntry)
    (clock : Z) : World :=
  let w := firstWorld s history clock in
  exec (mountEffects (rendered w) ;;; flush FUEL) w.

End Machine.

End App.

(** ** src/context/ProfileContext.jsx

    The state of [ProfileProvider] is the list of profiles and the id of
    the active one; the operations of the context are functions on it.  A
    functional update [setProfiles(prev => ...)] applies to the state the
    call finds. *)

Module ProfileContext.

Import ProfileUtils.

Definition STORAGE_KEY_PROFILES := "combat-reflex-profiles".
Definition STORAGE_KEY_ACTIVE := "combat-reflex-active-profile".

Record Store := {
  profiles : list TrainingProfile;
  activeProfileId : string
}.

(** [p.id === s] for a string [s]. *)
Definition hasId (s : string) (p : TrainingProfile) : bool :=
  match p_id p with
  | Some x => String.eqb x s
  | None => false
  end.

(** The truth value of a boolean property that may be missing. *)
Definition isTrue (b : option bool) : bool :=
  match b with
  | Some true => true
  | _ => false
  end.

(** [parsed.map(p => mergeWithDefaults(p))]; [uuid i] and [now i] are what
    [generateUUID()] and [Date.now()] give in the call for the entry [i]. *)
Fixpoint mergeAll (uuid : nat -> string) (now : nat -> Z) (i : nat)
    (parsed : list TrainingProfile) : list TrainingProfile :=
  match parsed with
  | [] => []
  | p :: parsed' =>
      mergeWithDefaults (uuid i) (now i) p :: mergeAll uuid now (S i) parsed'
  end.

(** The initializer of [profiles].  [saved] is the array parsed from the
    storage key; it is [None] when nothing is stored or what is stored does
    not parse (the [catch] branch). *)
Definition initialProfiles (uuid : nat -> string) (now : nat -> Z)
    (saved : option (list TrainingProfile)) : list TrainingProfile :=
  match saved with
  | Some parsed => createDefaultProfile :: mergeAll uuid now 0 parsed
  | None => [createDefaultProfile]
  end.

(** The initializer of [activeProfileId]: [saved || DEFAULT_PROFILE_ID]. *)
Definition initialActiveProfileId (saved : option string) : string :=
  Js.or_string saved DEFAULT_PROFILE_ID.

(** The effect that validates the active id on mount.  It reads the id back
    from the storage key, where the effect declared before it has just
    written [activeProfileId]. *)
Definition validateActiveProfile (s : Store) : Store :=
  let savedActive := activeProfileId s in
  if negb (String.eqb savedActive EmptyString)
     && negb (String.eqb savedActive DEFAULT_PROFILE_ID)
  then
    if existsb (hasId savedActive) (profiles s) then s
    else {| profiles := profiles s; activeProfileId := DEFAULT_PROFILE_ID |}
  else s.

(** The provider after its first render and its mount effects. *)
Definition mount (uuid : nat -> string) (now : nat -> Z)
    (savedProfiles : option (list TrainingProfile)) (savedActive : option string)
  : Store :=
  validateActiveProfile
    {| profiles := initialProfiles uuid now savedProfiles;
       activeProfileId := initialActiveProfileId savedActive |}.

(** What the effect on [profiles] leaves under [STORAGE_KEY_PROFILES]:
    the custom profiles, or nothing (the key is removed) when there is
    none. *)
Definition persistedProfiles (s : Store) : option (list TrainingProfile) :=
  match filter (fun p => negb (isTrue (isDefault p))) (profiles s) with
  | [] => None
  | customProfiles => Some customProfiles
  end.

(** [profiles.find(p => p.id === activeProfileId)
      || profiles.find(p => p.isDefault)] *)
Definition activeProfile (s : Store) : option TrainingProfile :=
  match Js.find (hasId (activeProfileId s)) (profiles s) with
  | Some p => Some p
  | None => Js.find (fun p => isTrue (isDefault p)) (profiles s)
  end.

(** [d.id === difficultyId] *)
Definition difficultyHasId (difficultyId : string) (d : DifficultySettings) : bool :=
  match id d with
  | Some x => String.eqb x difficultyId
  | None => false
  end.

(** Reading [activeProfile.difficulties.find] throws when the profile has
    no [difficulties]. *)
Definition getEffectiveSettings (s : Store) (difficultyId : string)
  : Js.Result (option DifficultySettings) :=
  match activeProfile s with
  | None => Js.Returned None
  | Some p =>
      match difficulties p with
      | None => Js.Thrown
      | Some l => Js.Returned (Js.find (difficultyHasId difficultyId) l)
      end
  end.

Definition getEffectiveComboSettings (s : Store) (difficultyId : string)
  : Js.Result (option ComboSettings) :=
  match getEffectiveSettings s difficultyId with
  | Js.Thrown => Js.Thrown
  | Js.Returned None => Js.Returned None
  | Js.Returned (Some settings) => Js.Returned (combo settings)
  end.

(** [createProfile(name)]: the new state and the id it returns. *)
Definition createProfile (uuid : string) (now : Z) (name : string) (s : Store)
  : Js.Result (Store * string) :=
  match createNewProfile uuid now name with
  | Js.Thrown => Js.Thrown
  | Js.Returned newProfile =>
      Js.Returned
        ({| profiles := profiles s ++ [newProfile];
            activeProfileId := activeProfileId s |}, uuid)
  end.

(** [{ ...updatedProfile, updatedAt: Date.now() }] *)
Definition touched (now : Z) (updatedProfile : TrainingProfile) : TrainingProfile :=
  {| p_id := p_id updatedProfile;
     p_name := p_name updatedProfile;
     isDefault := isDefault updatedProfile;
     isReadOnly := isReadOnly updatedProfile;
     createdAt := createdAt updatedProfile;
     updatedAt := Some now;
     difficulties := difficulties updatedProfile |}.

Definition updateProfile (now : Z) (updatedProfile : TrainingProfile) (s : Store)
  : Store :=
  if hasId DEFAULT_PROFILE_ID updatedProfile then s
  else
    {| profiles :=
         map (fun p =>
                if sameId (p_id p) (p_id updatedProfile)
                   && negb (isTrue (isReadOnly p))
                then touched now updatedProfile
                else p)
             (profiles s);
       activeProfileId := activeProfileId s |}.

Definition deleteProfile (profileId : string) (s : Store) : Store :=
  if String.eqb profileId DEFAULT_PROFILE_ID then s
  else
    {| profiles := filter (fun p => negb (hasId profileId p)) (profiles s);
       activeProfileId :=
         if String.eqb (activeProfileId s) profileId
         then DEFAULT_PROFILE_ID
         else activeProfileId s |}.

Definition setActiveProfile (profileId : string) (s : Store) : Store :=
  if existsb (hasId profileId) (profiles s)
  then {| profiles := profiles s; activeProfileId := profileId |}
  else s.

(** [duplicateProfile(sourceId, newName)]: the new state and the id it
    returns, [None] for the [null] of an unknown source.  Copying the
    difficulties throws when the source has none, or has one without
    [combo]. *)
Definition duplicateProfile (uuid : string) (now : Z) (sourceId newName : string)
    (s : Store) : Js.Result (Store * option string) :=
  match Js.find (hasId sourceId) (profiles s) with
  | None => Js.Returned (s, None)
  | Some source =>
      match difficulties source with
      | None => Js.Thrown
      | Some ds =>
          match Js.mapOrThrow copyDifficulty ds with
          | Js.Thrown => Js.Thrown
          | Js.Returned copies =>
              let newProfile :=
                {| p_id := Some uuid;
                   p_name := Some newName;
                   isDefault := Some false;
                   isReadOnly := Some false;
                   createdAt := Some now;
                   updatedAt := Some now;
                   difficulties := Some copies |} in
              Js.Returned
                ({| profiles := profiles s ++ [newProfile];
                    activeProfileId := activeProfileId s |}, Some uuid)
          end
      end
  end.

End ProfileContext.

(** ** Vocabulary of the specification

    These definitions follow the words of the specification, not the code;
    the properties below compare the code with them. *)

Module Spec.

Import TrainingContext.

(** The phases from which a run can be stopped: all but IDLE and COMPLETE. *)
Definition nonTerminal (p : string) : bool :=
  Js.includes [COUNTDOWN; TRAINING; MID_REST; SESSION_END; BREAK] p.

Definition goes (a b from to : string) : bool :=
  String.eqb from a && String.eqb to b.

(** The transitions listed in section 4.2. *)
Definition transition (from to : string) : bool :=
  goes IDLE COUNTDOWN from to
  || goes COUNTDOWN TRAINING from to
  || goes TRAINING MID_REST from to
  || goes MID_REST TRAINING from to
  || goes TRAINING SESSION_END from to
  || goes SESSION_END BREAK from to
  || goes SESSION_END COMPLETE from to
  || goes BREAK COUNTDOWN from to
  || (nonTerminal from && String.eqb to COMPLETE)
  || goes COMPLETE IDLE from to.







(** [Math.round(n / d)] in integer arithmetic, for [d > 0]. *)
Definition nearest (n d : Z) : Z := (2 * n + d) / (2 * d).



End Spec.

(** ** Vocabulary of the properties

    Predicates on the data of the code in which the properties below are
    stated. *)

Module Obs.

Import ProfileUtils.

(** The leaves of a difficulty's settings, in a fixed order; a leaf under a
    missing object is missing. *)
Inductive Leaf :=
| LString (s : string)
| LNumber (z : Z)
| LBool (b : bool).

Definition rangeLeaves (r : option RangeSettings) : list (option Leaf) :=
  [ option_map LNumber (get r min); option_map LNumber (get r max) ].

Definition leaves (d : option DifficultySettings) : list (option Leaf) :=
  [ option_map LString (get d id);
    option_map LString (get d name);
    option_map LNumber (get d minInterval);
    option_map LNumber (get d maxInterval) ]
  ++ rangeLeaves (get d totalHits)
  ++ rangeLeaves (get (get d combo) comboSize)
  ++ rangeLeaves (get (get d combo) strikeInterval)
  ++ rangeLeaves (get (get d combo) restBetweenCombos)
  ++ [ option_map LNumber (get (get d combo) totalCombos);
       option_map LBool (get (get d rest) enabled);
       option_map LNumber (get (get d rest) breakDuration) ].

(** A leaf of the merge: the custom one when it is there, except that an
    empty string counts as missing; the default one otherwise. *)
Definition mergeLeaf (custom dflt : option Leaf) : option Leaf :=
  match custom with
  | Some (LString EmptyString) => dflt
  | Some v => Some v
  | None => dflt
  end.

Fixpoint mergeLeaves (custom dflt : list (option Leaf)) : list (option Leaf) :=
  match custom, dflt with
  | c :: cs, d :: ds => mergeLeaf c d :: mergeLeaves cs ds
  | _, _ => []
  end.

Definition isSome {A} (o : option A) : bool :=
  match o with Some _ => true | None => false end.

(** Every leaf is there. *)
Definition populated (d : DifficultySettings) : bool :=
  forallb isSome (leaves (Some d)).

(** Both ends are there and min <= max. *)
Definition ordered (a b : option Z) : Prop :=
  exists x y, a = Some x /\ b = Some y /\ x <= y.

Definition rangeOrdered (r : option RangeSettings) : Prop :=
  ordered (get r min) (get r max).

(** A range is carried whole (both ends, in order) or not at all. *)
Definition wholeOrAbsent (a b : option Z) : Prop :=
  (a = None /\ b = None) \/ ordered a b.

Definition rangeWholeOrAbsent (r : option RangeSettings) : Prop :=
  r = None \/ rangeOrdered r.

(** Every range of the settings is there, with min <= max. *)
Definition rangesOrdered (d : DifficultySettings) : Prop :=
  ordered (minInterval d) (maxInterval d)
  /\ rangeOrdered (totalHits d)
  /\ rangeOrdered (get (combo d) comboSize)
  /\ rangeOrdered (get (combo d) strikeInterval)
  /\ rangeOrdered (get (combo d) restBetweenCombos).

(** Every range that a partial difficulty carries is carried whole. *)
Definition carriesWholeRanges (c : option DifficultySettings) : Prop :=
  match c with
  | None => True
  | Some c =>
      wholeOrAbsent (minInterval c) (maxInterval c)
      /\ rangeWholeOrAbsent (totalHits c)
      /\ match combo c with
         | None => True
         | Some cb =>
             rangeWholeOrAbsent (comboSize cb)
             /\ rangeWholeOrAbsent (strikeInterval cb)
             /\ rangeWholeOrAbsent (restBetweenCombos cb)
         end
  end.



(** The profile has a name that is not blank. *)
Definition named (p : TrainingProfile) : Prop :=
  exists s, p_name p = Some s /\ trimsToEmpty s = false.


(** The difficulty at position [i] of the merged profile. *)
Definition mergedAt (uuid : string) (now : Z) (partial : TrainingProfile) (i : nat)
  : option DifficultySettings :=
  match difficulties (mergeWithDefaults uuid now partial) with
  | Some l => nth_error l i
  | None => None
  end.

End Obs.

(** ** Vocabulary of the runs of the machine *)

Module Trace.

Import DifficultyConfig TrainingContext App.

Definition isStrike (t : Timer) : bool :=
  match callback t with StrikeFire => true | _ => false end.

(** The offsets, from the clock of [w0], at which the strikes pending in
    [w1] are due. *)
Definition strikeOffsets (w0 w1 : World) : list Z :=
  map (fun t => due t - now w0) (filter isStrike (timers w1)).

(** The cumulative delays that the loop of [scheduleCombo] computes: [n]
    strikes are left, [i] is the index of the next one, [cd] its delay and
    [k] the index of the next draw. *)
Fixpoint strikeDelays (draws : nat -> Q) (comboConfig : ComboConfig)
    (comboSize : Z) (n : nat) (i cd : Z) (k : nat) : list Z :=
  match n with
  | O => []
  | S n' =>
      cd :: (if i <? comboSize - 1
             then strikeDelays draws comboConfig comboSize n' (i + 1)
                    (cd + getRandomStrikeInterval (draws k) comboConfig) (S k)
             else strikeDelays draws comboConfig comboSize n' (i + 1) cd k)
  end.

(** A timer that presents a stimulus. *)
Definition isStimulus (t : Timer) : bool :=
  match callback t with
  | ActionFire | StrikeFire | ComboStart => true
  | _ => false
  end.

(** The rendered values of a world. *)
Definition phaseOf (w : World) : string := phase (state (rendered w)).
Definition hitsOf (w : World) : Z := hitsCompleted (state (rendered w)).
Definition combosOf (w : World) : Z := combosCompleted (state (rendered w)).
Definition historyOf (w : World) : list SessionHistoryEntry :=
  sessionHistory (rendered w).


(** A single-mode session waiting for its next stimulus: nothing is pending
    in React, and the one pending timer is the one of [scheduleNextAction],
    held by [actionTimerRef]. *)
Record SingleTraining (target : Z) (w : World) : Prop := {
  st_settled : dirty w = false;
  st_pending : pending w = rendered w;
  st_phase : phase (state (rendered w)) = TRAINING;
  st_type : trainingType (state (rendered w)) = "single";
  st_target : sessionTotalHits (rendered w) = Some target;
  st_timer : exists h t,
      timers w = [{| handle := h; due := t; callback := ActionFire |}]
      /\ actionTimerRef (refs w) = Some h
}.

(** A single-mode session showing a stimulus: the one pending timer is the
    one that ends the display. *)
Record Displaying (target : Z) (w : World) : Prop := {
  ds_settled : dirty w = false;
  ds_pending : pending w = rendered w;
  ds_phase : phase (state (rendered w)) = TRAINING;
  ds_type : trainingType (state (rendered w)) = "single";
  ds_target : sessionTotalHits (rendered w) = Some target;
  ds_timer : exists h t,
      timers w = [{| handle := h; due := t; callback := ActionDisplayEnd |}];
  ds_ref : exists h, actionTimerRef (refs w) = Some h
}.

(** What a session keeps from one stimulus to the next. *)
Definition sessionView (v : Render) :=
  (mode (state v), trainingType (state v), difficulty (state v),
   numberOfSessions (state v), currentSession (state v),
   sessionStartTime v, sessionHistory v).

(** The entry of a single-mode session that reached its target [n] at the
    time [stamp]. *)
Definition completedSingle (v : Render) (n stamp : Z) : SessionData :=
  {| e_mode := mode (state v);
     e_trainingType := trainingType (state v);
     e_difficultyId := id (difficulty (state v));
     e_hitsCompleted := n;
     e_totalHits := n;
     e_combosCompleted := None;
     e_totalCombos := None;
     e_durationMs := stamp - orZero (sessionStartTime v);
     e_sessionNumber := currentSession (state v);
     e_totalSessions := numberOfSessions (state v) |}.

(** The entry of a combo-mode session that completed at the time [stamp]. *)
Definition completedCombo (v : Render) (comboConfig : ComboConfig) (stamp : Z)
  : SessionData :=
  {| e_mode := mode (state v);
     e_trainingType := trainingType (state v);
     e_difficultyId := id (difficulty (state v));
     e_hitsCompleted := hitsCompleted (state v);
     e_totalHits := hitsCompleted (state v);
     e_combosCompleted := Some (combosCompleted (state v));
     e_totalCombos := Some (totalCombos comboConfig);
     e_durationMs := stamp - orZero (sessionStartTime v);
     e_sessionNumber := currentSession (state v);
     e_totalSessions := numberOfSessions (state v) |}.

(** The phases rendered, newest first, once a session has completed: BREAK
    when sessions remain (followed at once by COUNTDOWN when there is no
    break to wait for), COMPLETE otherwise. *)
Definition nextPhases (v : Render) : list string :=
  if currentSession (state v) <? numberOfSessions (state v)
  then if 0 <? breakDurationOf (difficulty (state v))
       then [BREAK]
       else [COUNTDOWN; BREAK]
  else [COMPLETE].

(** A timer of the single-mode loop. *)
Definition isAction (t : Timer) : bool :=
  match callback t with
  | ActionFire | ActionDisplayEnd => true
  | _ => false
  end.

(** A combo-mode session about to start a combo: nothing is pending in
    React, and the one pending timer is the one that calls
    [scheduleCombo]. *)
Record ComboStarting (w : World) : Prop := {
  cs_settled : dirty w = false;
  cs_pending : pending w = rendered w;
  cs_phase : phase (state (rendered w)) = TRAINING;
  cs_type : trainingType (state (rendered w)) = "combo";
  cs_timer : exists h t,
      timers w = [{| handle := h; due := t; callback := ComboStart |}]
}.

(** What fires next in a world: the callback, and the clock at which it
    runs. *)
Definition nextFires (w : World) : option (Callback * Z) :=
  option_map (fun t => (callback t, Z.max (now w) (due t))) (nextDue w).

(** The cue of a stimulus, in the log of the calls to the audio. *)
Definition isCue (sound : string) : bool :=
  String.eqb sound "punch" || String.eqb sound "kick".

(** The number of stimuli presented so far: a cue is called for each. *)
Definition presented (w : World) : nat :=
  List.length (filter isCue (sounds w)).

(** A world in which the stimulus [action] has just been presented, come
    from the world [before]: the action is on the screen and its cue is
    the last call made to the audio. *)
Definition presents (before after : World) (action : string) : Prop :=
  isCue action = true
  /\ currentAction (rendered after) = Some action
  /\ sounds after = action :: sounds before.

(** The counts of the entries of the history, newest first: the combos
    completed, the hits completed and the total of hits of each. *)
Definition recordedCounts (w : World) : list (option Z * Z * Z) :=
  map (fun e => (e_combosCompleted (data e), e_hitsCompleted (data e),
                 e_totalHits (data e)))
      (historyOf w).

(** What [getRandomAction] returns once [k] draws have been made, and the
    number of draws made after it. *)
Definition actionAt (draws : nat -> Q) (mode : string) (k : nat) : string :=
  if String.eqb mode "punches" then "punch"
  else if String.eqb mode "kicks" then "kick"
  else if Qle_bool (1 # 2) (draws k) then "kick" else "punch".

Definition drawnAfterAction (mode : string) (k : nat) : nat :=
  if String.eqb mode "punches" then k
  else if String.eqb mode "kicks" then k
  else S k.

End Trace.

(** ** Sample inputs *)

Module Samples.

Import ProfileUtils.

Definition noDifficulty (i : string) : DifficultySettings :=
  {| id := Some i; name := None; minInterval := None; maxInterval := None;
     totalHits := None; combo := None; rest := None |}.

Definition profileOf (n : string) (ds : list DifficultySettings) : TrainingProfile :=
  {| p_id := Some "profile-1"; p_name := Some n; isDefault := Some false;
     isReadOnly := Some false; createdAt := Some 1; updatedAt := Some 1;
     difficulties := Some ds |}.

(** A stored profile that overrides the interval of Normal only. *)
Definition overrideNormal : TrainingProfile :=
  profileOf "Mine"
    [ {| id := Some "normal"; name := None;
         minInterval := Some 900; maxInterval := Some 1500;
         totalHits := None; combo := None; rest := None |} ].

(** A stored profile whose Normal difficulty has an empty name. *)
Definition blankName : TrainingProfile :=
  profileOf "Mine"
    [ {| id := Some "normal"; name := Some EmptyString; minInterval := None;
         maxInterval := None; totalHits := None; combo := None; rest := None |} ].

(** A stored profile that overrides [minInterval] of Very Easy only. *)
Definition loneMinInterval : TrainingProfile :=
  profileOf "Mine"
    [ {| id := Some "very-easy"; name := None; minInterval := Some 5000;
         maxInterval := None; totalHits := None; combo := None; rest := None |} ].

Definition veryEasy : DifficultySettings :=
  createDifficultySettings
    {| DifficultyConfig.b_id := "very-easy"; DifficultyConfig.b_name := "Very Easy";
       DifficultyConfig.b_minInterval := 2500; DifficultyConfig.b_maxInterval := 4000;
       DifficultyConfig.b_totalHits := 18 |}
    (DifficultyConfig.mkCombo 1 2 600 800 5000 6000 9).



(** A finished single-mode session. *)
Definition session : TrainingContext.SessionData :=
  {| TrainingContext.e_mode := "both";
     TrainingContext.e_trainingType := "single";
     TrainingContext.e_difficultyId := "normal";
     TrainingContext.e_hitsCompleted := 45;
     TrainingContext.e_totalHits := 45;
     TrainingContext.e_combosCompleted := None;
     TrainingContext.e_totalCombos := None;
     TrainingContext.e_durationMs := 63000;
     TrainingContext.e_sessionNumber := 1;
     TrainingContext.e_totalSessions := 2 |}.



(** A sequence of draws: 0, 1/7, ..., 6/7, 0, ... *)
Definition draws (n : nat) : Q := Z.of_nat (n mod 7) # 7.

(** A sequence of draws that is constantly 9/10. *)
Definition high (n : nat) : Q := 9 # 10.

(** The Normal settings with a fixed target of 10 hits, and combos of up to
    three strikes 100 ms apart. *)
Definition tenHits : DifficultyConfig.Difficulty :=
  {| DifficultyConfig.id := "normal";
     DifficultyConfig.name := "Normal";
     DifficultyConfig.minInterval := 1000;
     DifficultyConfig.maxInterval := 1800;
     DifficultyConfig.totalHits :=
       DifficultyConfig.HitsRange
         {| DifficultyConfig.min := 10; DifficultyConfig.max := 10 |};
     DifficultyConfig.combo := Some (DifficultyConfig.mkCombo 1 3 100 100 3000 4000 15);
     DifficultyConfig.rest :=
       Some {| DifficultyConfig.enabled := true;
               DifficultyConfig.breakDuration := 30000 |} |}.

(** The active profile holds exactly the settings [d]. *)
Definition profileWith (d : DifficultyConfig.Difficulty) (i : string)
  : option DifficultyConfig.ComboConfig :=
  if String.eqb i (DifficultyConfig.id d) then DifficultyConfig.combo d else None.

Definition configured (type : string) (d : DifficultyConfig.Difficulty)
  : TrainingContext.TrainingState :=
  TrainingContext.set_trainingType
    (TrainingContext.set_difficulty TrainingContext.initialState d) type.

(** A program of two sessions, started from the configuration screen with
    an empty history at the clock value 1000, and run through the
    countdown (five timers) into TRAINING; the audio is settled before the
    start (see [App.countdownChanged]). *)
Definition trainingWith (rnd : nat -> Q) (type : string)
    (d : DifficultyConfig.Difficulty) : App.World :=
  App.fireN rnd (profileWith d) 5
    (App.exec (App.handleStartTraining rnd (profileWith d))
       (App.mount rnd (profileWith d) (configured type d) [] 1000)).

(** Single mode, target 10: the session has just started. *)
Definition singleStart : App.World := trainingWith draws "single" tenHits.

(** Single mode after three stimulus/display cycles. *)
Definition singleMid : App.World :=
  App.fireN draws (profileWith tenHits) 6 singleStart.

(** Combo mode at the start of the session: the timer that starts the
    first combo is pending. *)
Definition comboTraining : App.World := trainingWith high "combo" tenHits.

(** The built-in Very Easy settings, as the default profile holds them. *)
Definition veryEasyDefault : DifficultyConfig.Difficulty :=
  {| DifficultyConfig.id := "very-easy";
     DifficultyConfig.name := "Very Easy";
     DifficultyConfig.minInterval := 2500;
     DifficultyConfig.maxInterval := 4000;
     DifficultyConfig.totalHits :=
       DifficultyConfig.HitsRange
         {| DifficultyConfig.min := 18; DifficultyConfig.max := 18 |};
     DifficultyConfig.combo := Some (DifficultyConfig.mkCombo 1 2 600 800 5000 6000 9);
     DifficultyConfig.rest :=
       Some {| DifficultyConfig.enabled := true;
               DifficultyConfig.breakDuration := 30000 |} |}.

(** A sequence of draws that are doubles: 0, 1/8, ..., 7/8, 0, ... *)
Definition eighths (n : nat) : Q := Z.of_nat (n mod 8) # 8.

(** Combo mode on the default Very Easy settings, at the start of the
    training phase of the first session. *)
Definition comboVeryEasy : App.World := trainingWith eighths "combo" veryEasyDefault.

(** A profile name that is one no-break space, U+00A0. *)
Definition noBreakSpace : string :=
  String (Ascii.ascii_of_nat 194) (String (Ascii.ascii_of_nat 160) EmptyString).

Definition spaceNamed : TrainingProfile := profileOf noBreakSpace [veryEasy].

End Samples.

(** ** Vocabulary of the further properties *)

Module Shape.

Import TrainingContext.


(** The state after a sequence of dispatched actions. *)
Definition dispatched (s : TrainingState) (actions : list Action) : TrainingState :=
  fold_left trainingReducer actions s.

(** The actions that carry a setting of the configuration screen. *)
Definition isSetting (a : Action) : bool :=
  match a with
  | SET_MODE _ | SET_TRAINING_TYPE _ | SET_DIFFICULTY _
  | SET_NUMBER_OF_SESSIONS _ => true
  | _ => false
  end.

Definition settings (s : TrainingState) :=
  (mode s, trainingType s, difficulty s, numberOfSessions s).

(** The decimal digit [n] as a string. *)
Definition digit (n : Z) : string := Js.String_of n.

(** A lower-case hexadecimal digit. *)
Definition isHexDigit (c : Ascii.ascii) : bool :=
  let n := Ascii.nat_of_ascii c in
  ((48 <=? n) && (n <=? 57))%nat || ((97 <=? n) && (n <=? 102))%nat.

(** One of [8], [9], [a], [b]: the variant of a version 4 UUID. *)
Definition isVariantDigit (c : Ascii.ascii) : bool :=
  let n := Ascii.nat_of_ascii c in
  (n =? 56)%nat || (n =? 57)%nat || (n =? 97)%nat || (n =? 98)%nat.

(** [s] follows the pattern: a hexadecimal digit for each [x], a variant
    digit for each [y], and the character of the pattern anywhere else. *)
Fixpoint follows (pattern s : string) : bool :=
  match pattern, s with
  | EmptyString, EmptyString => true
  | String p pattern', String c s' =>
      (if Ascii.eqb p "x"%char then isHexDigit c
       else if Ascii.eqb p "y"%char then isVariantDigit c
       else Ascii.eqb p c)
      && follows pattern' s'
  | _, _ => false
  end.

(** The textual form of a version 4 UUID. *)
Definition isUUIDv4 (s : string) : bool :=
  follows "xxxxxxxx-xxxx-4xxx-yxxx-xxxxxxxxxxxx" s.

(** The combo settings that the default profile holds for a built-in
    combo configuration. *)
Definition ofBuiltin (c : DifficultyConfig.ComboConfig) : ProfileUtils.ComboSettings :=
  {| ProfileUtils.comboSize :=
       Some (ProfileUtils.copyRange (DifficultyConfig.comboSize c));
     ProfileUtils.strikeInterval :=
       Some (ProfileUtils.copyRange (DifficultyConfig.strikeInterval c));
     ProfileUtils.restBetweenCombos :=
       Some (ProfileUtils.copyRange (DifficultyConfig.restBetweenCombos c));
     ProfileUtils.totalCombos := Some (DifficultyConfig.totalCombos c) |}.

(** The calls made to the profile context. *)
Inductive Call :=
| CreateProfile (uuid : string) (now : Z) (name : string)
| UpdateProfile (now : Z) (updatedProfile : ProfileUtils.TrainingProfile)
| DeleteProfile (profileId : string)
| SetActiveProfile (profileId : string)
| DuplicateProfile (uuid : string) (now : Z) (sourceId newName : string).

(** The state after a call; a call that throws leaves it as it was. *)
Definition after (s : ProfileContext.Store) (c : Call) : ProfileContext.Store :=
  match c with
  | CreateProfile uuid now name =>
      match ProfileContext.createProfile uuid now name s with
      | Js.Returned (s', _) => s'
      | Js.Thrown => s
      end
  | UpdateProfile now updatedProfile =>
      ProfileContext.updateProfile now updatedProfile s
  | DeleteProfile profileId => ProfileContext.deleteProfile profileId s
  | SetActiveProfile profileId => ProfileContext.setActiveProfile profileId s
  | DuplicateProfile uuid now sourceId newName =>
      match ProfileContext.duplicateProfile uuid now sourceId newName s with
      | Js.Returned (s', _) => s'
      | Js.Thrown => s
      end
  end.

Definition afterAll (s : ProfileContext.Store) (calls : list Call)
  : ProfileContext.Store :=
  fold_left after calls s.

(** The default profile leads the list and the active id names a profile
    of the list. *)
Definition settled (s : ProfileContext.Store) : Prop :=
  (exists customs,
     ProfileContext.profiles s = ProfileUtils.createDefaultProfile :: customs)
  /\ existsb (ProfileContext.hasId (ProfileContext.activeProfileId s))
            (ProfileContext.profiles s) = true.

(** The entries of the storage that [clearStorageByPrefix] is to keep. *)
Definition kept (prefix : string) (e : string * string) : bool :=
  negb (negb (String.eqb (fst e) EmptyString) && Js.startsWith (fst e) prefix).


(** The history cell after calls of [addToHistory] that are all made from
    the same render. *)
Definition recordedTogether (c : TrainingContext.History)
    (calls : list (Z * Q * TrainingContext.SessionData)) : TrainingContext.History :=
  fold_left (fun c' call =>
               TrainingContext.actions_addToHistory
                 (fst (fst call)) (snd (fst call)) (snd call) c')
            calls c.

End Shape.
(** * Properties *)

(** ** Rounding to the nearest double *)

Section Doubles.

Lemma two_nz : ~ (2 == 0)%Q.
Proof. discriminate. Qed.

Lemma pow2_pos (e : Z) : (0 < 2 ^ e)%Q.
Proof. apply Qpower_0_lt. reflexivity. Qed.

Lemma pow2_succ (e : Z) : (2 ^ (e + 1) == 2 ^ e * 2)%Q.
Proof. rewrite Qpower_plus by exact two_nz. reflexivity. Qed.

Lemma pow2_of_Z (n : Z) : 0 <= n -> (inject_Z (2 ^ n) == 2 ^ n)%Q.
Proof. intros H. rewrite Zpower_Qpower by exact H. reflexivity. Qed.

Lemma log2_bounds (n : Z) :
  0 < n -> (2 ^ Z.log2 n <= inject_Z n /\ inject_Z n < 2 ^ Z.log2 n * 2)%Q.
Proof.
  intros Hn. destruct (Z.log2_spec n Hn) as [Hlo Hhi].
  pose proof (Z.log2_nonneg n) as Hl.
  rewrite <- pow2_succ, <- !pow2_of_Z by lia.
  split; [rewrite <- Zle_Qle; exact Hlo | rewrite <- Zlt_Qlt].
  replace (Z.log2 n + 1) with (Z.succ (Z.log2 n)) by lia. exact Hhi.
Qed.

(** [ilog2] is the exponent: [2^(ilog2 x) <= x < 2^(ilog2 x + 1)]. *)
Lemma ilog2_spec (x : Q) :
  (0 < x)%Q -> (2 ^ Js.ilog2 x <= x /\ x < 2 ^ Js.ilog2 x * 2)%Q.
Proof.
  intros Hx. destruct x as [a b].
  assert (Ha : 0 < a) by (unfold Qlt in Hx; cbn in Hx; lia).
  unfold Js.ilog2. cbn [Qnum Qden].
  set (la := Z.log2 a). set (lb := Z.log2 (Z.pos b)).
  destruct (log2_bounds a Ha) as [Ha1 Ha2]. fold la in Ha1, Ha2.
  destruct (log2_bounds (Z.pos b) ltac:(lia)) as [Hb1 Hb2]. fold lb in Hb1, Hb2.
  assert (E : (2 ^ (la - lb) * 2 ^ lb == 2 ^ la)%Q).
  { rewrite Qpower_minus by exact two_nz. field. apply Qpower_not_0. exact two_nz. }
  assert (X : ((a # b) * inject_Z (Z.pos b) == inject_Z a)%Q).
  { unfold Qeq. cbn. lia. }
  pose proof (pow2_pos (la - lb)) as HE. pose proof (pow2_pos lb) as Hq.
  pose proof (pow2_pos la) as Hp.
  set (e := (2 ^ (la - lb))%Q) in *. set (q := (2 ^ lb)%Q) in *.
  set (p := (2 ^ la)%Q) in *. set (x := (a # b)%Q) in *.
  set (a' := inject_Z a) in *. set (b' := inject_Z (Z.pos b)) in *.
  assert (Hlt : (x < e * 2)%Q).
  { apply Qnot_le_lt. intros Hc.
    assert (H1 : (e * 2 * b' <= x * b')%Q)
      by (apply Qmult_le_compat_r; [exact Hc | lra]).
    assert (H2 : (e * q <= e * b')%Q)
      by (apply Qmult_le_l; [exact HE | exact Hb1]).
    lra. }
  assert (Hgt : (e * (1 # 2) < x)%Q).
  { apply Qnot_le_lt. intros Hc.
    assert (H1 : (x * b' <= e * (1 # 2) * b')%Q)
      by (apply Qmult_le_compat_r; [exact Hc | lra]).
    assert (H2 : (e * b' < e * (q * 2))%Q)
      by (apply Qmult_lt_l; [exact HE | exact Hb2]).
    lra. }
  destruct (Qle_bool e x) eqn:B.
  - apply Qle_bool_iff in B. split; assumption.
  - assert (Hn : (x < e)%Q).
    { apply Qnot_le_lt. intros Hc. apply Qle_bool_iff in Hc. congruence. }
    assert (E1 : (2 ^ (la - lb - 1) == e * (1 # 2))%Q).
    { rewrite Qpower_minus by exact two_nz. reflexivity. }
    rewrite E1. split; lra.
Qed.

Lemma ilog2_lower (x : Q) (e : Z) :
  (2 ^ e <= x)%Q -> e <= Js.ilog2 x.
Proof.
  intros H.
  assert (Hx : (0 < x)%Q) by (pose proof (pow2_pos e); lra).
  destruct (ilog2_spec x Hx) as [_ Hhi]. rewrite <- pow2_succ in Hhi.
  assert (L : e < Js.ilog2 x + 1).
  { apply (Qpower_lt_compat_l_inv 2); [| reflexivity].
    apply Qle_lt_trans with x; assumption. }
  lia.
Qed.

Lemma roundHalfEven_error (m : Q) :
  (m - (1 # 2) <= inject_Z (Js.roundHalfEven m)
   /\ inject_Z (Js.roundHalfEven m) <= m + (1 # 2))%Q.
Proof.
  unfold Js.roundHalfEven.
  pose proof (Qfloor_le m) as Hlo. pose proof (Qlt_floor m) as Hhi.
  rewrite inject_Z_plus in Hhi. change (inject_Z 1) with 1%Q in Hhi.
  destruct (m - inject_Z (Qfloor m) ?= 1 # 2)%Q eqn:C.
  - apply Qeq_alt in C.
    destruct (Z.even (Qfloor m)); rewrite ?inject_Z_plus;
      change (inject_Z 1) with 1%Q; split; lra.
  - apply Qlt_alt in C. split; lra.
  - apply Qgt_alt in C. rewrite inject_Z_plus. change (inject_Z 1) with 1%Q.
    split; lra.
Qed.

(** Half a unit in the last place of a number in [1, 2): 2^-53. *)
Definition half_ulp : Q := 1 # 9007199254740992.

(** The relative error of the rounding is at most 2^-53. *)
Lemma toDouble_error (x : Q) :
  (2 ^ (-1022) <= x)%Q ->
  (x * (1 - half_ulp) <= Js.toDouble x /\ Js.toDouble x <= x * (1 + half_ulp))%Q.
Proof.
  intros Hn.
  assert (Hx : (0 < x)%Q) by (pose proof (pow2_pos (-1022)); lra).
  pose proof (ilog2_lower x _ Hn) as Hl.
  assert (E0 : Js.toDouble x = Js.nearestDouble x).
  { unfold Js.toDouble. destruct x as [[| p | p] d]; try reflexivity;
      unfold Qlt in Hx; cbn in Hx; lia. }
  rewrite E0. unfold Js.nearestDouble. rewrite Qred_correct.
  rewrite Z.max_l by lia.
  destruct (ilog2_spec x Hx) as [Hlo _].
  pose proof (pow2_pos (Js.ilog2 x - 52)) as Hs.
  assert (E : (2 ^ (Js.ilog2 x - 52) * 4503599627370496 == 2 ^ Js.ilog2 x)%Q).
  { rewrite Qpower_minus by exact two_nz.
    change (2 ^ 52)%Q with 4503599627370496%Q. field. }
  set (s := (2 ^ (Js.ilog2 x - 52))%Q) in *.
  destruct (roundHalfEven_error (x / s)) as [H1 H2].
  set (n := inject_Z (Js.roundHalfEven (x / s))) in *.
  assert (Hm : (x / s * s == x)%Q) by (field; lra).
  assert (G1 : ((x / s - (1 # 2)) * s <= n * s)%Q)
    by (apply Qmult_le_compat_r; [exact H1 | lra]).
  assert (G2 : (n * s <= (x / s + (1 # 2)) * s)%Q)
    by (apply Qmult_le_compat_r; [exact H2 | lra]).
  unfold half_ulp. split; lra.
Qed.

Lemma toDouble_zero (x : Q) : (x == 0)%Q -> Js.toDouble x = 0%Q.
Proof.
  intros E. unfold Js.toDouble.
  destruct x as [[| p | p] d]; [reflexivity | |];
    unfold Qeq in E; cbn in E; lia.
Qed.

(** [toDouble] depends on the value of the fraction only. *)
Lemma ilog2_unique (x : Q) (e : Z) :
  (2 ^ e <= x)%Q -> (x < 2 ^ e * 2)%Q -> Js.ilog2 x = e.
Proof.
  intros H1 H2. pose proof (ilog2_lower x e H1) as L.
  assert (Hx : (0 < x)%Q) by (pose proof (pow2_pos e); lra).
  destruct (ilog2_spec x Hx) as [H3 _].
  assert (U : Js.ilog2 x < e + 1).
  { apply (Qpower_lt_compat_l_inv 2); [| reflexivity].
    rewrite pow2_succ. apply Qle_lt_trans with x; assumption. }
  lia.
Qed.

Lemma ilog2_proper (x y : Q) : (0 < x)%Q -> (x == y)%Q -> Js.ilog2 x = Js.ilog2 y.
Proof.
  intros Hx E. destruct (ilog2_spec x Hx) as [H1 H2].
  symmetry. apply ilog2_unique; rewrite <- E; assumption.
Qed.

Lemma roundHalfEven_proper (x y : Q) :
  (x == y)%Q -> Js.roundHalfEven x = Js.roundHalfEven y.
Proof.
  intros E. unfold Js.roundHalfEven. rewrite (Qfloor_comp _ _ E).
  assert (C : ((x - inject_Z (Qfloor y) ?= 1 # 2) = (y - inject_Z (Qfloor y) ?= 1 # 2))%Q)
    by (rewrite E; reflexivity).
  rewrite C. reflexivity.
Qed.

Lemma nearestDouble_proper (x y : Q) :
  (0 < x)%Q -> (x == y)%Q -> Js.nearestDouble x = Js.nearestDouble y.
Proof.
  intros Hx E. unfold Js.nearestDouble.
  rewrite (ilog2_proper x y Hx E). apply Qred_complete.
  rewrite (roundHalfEven_proper (x / _) (y / _)) by (rewrite E; reflexivity).
  reflexivity.
Qed.

Lemma toDouble_positive (x : Q) : (0 < x)%Q -> Js.toDouble x = Js.nearestDouble x.
Proof.
  intros Hx. unfold Js.toDouble.
  destruct x as [[| p | p] d]; try reflexivity; unfold Qlt in Hx; cbn in Hx; lia.
Qed.

Lemma toDouble_negative (x : Q) :
  (x < 0)%Q -> Js.toDouble x = (- Js.nearestDouble (- x))%Q.
Proof.
  intros Hx. unfold Js.toDouble.
  destruct x as [[| p | p] d]; try reflexivity; unfold Qlt in Hx; cbn in Hx; lia.
Qed.

Lemma toDouble_proper (x y : Q) : (x == y)%Q -> Js.toDouble x = Js.toDouble y.
Proof.
  intros E. destruct (Q_dec x 0) as [[Hn | Hp] | Hz].
  - rewrite (toDouble_negative x Hn), (toDouble_negative y) by (rewrite <- E; exact Hn).
    rewrite (nearestDouble_proper (- x) (- y)); [reflexivity | lra | rewrite E; reflexivity].
  - rewrite (toDouble_positive x Hp), (toDouble_positive y) by (rewrite <- E; exact Hp).
    apply nearestDouble_proper; assumption.
  - rewrite (toDouble_zero x Hz), (toDouble_zero y) by (rewrite <- E; exact Hz).
    reflexivity.
Qed.

Lemma Qred_Z (z : Z) : Qred (inject_Z z) = inject_Z z.
Proof.
  unfold Qred, inject_Z.
  pose proof (Z.ggcd_gcd z 1) as G. pose proof (Z.ggcd_correct_divisors z 1) as D.
  destruct (Z.ggcd z 1) as [g [a b]]. cbn [fst snd] in *.
  rewrite Z.gcd_1_r in G. subst g. destruct D as [Da Db].
  rewrite Z.mul_1_l in Da, Db. subst a b. reflexivity.
Qed.

Lemma roundHalfEven_Z (k : Z) : Js.roundHalfEven (inject_Z k) = k.
Proof.
  unfold Js.roundHalfEven. rewrite Qfloor_Z.
  assert (E : (inject_Z k - inject_Z k == 0)%Q) by ring.
  rewrite E. reflexivity.
Qed.

(** A whole number up to 2^53 is a double. *)
Lemma nearestDouble_Z (z : Z) :
  0 < z <= 2 ^ 53 -> Js.nearestDouble (inject_Z z) = inject_Z z.
Proof.
  intros Hz.
  destruct (log2_bounds z ltac:(lia)) as [L1 L2].
  pose proof (Z.log2_nonneg z) as Ln.
  assert (Lu : Z.log2 z <= 53).
  { destruct (Z.log2_spec z ltac:(lia)) as [A _].
    apply Z.log2_le_mono in A. rewrite Z.log2_pow2 in A by lia.
    pose proof (Z.log2_le_mono z (2 ^ 53) ltac:(lia)) as B.
    rewrite Z.log2_pow2 in B by lia. exact B. }
  unfold Js.nearestDouble.
  rewrite (ilog2_unique (inject_Z z) (Z.log2 z) L1 L2).
  destruct (Z.le_gt_cases (Z.log2 z) 52) as [Hs | Hb].
  - rewrite Z.max_l by lia.
    set (l := Z.log2 z) in *.
    assert (E : (inject_Z z / 2 ^ (l - 52) == inject_Z (z * 2 ^ (52 - l)))%Q).
    { rewrite inject_Z_mult, pow2_of_Z by lia.
      replace (l - 52) with (- (52 - l)) by lia.
      rewrite Qpower_opp. unfold Qdiv. rewrite Qinv_involutive. reflexivity. }
    rewrite (roundHalfEven_proper _ _ E), roundHalfEven_Z.
    rewrite <- (Qred_Z z). apply Qred_complete.
    rewrite inject_Z_mult, pow2_of_Z by lia.
    rewrite <- Qmult_assoc, <- Qpower_plus by exact two_nz.
    replace (52 - l + (l - 52)) with 0 by lia. change (2 ^ 0)%Q with 1%Q. ring.
  - assert (El : Z.log2 z = 53) by lia.
    assert (Ez : z = 2 ^ 53).
    { destruct (Z.log2_spec z ltac:(lia)) as [A _]. rewrite El in A. lia. }
    subst z. vm_compute. reflexivity.
Qed.

Lemma toDouble_Z (z : Z) :
  - 2 ^ 53 <= z <= 2 ^ 53 -> Js.toDouble (inject_Z z) = inject_Z z.
Proof.
  intros Hz. destruct (Z.lt_trichotomy z 0) as [Hn | [-> | Hp]].
  - rewrite toDouble_negative
      by (change (inject_Z z < inject_Z 0)%Q; rewrite <- Zlt_Qlt; exact Hn).
    rewrite <- inject_Z_opp, nearestDouble_Z by lia.
    destruct z; try lia. reflexivity.
  - reflexivity.
  - rewrite toDouble_positive
      by (change (inject_Z 0 < inject_Z z)%Q; rewrite <- Zlt_Qlt; exact Hp).
    apply nearestDouble_Z. lia.
Qed.

Lemma toDouble_nonneg (x : Q) : (0 <= x)%Q -> (0 <= Js.toDouble x)%Q.
Proof.
  intros Hx. destruct (Qeq_dec x 0) as [Hz | Hnz].
  - rewrite (toDouble_zero x Hz). lra.
  - assert (Hp : (0 < x)%Q) by (apply Qnot_le_lt; intros Hc; apply Hnz; lra).
    rewrite (toDouble_positive x Hp). unfold Js.nearestDouble. rewrite Qred_correct.
    set (e := Z.max (Js.ilog2 x - 52) (-1074)).
    pose proof (pow2_pos e) as He.
    destruct (roundHalfEven_error (x / 2 ^ e)) as [H1 _].
    assert (Hq : (0 < x / 2 ^ e)%Q) by (apply Qlt_shift_div_l; lra).
    assert (Hk : 0 <= Js.roundHalfEven (x / 2 ^ e)).
    { apply Z.lt_pred_le. rewrite Zlt_Qlt. cbn [Z.pred Z.add].
      change (inject_Z (-1)) with (-1)%Q. lra. }
    apply Qmult_le_0_compat; [| lra].
    change (inject_Z 0 <= inject_Z (Js.roundHalfEven (x / 2 ^ e)))%Q.
    rewrite <- Zle_Qle. exact Hk.
Qed.

(** Rounding adds at most half a unit in the last place: 2^-53 of the
    number, or 2^-1075 for the smallest ones. *)
Lemma toDouble_upper (x : Q) :
  (0 < x)%Q ->
  (Js.toDouble x <= x * (1 + half_ulp) \/ Js.toDouble x <= (1 # 2))%Q.
Proof.
  intros Hp. destruct (Qlt_le_dec x (2 ^ (-1022))) as [Hs | Hn].
  - right. rewrite (toDouble_positive x Hp). unfold Js.nearestDouble.
    rewrite Qred_correct.
    assert (Hl : Js.ilog2 x < -1022).
    { destruct (ilog2_spec x Hp) as [H1 _].
      apply (Qpower_lt_compat_l_inv 2); [| reflexivity].
      apply Qle_lt_trans with x; assumption. }
    rewrite Z.max_r by lia.
    pose proof (pow2_pos (-1074)) as He.
    destruct (roundHalfEven_error (x / 2 ^ (-1074))) as [_ H2].
    assert (Hm : (x / 2 ^ (-1074) * 2 ^ (-1074) == x)%Q) by (field; lra).
    assert (G : (inject_Z (Js.roundHalfEven (x / 2 ^ (-1074))) * 2 ^ (-1074)
                 <= (x / 2 ^ (-1074) + (1 # 2)) * 2 ^ (-1074))%Q)
      by (apply Qmult_le_compat_r; [exact H2 | lra]).
    assert (P1 : (2 ^ (-1022) <= 2 ^ (-2))%Q)
      by (apply Qpower_le_compat_l; [lia | discriminate]).
    assert (P2 : (2 ^ (-1074) <= 2 ^ (-2))%Q)
      by (apply Qpower_le_compat_l; [lia | discriminate]).
    change (2 ^ (-2))%Q with (1 # 4)%Q in P1, P2.
    set (s := (2 ^ (-1074))%Q) in *. set (b := (2 ^ (-1022))%Q) in *.
    set (k := inject_Z (Js.roundHalfEven (x / s))) in *.
    set (q := (x / s)%Q) in *.
    assert (G' : (k * s <= x + (1 # 2) * s)%Q) by lra.
    lra.
  - left. apply (toDouble_error x Hn).
Qed.

(** The product of a draw and a whole number [k], on doubles, stays below
    [k]. *)
Lemma draw_product (r : Q) (k : Z) :
  Js.unit_draw r -> 0 < k ->
  (0 <= Js.fmul r (inject_Z k) /\ Js.fmul r (inject_Z k) < inject_Z k)%Q.
Proof.
  intros [Hr0 Hr1] Hk. unfold Js.fmul.
  assert (Hk1 : (1 <= inject_Z k)%Q)
    by (change (inject_Z 1 <= inject_Z k)%Q; rewrite <- Zle_Qle; lia).
  assert (Hx0 : (0 <= r * inject_Z k)%Q) by (apply Qmult_le_0_compat; lra).
  split; [apply toDouble_nonneg; exact Hx0 |].
  destruct (Qeq_dec (r * inject_Z k) 0) as [Hz | Hnz].
  - rewrite (toDouble_zero _ Hz). lra.
  - assert (Hp : (0 < r * inject_Z k)%Q)
      by (apply Qnot_le_lt; intros Hc; apply Hnz; lra).
    assert (Hx1 : (r * inject_Z k <= (1 - half_ulp) * inject_Z k)%Q)
      by (apply Qmult_le_compat_r; [exact Hr1 | lra]).
    destruct (toDouble_upper _ Hp) as [H | H]; [| lra].
    unfold half_ulp in *.
    set (x := (r * inject_Z k)%Q) in *. set (n := inject_Z k) in *.
    assert (G : (x * (1 + (1 # 9007199254740992))
                 <= (1 - (1 # 9007199254740992)) * n * (1 + (1 # 9007199254740992)))%Q)
      by (apply Qmult_le_compat_r; [exact Hx1 | lra]).
    lra.
Qed.



Lemma inject_Z_pred (k : Z) : (inject_Z (k - 1) == inject_Z k - 1)%Q.
Proof.
  unfold Z.sub. rewrite inject_Z_plus, inject_Z_opp. reflexivity.
Qed.

Lemma floor_between (y : Q) (k : Z) :
  (inject_Z k <= y)%Q -> (y < inject_Z k + 1)%Q -> Qfloor y = k.
Proof.
  intros H1 H2.
  assert (A : k <= Qfloor y).
  { rewrite <- (Qfloor_Z k). apply Qfloor_resp_le. exact H1. }
  assert (B : Qfloor y < k + 1).
  { rewrite Zlt_Qlt, inject_Z_plus. change (inject_Z 1) with 1%Q.
    apply Qle_lt_trans with y; [apply Qfloor_le | exact H2]. }
  lia.
Qed.

(** [Math.round((h / t) * 100)] on doubles, against the exact quotient: it
    is the integer nearest to [100 h / t], except that at a tie, where
    [100 h / t] is half-way between two integers, it can be the lower of
    the two. *)
Lemma rounded_percentage (h t : Z) :
  0 <= h < 2 ^ 44 -> 0 < t < 2 ^ 53 ->
  let shown := Js.Math_round (Js.fmul (Js.fdiv (inject_Z h) (inject_Z t)) 100) in
  shown = Spec.nearest (100 * h) t
  \/ ((200 * h + t) mod (2 * t) = 0 /\ shown = Spec.nearest (100 * h) t - 1).
Proof.
  intros Hh Ht shown. unfold Spec.nearest.
  replace (2 * (100 * h) + t) with (200 * h + t) by lia.
  assert (Ht' : (0 < inject_Z t)%Q)
    by (change (inject_Z 0 < inject_Z t)%Q; rewrite <- Zlt_Qlt; lia).
  destruct (Z.eq_dec h 0) as [-> | Hnz].
  - left. unfold shown, Js.fdiv, Js.fmul.
    rewrite (toDouble_zero (inject_Z 0 / inject_Z t)) by (field; lra).
    rewrite (toDouble_zero (0 * 100)) by reflexivity.
    change (Js.Math_round 0) with 0. symmetry. apply Z.div_small. lia.
  - set (x := (inject_Z h / inject_Z t)%Q).
    set (d := ((1 # 2) / inject_Z t)%Q).
    assert (Hd : (0 < d)%Q) by (unfold d; apply Qlt_shift_div_l; lra).
    assert (Hd1 : (inject_Z t * d == 1 # 2)%Q) by (unfold d; field; lra).
    assert (Hxd : (x == inject_Z h * (2 * d))%Q) by (unfold x, d; field; lra).
    assert (Hh1 : (1 <= inject_Z h)%Q)
      by (change (inject_Z 1 <= inject_Z h)%Q; rewrite <- Zle_Qle; lia).
    assert (Hh2 : (inject_Z h <= 17592186044416)%Q)
      by (change (inject_Z h <= inject_Z (2 ^ 44))%Q; rewrite <- Zle_Qle; lia).
    assert (Ht2 : (inject_Z t <= 9007199254740992)%Q)
      by (change (inject_Z t <= inject_Z (2 ^ 53))%Q; rewrite <- Zle_Qle; lia).
    assert (Hx1 : (2 * d <= x)%Q).
    { rewrite Hxd. rewrite <- (Qmult_1_l (2 * d)) at 1.
      apply Qmult_le_compat_r; [exact Hh1 | lra]. }
    assert (Hx2 : (x <= 17592186044416 * (2 * d))%Q).
    { rewrite Hxd. apply Qmult_le_compat_r; [exact Hh2 | lra]. }
    assert (Hd2 : (1 # 18014398509481984 <= d)%Q).
    { unfold d. apply Qle_shift_div_l; [exact Ht' |]. lra. }
    assert (P : (2 ^ (-1022) <= 1 # 9007199254740992)%Q).
    { change (1 # 9007199254740992)%Q with (2 ^ (-53))%Q.
      apply Qpower_le_compat_l; [lia | discriminate]. }
    destruct (toDouble_error x ltac:(lra)) as [A1 A2].
    set (a := Js.toDouble x) in *. unfold half_ulp in A1, A2.
    destruct (toDouble_error (a * 100) ltac:(lra)) as [B1 B2].
    set (b := Js.toDouble (a * 100)) in *. unfold half_ulp in B1, B2.
    assert (Es : shown = Qfloor (b + (1 # 2))) by reflexivity.
    assert (Hb : (100 * x - d < b /\ b < 100 * x + d)%Q) by (split; lra).
    clear A1 A2 B1 B2.
    pose proof (Z.div_mod (200 * h + t) (2 * t) ltac:(lia)) as Hdm.
    pose proof (Z.mod_pos_bound (200 * h + t) (2 * t) ltac:(lia)) as Hr.
    set (k := (200 * h + t) / (2 * t)) in *.
    set (r := (200 * h + t) mod (2 * t)) in *.
    assert (Hk : (100 * x + (1 # 2) == inject_Z k + inject_Z r * d)%Q).
    { assert (E1 : (100 * x + (1 # 2) == inject_Z (200 * h + t) * d)%Q).
      { rewrite inject_Z_plus, inject_Z_mult. change (inject_Z 200) with 200%Q.
        unfold x, d. field. lra. }
      rewrite E1, Hdm, inject_Z_plus, !inject_Z_mult.
      change (inject_Z 2) with 2%Q.
      setoid_replace ((2 * inject_Z t * inject_Z k + inject_Z r) * d)%Q
        with (2 * (inject_Z t * d) * inject_Z k + inject_Z r * d)%Q by ring.
      rewrite Hd1. ring. }
    rewrite Es.
    destruct (Z.eq_dec r 0) as [Hr0 | Hr0].
    + rewrite Hr0 in Hk. change (inject_Z 0) with 0%Q in Hk.
      assert (Hdh : (d <= 1 # 2)%Q).
      { unfold d. apply Qle_shift_div_r; [exact Ht' |].
        assert (1 <= inject_Z t)%Q
          by (change (inject_Z 1 <= inject_Z t)%Q; rewrite <- Zle_Qle; lia).
        lra. }
      destruct (Qlt_le_dec (b + (1 # 2)) (inject_Z k)) as [Hlow | Hup].
      * right. split; [exact Hr0 |]. apply floor_between.
        -- rewrite inject_Z_pred. lra.
        -- rewrite inject_Z_pred. lra.
      * left. apply floor_between; lra.
    + left.
      assert (R1 : (d <= inject_Z r * d)%Q).
      { rewrite <- (Qmult_1_l d) at 1. apply Qmult_le_compat_r; [| lra].
        change (inject_Z 1 <= inject_Z r)%Q. rewrite <- Zle_Qle. lia. }
      assert (R2 : (inject_Z r * d <= 1 - d)%Q).
      { assert (R3 : (inject_Z r * d <= inject_Z (2 * t - 1) * d)%Q).
        { apply Qmult_le_compat_r; [| lra]. rewrite <- Zle_Qle. lia. }
        unfold Z.sub in R3.
        rewrite inject_Z_plus, inject_Z_mult, inject_Z_opp in R3.
        change (inject_Z 2) with 2%Q in R3. change (inject_Z 1) with 1%Q in R3.
        lra. }
      apply floor_between; lra.
Qed.

End Doubles.

(** ** Random draws stay in their range *)

Section Draws.

Import DifficultyConfig.

Lemma floor_of_draw (r : Q) (k : Z) :
  Js.unit_draw r -> 0 < k -> 0 <= Js.Math_floor (Js.fmul r (inject_Z k)) < k.
Proof.
  intros Hr Hk. unfold Js.Math_floor.
  destruct (draw_product r k Hr Hk) as [Hlo Hhi].
  split.
  - rewrite <- (Qfloor_Z 0). apply Qfloor_resp_le. exact Hlo.
  - rewrite Zlt_Qlt.
    apply Qle_lt_trans with (Js.fmul r (inject_Z k)); [apply Qfloor_le | exact Hhi].
Qed.

Lemma randomInRange_bounds (r : Q) (rg : Range) :
  Js.unit_draw r -> min rg <= max rg ->
  min rg <= randomInRange r rg <= max rg.
Proof.
  intros Hr Hle. unfold randomInRange.
  pose proof (floor_of_draw r (max rg - min rg + 1) Hr ltac:(lia)). lia.
Qed.

(** A degenerate range leaves no choice to the draw. *)
Lemma randomInRange_degenerate (r : Q) (rg : Range) :
  Js.unit_draw r -> min rg = max rg -> randomInRange r rg = min rg.
Proof.
  intros Hr He. pose proof (randomInRange_bounds r rg Hr ltac:(lia)). lia.
Qed.

(** On whole bounds every operation of the formula but the product is
    exact. *)
Lemma getRandomIntervalOn_whole (r : Q) (lo hi : Z) :
  Js.unit_draw r -> lo <= hi -> - 2 ^ 51 <= lo -> hi <= 2 ^ 51 ->
  getRandomIntervalOn r (inject_Z lo) (inject_Z hi)
  = inject_Z (Js.Math_floor (Js.fmul r (inject_Z (hi - lo + 1))) + lo).
Proof.
  intros Hr Hle Hlo Hhi.
  pose proof (floor_of_draw r (hi - lo + 1) Hr ltac:(lia)) as Hf.
  unfold getRandomIntervalOn, Js.fadd, Js.fsub.
  rewrite (toDouble_proper (inject_Z hi - inject_Z lo) (inject_Z (hi - lo)))
    by (unfold Z.sub; rewrite inject_Z_plus, inject_Z_opp; reflexivity).
  rewrite toDouble_Z by lia.
  rewrite (toDouble_proper (inject_Z (hi - lo) + 1) (inject_Z (hi - lo + 1)))
    by (rewrite (inject_Z_plus (hi - lo) 1); reflexivity).
  rewrite toDouble_Z by lia.
  set (f := Js.Math_floor (Js.fmul r (inject_Z (hi - lo + 1)))) in *.
  rewrite (toDouble_proper (inject_Z f + inject_Z lo) (inject_Z (f + lo)))
    by (rewrite inject_Z_plus; reflexivity).
  apply toDouble_Z. lia.
Qed.

End Draws.

(** C7 (as the code has it).  For a difficulty with whole bounds
    [minInterval <= maxInterval] and every draw of [Math.random()],
    [getRandomInterval] returns a whole number of the inclusive range
    [minInterval, maxInterval]: the formula of the source, computed on
    doubles from the two bounds taken as numbers, gives that whole
    number. *)
Theorem getRandomInterval_in_range (r : Q) (d : DifficultyConfig.Difficulty) :
  Js.unit_draw r ->
  DifficultyConfig.minInterval d <= DifficultyConfig.maxInterval d ->
  - 2 ^ 51 <= DifficultyConfig.minInterval d ->
  DifficultyConfig.maxInterval d <= 2 ^ 51 ->
  DifficultyConfig.minInterval d
  <= DifficultyConfig.getRandomInterval r d
  <= DifficultyConfig.maxInterval d
  /\ DifficultyConfig.getRandomIntervalOn r
       (inject_Z (DifficultyConfig.minInterval d))
       (inject_Z (DifficultyConfig.maxInterval d))
     = inject_Z (DifficultyConfig.getRandomInterval r d).
Proof.
  intros Hr Hle Hlo Hhi. split.
  - unfold DifficultyConfig.getRandomInterval.
    pose proof (floor_of_draw r
                  (DifficultyConfig.maxInterval d - DifficultyConfig.minInterval d + 1)
                  Hr ltac:(lia)).
    lia.
  - apply getRandomIntervalOn_whole; assumption.
Qed.

(** The range [1000, 1800] of the Normal difficulty, at the draw 1/2. *)
Lemma getRandomInterval_in_range_witness :
  let normal := DifficultyConfig.asDifficulty DifficultyConfig.DEFAULT_DIFFICULTY in
  DifficultyConfig.minInterval normal = 1000
  /\ DifficultyConfig.maxInterval normal = 1800
  /\ 1000 <= DifficultyConfig.getRandomInterval (1 # 2) normal <= 1800
  /\ DifficultyConfig.getRandomIntervalOn (1 # 2) (inject_Z 1000) (inject_Z 1800)
     = inject_Z (DifficultyConfig.getRandomInterval (1 # 2) normal).
Proof.
  cbv zeta. split; [reflexivity |]. split; [reflexivity |].
  apply (getRandomInterval_in_range (1 # 2)
           (DifficultyConfig.asDifficulty DifficultyConfig.DEFAULT_DIFFICULTY)).
  - split; [discriminate | discriminate].
  - vm_compute. discriminate.
  - vm_compute. discriminate.
  - vm_compute. discriminate.
Defined.

(** C7 fails when the bounds are not whole, which neither the settings
    editor nor [validateProfile] excludes: between 100.5 and 100.75, at the
    draw 0.875 (all three are doubles, and so is every intermediate value),
    the formula gives 101.5, which is not a whole number and lies above
    [maxInterval]. *)
Lemma fractional_bounds_leave_the_range :
  Js.unit_draw (7 # 8)
  /\ (201 # 2 <= 403 # 4)%Q
  /\ DifficultyConfig.getRandomIntervalOn (7 # 8) (201 # 2) (403 # 4) = (203 # 2)%Q
  /\ (403 # 4 < 203 # 2)%Q
  /\ forall k : Z, ~ (203 # 2 == inject_Z k)%Q.
Proof.
  split; [split; discriminate |].
  split; [discriminate |]. split; [vm_compute; reflexivity |]. split; [reflexivity |].
  intros k E. unfold Qeq in E. cbn in E. lia.
Qed.

(** ** Completion rate *)

(** C9 (as the code has it).  The statistics calculator computes
    [Math.round((hitsCompleted / totalHits) * 100)] on doubles, and 0 when
    [totalHits] is not positive, never dividing by zero: for counts in the
    range of the program it is the integer nearest to the exact percentage,
    save that at a tie, where the exact percentage is half-way between two
    integers, the rounding of the quotient can leave the lower of the two
    (23 of 40 gives 57).  20 of 30 gives 67 and any count of 0 gives 0.
    The results summary computes the same against the sum of the recorded
    [totalHits], but gives 100, not 0, when that sum is not positive. *)
Theorem completion_rate_by_code (h t : Z)
    (history : list TrainingContext.SessionHistoryEntry) :
  0 <= h < 2 ^ 44 ->
  (0 < t < 2 ^ 53 ->
   StatsCalculator.completionRate h t = Spec.nearest (100 * h) t
   \/ ((200 * h + t) mod (2 * t) = 0
       /\ StatsCalculator.completionRate h t = Spec.nearest (100 * h) t - 1))
  /\ (t <= 0 -> StatsCalculator.completionRate h t = 0)
  /\ (let total := ResultsScreen.totalExpectedHits history in
      (0 < total < 2 ^ 53 ->
       ResultsScreen.completionRate h history = Spec.nearest (100 * h) total
       \/ ((200 * h + total) mod (2 * total) = 0
           /\ ResultsScreen.completionRate h history
              = Spec.nearest (100 * h) total - 1))
      /\ (total <= 0 -> ResultsScreen.completionRate h history = 100))
  /\ StatsCalculator.completionRate 20 30 = 67
  /\ StatsCalculator.completionRate 23 40 = 57
  /\ StatsCalculator.stat_completionRate
       (StatsCalculator.calculateSessionStats 1000 61000 20 30) = 67.
Proof.
  intros Hh. split; [| split; [| split; [| split; [| split]]]].
  - intros Ht. unfold StatsCalculator.completionRate.
    destruct (Z.ltb_spec 0 t); [| lia].
    apply (rounded_percentage h t Hh Ht).
  - intros Ht. unfold StatsCalculator.completionRate.
    destruct (Z.ltb_spec 0 t); [lia | reflexivity].
  - cbv zeta. split.
    + intros Ht. unfold ResultsScreen.completionRate. cbv zeta.
      destruct (Z.ltb_spec 0 (ResultsScreen.totalExpectedHits history)); [| lia].
      apply (rounded_percentage h _ Hh Ht).
    + intros Ht. unfold ResultsScreen.completionRate. cbv zeta.
      destruct (Z.ltb_spec 0 (ResultsScreen.totalExpectedHits history));
        [lia | reflexivity].
  - vm_compute. reflexivity.
  - vm_compute. reflexivity.
  - vm_compute. reflexivity.
Qed.

(** 45 hits of 45, and 23 of 40 where the tie goes down. *)
Lemma completion_rate_by_code_witness :
  StatsCalculator.completionRate 45 45 = 100
  /\ StatsCalculator.completionRate 23 40 = 57.
Proof.
  destruct (completion_rate_by_code 45 45 [] ltac:(lia)) as (H & _).
  destruct (completion_rate_by_code 23 40 [] ltac:(lia)) as (_ & _ & _ & _ & H' & _).
  split; [| exact H'].
  destruct (H ltac:(lia)) as [E | [E _]].
  - rewrite E. reflexivity.
  - vm_compute in E. discriminate E.
Defined.

(** C9 fails in the results summary: with no expected hits it shows 100,
    not 0. *)
Lemma results_rate_without_total_is_100 :
  ResultsScreen.totalExpectedHits [] = 0
  /\ ResultsScreen.completionRate 0 [] = 100
  /\ ResultsScreen.completionRate 0 [] <> 0.
Proof. repeat split; try reflexivity. discriminate. Qed.


(** ** Phase requests *)

Section PhaseRequests.

Import TrainingContext.

Lemma includes_In (l : list string) (s : string) :
  Js.includes l s = true <-> In s l.
Proof.
  unfold Js.includes. rewrite existsb_exists. split.
  - intros [x [Hin Heq]]. apply String.eqb_eq in Heq. subst. exact Hin.
  - intros Hin. exists s. split; [exact Hin | apply String.eqb_refl].
Qed.

End PhaseRequests.

(** C3 (as the code has it).  The reducer rejects a [SET_PHASE] request,
    leaving the state unchanged, exactly when the payload is not the name of
    one of the seven phases; a request that names a phase is accepted from
    every current phase: the phase becomes the requested one and nothing
    else changes. *)
Theorem set_phase_checks_name_only
    (state : TrainingContext.TrainingState) (payload : string) :
  (In payload TrainingContext.TRAINING_PHASES ->
     TrainingContext.trainingReducer state (TrainingContext.SET_PHASE payload)
       = TrainingContext.set_phase state payload)
  /\ (~ In payload TrainingContext.TRAINING_PHASES ->
     TrainingContext.trainingReducer state (TrainingContext.SET_PHASE payload)
       = state).
Proof.
  unfold TrainingContext.trainingReducer. split; intros H.
  - apply includes_In in H. rewrite H. reflexivity.
  - destruct (Js.includes TrainingContext.TRAINING_PHASES payload) eqn:E.
    + apply includes_In in E. contradiction.
    + reflexivity.
Qed.

(** A request for BREAK is accepted in the initial, idle state. *)
Lemma set_phase_checks_name_only_witness :
  TrainingContext.phase
    (TrainingContext.trainingReducer TrainingContext.initialState
       (TrainingContext.SET_PHASE TrainingContext.BREAK))
  = TrainingContext.BREAK
  /\ TrainingContext.trainingReducer TrainingContext.initialState
       (TrainingContext.SET_PHASE "PAUSED")
     = TrainingContext.initialState.
Proof.
  split.
  - rewrite (proj1 (set_phase_checks_name_only TrainingContext.initialState
                      TrainingContext.BREAK)).
    + reflexivity.
    + simpl. tauto.
  - apply (proj2 (set_phase_checks_name_only TrainingContext.initialState "PAUSED")).
    simpl. intros H.
    repeat (destruct H as [H | H]; [discriminate H |]). exact H.
Defined.

(** C3 fails: BREAK is not reachable from IDLE in the state machine of the
    specification, yet the request is accepted and changes the state. *)
Lemma idle_to_break_is_accepted :
  Spec.transition TrainingContext.IDLE TrainingContext.BREAK = false
  /\ TrainingContext.trainingReducer TrainingContext.initialState
       (TrainingContext.SET_PHASE TrainingContext.BREAK)
     <> TrainingContext.initialState.
Proof. split; [reflexivity | discriminate]. Qed.

(** ** History recorder *)

Section History.

Import TrainingContext UseLocalStorage.


Lemma addToHistory_shape (stamp : Z) (r : Q) (entry : SessionData)
    (prev : list SessionHistoryEntry) :
  addToHistory stamp r entry prev = stampEntry stamp r entry :: firstn 9 prev.
Proof. reflexivity. Qed.





End History.


(** ** Merging a partial profile with the defaults *)

Section Merge.

Import ProfileUtils Obs.

Lemma mergeRange_leaves (c d : option RangeSettings) :
  rangeLeaves (mergeRange c d) = mergeLeaves (rangeLeaves c) (rangeLeaves d).
Proof.
  destruct c as [[[a|] [b|]]|]; destruct d as [[[x|] [y|]]|]; reflexivity.
Qed.

Lemma orElse_leaf (a b : option string) :
  option_map LString (orElse a b)
  = mergeLeaf (option_map LString a) (option_map LString b).
Proof.
  destruct a as [s|]; [| reflexivity].
  destruct s as [| ch s]; reflexivity.
Qed.

Lemma coalesce_number (a b : option Z) :
  option_map LNumber (coalesce a b)
  = mergeLeaf (option_map LNumber a) (option_map LNumber b).
Proof. destruct a; reflexivity. Qed.

Lemma coalesce_bool (a b : option bool) :
  option_map LBool (coalesce a b)
  = mergeLeaf (option_map LBool a) (option_map LBool b).
Proof. destruct a; reflexivity. Qed.

Lemma mergeLeaves_app (a b c d : list (option Leaf)) :
  List.length a = List.length c ->
  mergeLeaves (a ++ b) (c ++ d) = (mergeLeaves a c ++ mergeLeaves b d)%list.
Proof.
  revert c. induction a as [| x a IH]; intros [| y c] H; try discriminate H.
  - reflexivity.
  - simpl. f_equal. apply IH. simpl in H. congruence.
Qed.

Lemma mergeLeaves_none (l : list (option Leaf)) :
  mergeLeaves (map (fun _ => None) l) l = l.
Proof. induction l as [| x l IH]; simpl; [reflexivity | f_equal; exact IH]. Qed.

(** The merge of one difficulty is the leaf-by-leaf merge. *)
Lemma mergeDifficulty_leaves (c : option DifficultySettings)
    (d : DifficultySettings) :
  leaves (Some (mergeDifficulty c d)) = mergeLeaves (leaves c) (leaves (Some d)).
Proof.
  destruct c as [c|].
  - unfold leaves, mergeDifficulty. cbn [get id name minInterval maxInterval
      totalHits combo rest].
    rewrite !mergeLeaves_app by reflexivity.
    cbn [mergeLeaves app].
    rewrite orElse_leaf, orElse_leaf, !coalesce_number.
    rewrite mergeRange_leaves.
    destruct (combo c) as [cb|]; destruct (rest c) as [rs|];
      cbn [mergeCombo mergeRest get comboSize strikeInterval restBetweenCombos
             totalCombos enabled breakDuration];
      rewrite ?mergeRange_leaves, ?coalesce_number, ?coalesce_bool;
      try reflexivity.
    all: repeat (f_equal; try reflexivity).
    all: try (destruct (get (combo d) comboSize) as [[[?|] [?|]]|]; reflexivity).
    all: try (destruct (get (combo d) strikeInterval) as [[[?|] [?|]]|]; reflexivity).
    all: try (destruct (get (combo d) restBetweenCombos) as [[[?|] [?|]]|]; reflexivity).
  - cbn [mergeDifficulty]. symmetry. apply (mergeLeaves_none (leaves (Some d))).
Qed.

Lemma leaves_length (d : option DifficultySettings) :
  List.length (leaves d) = 15%nat.
Proof. reflexivity. Qed.

Lemma mergeLeaves_populated (custom dflt : list (option Leaf)) :
  List.length custom = List.length dflt ->
  forallb isSome dflt = true ->
  forallb isSome (mergeLeaves custom dflt) = true.
Proof.
  revert dflt. induction custom as [| c cs IH]; intros [| d ds] Hlen Hall;
    try discriminate Hlen; [reflexivity |].
  simpl in Hall. apply andb_true_iff in Hall. destruct Hall as [Hd Hds].
  simpl. apply andb_true_iff. split.
  - destruct c as [[[| ch s] | z | b] |]; simpl; try reflexivity; exact Hd.
  - apply IH; [simpl in Hlen; congruence | exact Hds].
Qed.

Lemma mergeDifficulty_populated (c : option DifficultySettings)
    (d : DifficultySettings) :
  populated d = true -> populated (mergeDifficulty c d) = true.
Proof.
  intros Hd. unfold populated. rewrite mergeDifficulty_leaves.
  apply mergeLeaves_populated; [rewrite !leaves_length; reflexivity | exact Hd].
Qed.

Lemma coalesce_ordered (a b x y : option Z) :
  wholeOrAbsent a b -> ordered x y -> ordered (coalesce a x) (coalesce b y).
Proof.
  intros [[-> ->] | (u & v & -> & -> & Huv)] Hxy.
  - exact Hxy.
  - exists u, v. auto.
Qed.

Lemma mergeRange_ordered (c d : option RangeSettings) :
  rangeWholeOrAbsent c -> rangeOrdered d -> rangeOrdered (mergeRange c d).
Proof.
  intros [-> | (u & v & Hu & Hv & Huv)] Hd.
  - exact Hd.
  - destruct c as [c|]; [| discriminate Hu].
    cbn [get] in Hu, Hv. unfold rangeOrdered. cbn [mergeRange get min max].
    rewrite Hu, Hv. exists u, v. auto.
Qed.

Lemma mergeDifficulty_ordered (c : option DifficultySettings)
    (d : DifficultySettings) :
  carriesWholeRanges c -> rangesOrdered d -> rangesOrdered (mergeDifficulty c d).
Proof.
  intros Hc (Hi & Ht & Hs & Hk & Hr).
  destruct c as [c|]; [| repeat split; assumption].
  destruct Hc as (Hci & Hct & Hcc).
  unfold rangesOrdered. cbn [mergeDifficulty minInterval maxInterval totalHits combo].
  split; [apply coalesce_ordered; assumption |].
  split; [apply mergeRange_ordered; assumption |].
  destruct (combo c) as [cb|].
  - destruct Hcc as (Hcs & Hck & Hcr).
    cbn [mergeCombo get comboSize strikeInterval restBetweenCombos].
    repeat split; apply mergeRange_ordered; assumption.
  - cbn [mergeCombo]. repeat split; assumption.
Qed.

Lemma ordered_intro (x y : Z) : x <= y -> ordered (Some x) (Some y).
Proof. intros H. exists x, y. auto. Qed.

Lemma defaults_populated_ordered (d : DifficultySettings) :
  In d defaultDifficulties -> populated d = true /\ rangesOrdered d.
Proof.
  intros Hin. cbv [defaultDifficulties zipSettings DifficultyConfig.DIFFICULTIES
    DifficultyConfig.COMBO_SETTINGS] in Hin.
  repeat (destruct Hin as [<- | Hin];
          [split; [reflexivity |];
           unfold rangesOrdered, rangeOrdered; cbn;
           repeat split; apply ordered_intro; lia |]).
  destruct Hin.
Qed.

End Merge.

(** C4 (as the code has it).  For every partial profile, [mergeWithDefaults]
    returns the five difficulties with every leaf populated.  Leaf by leaf,
    the result holds the leaf of the partial difficulty of the same id when
    that leaf is there, except that an empty-string name counts as omitted,
    and the built-in default for that exact leaf otherwise.  When each range
    that the partial difficulty carries is carried whole, with min <= max,
    every range of the result satisfies min <= max. *)
Theorem merge_is_leaf_by_leaf (uuid : string) (now : Z)
    (partial : ProfileUtils.TrainingProfile) :
  exists merged,
    ProfileUtils.difficulties (ProfileUtils.mergeWithDefaults uuid now partial)
      = Some merged
    /\ List.length merged = 5%nat
    /\ forall i d m,
         nth_error ProfileUtils.defaultDifficulties i = Some d ->
         nth_error merged i = Some m ->
         Obs.populated m = true
         /\ Obs.leaves (Some m)
            = Obs.mergeLeaves (Obs.leaves (ProfileUtils.findCustom partial d))
                              (Obs.leaves (Some d))
         /\ (Obs.carriesWholeRanges (ProfileUtils.findCustom partial d) ->
             Obs.rangesOrdered m).
Proof.
  eexists. split; [reflexivity |]. split; [reflexivity |].
  intros i d m Hd Hm.
  rewrite nth_error_map, Hd in Hm. cbn [option_map] in Hm.
  injection Hm as <-.
  destruct (defaults_populated_ordered d (nth_error_In _ _ Hd)) as [Hp Ho].
  split; [apply mergeDifficulty_populated; exact Hp |].
  split; [apply mergeDifficulty_leaves |].
  intros Hc. apply mergeDifficulty_ordered; assumption.
Qed.

(** ** Validation of a profile *)

Section Validation.

Import ProfileUtils Obs.










End Validation.



(** The merge of a profile that overrides the interval of Normal. *)
Lemma merge_is_leaf_by_leaf_witness :
  exists m,
    Obs.mergedAt "uuid" 0 Samples.overrideNormal 2 = Some m
    /\ Obs.populated m = true
    /\ ProfileUtils.minInterval m = Some 900
    /\ Obs.rangesOrdered m.
Proof.
  destruct (merge_is_leaf_by_leaf "uuid" 0 Samples.overrideNormal)
    as (merged & Hm & _ & H).
  unfold Obs.mergedAt. rewrite Hm.
  cbv in Hm. injection Hm as <-.
  eexists. split; [reflexivity |].
  edestruct (H 2%nat) as (Hp & Hl & Ho); [reflexivity | reflexivity |].
  split; [exact Hp |]. split; [reflexivity |].
  apply Ho. cbn.
  split; [right; apply ordered_intro; lia |].
  split; [left; reflexivity | exact I].
Defined.

(** C4 fails on a leaf that is there: the empty name of the stored Normal
    difficulty is not kept, the merge returns the default name. *)
Lemma empty_name_is_not_kept :
  exists c m,
    ProfileUtils.difficulties Samples.blankName = Some [c]
    /\ ProfileUtils.name c = Some EmptyString
    /\ Obs.mergedAt "uuid" 0 Samples.blankName 2 = Some m
    /\ ProfileUtils.id m = ProfileUtils.id c
    /\ ProfileUtils.name m = Some "Normal"
    /\ ProfileUtils.name m <> ProfileUtils.name c.
Proof.
  do 2 eexists. repeat split; try reflexivity. discriminate.
Qed.

(** Why the ranges must be carried whole: a stored [minInterval] of 5000
    next to the default [maxInterval] of 4000 gives an inverted range. *)
Lemma lone_leaf_can_invert_a_range :
  exists m,
    Obs.mergedAt "uuid" 0 Samples.loneMinInterval 0 = Some m
    /\ ProfileUtils.minInterval m = Some 5000
    /\ ProfileUtils.maxInterval m = Some 4000
    /\ ProfileUtils.errors (ProfileUtils.validateProfile Samples.loneMinInterval) = [].
Proof. eexists. repeat split; reflexivity. Qed.



(** A name that is one no-break space is blank: [trim] removes U+00A0 as
    it removes the space, and the profile is refused. *)
Lemma no_break_space_is_no_name :
  ProfileUtils.errors (ProfileUtils.validateProfile Samples.spaceNamed)
  = ["Profile name is required"]
  /\ ProfileUtils.handleSave_accepts Samples.spaceNamed = false
  /\ ~ Obs.named Samples.spaceNamed.
Proof.
  split; [reflexivity |]. split; [reflexivity |].
  intros (s & E & H). injection E as <-. discriminate H.
Qed.

(** ** Scheduling a combo *)

Section Combo.

Import DifficultyConfig TrainingContext App Trace.

Variable draws : nat -> Q.
Variable getEffectiveComboSettings : string -> option ComboConfig.






End Combo.

(** ** The machine: single-mode sessions

    The proofs run the machine on a world whose fields are variables.  The
    definitions of the machine unfold when they are applied to a world;
    [flush] is stepped by hand, one commit at a time. *)

Arguments App.ret {A} _ _ /.
Arguments App.bind {A B} _ _ _ /.
Arguments App.exec {A} _ _ /.
Arguments App.Math_random _ _ /.
Arguments App.Date_now _ /.
Arguments App.setTimeout _ _ _ /.
Arguments App.clearTimeout _ _ /.
Arguments App.clearIfSet _ _ /.
Arguments App.play _ _ /.
Arguments App.requestWakeLock _ /.
Arguments App.releaseWakeLock _ /.
Arguments App.render _ /.
Arguments App.getRefs _ /.
Arguments App.setRefs _ _ /.
Arguments App.setState _ _ /.
Arguments App.dispatch _ _ /.
Arguments App.setPhase _ _ /.
Arguments App.incrementHits _ /.
Arguments App.incrementCombos _ /.
Arguments App.incrementSession _ /.
Arguments App.resetSession _ /.
Arguments App.resetAll _ /.
Arguments App.addEntry _ _ _ /.
Arguments App.getRandomAction : simpl never.
Arguments App.playAction : simpl never.
Arguments App.scheduleNextAction _ _ /.
Arguments App.onActionFire _ _ /.
Arguments App.onActionDisplayEnd _ /.
Arguments App.pushComboTimer _ _ /.
Arguments App.scheduleCombo _ _ _ /.
Arguments App.onStrikeFire _ _ /.
Arguments App.onStrikeDisplayEnd _ /.
Arguments App.sampleTotalHits _ _ _ /.
Arguments App.runCountdown _ _ /.
Arguments App.onCountdownTick _ _ /.
Arguments App.onCountdownDone _ _ /.
Arguments App.runBreak _ _ /.
Arguments App.onBreakTick _ _ /.
Arguments App.run _ _ _ _ /.
Arguments App.countdownCleanup _ _ /.
Arguments App.countdownEffect _ _ /.
Arguments App.singleCleanup _ _ /.
Arguments App.singleEffect _ _ _ /.
Arguments App.comboCleanup _ _ _ /.
Arguments App.comboEffect _ _ _ _ /.
Arguments App.finishSession _ _ /.
Arguments App.singleCompletionEffect _ _ _ /.
Arguments App.comboCompletionEffect _ _ _ /.
Arguments App.breakCleanup _ _ /.
Arguments App.breakEffect _ _ /.
Arguments App.completeEffect _ _ /.
Arguments App.idleEffect _ _ /.
Arguments App.guard _ _ _ /.
Arguments App.cleanups _ _ _ _ /.
Arguments App.bodies _ _ _ _ _ /.
Arguments App.logPhase _ _ _ /.
Arguments App.commit _ _ _ /.
Arguments App.fire _ _ _ /.
Arguments App.handleStartTraining _ _ _ /.
Arguments App.handleConfirmStop _ _ _ /.
Arguments App.handleTrainAgain _ _ _ /.
Arguments App.handleChangeSettings _ _ _ /.
Arguments App.mountEffects _ _ _ _ /.
Arguments App.phaseIs _ _ /.
Arguments App.typeIs _ _ /.
Arguments App.phaseChanged _ _ /.
Arguments App.typeChanged _ _ /.
Arguments App.hitsChanged _ _ /.
Arguments App.combosChanged _ _ /.
Arguments App.sessionChanged _ _ /.
Arguments App.countdownChanged _ _ /.
Arguments App.singleChanged _ _ /.
Arguments App.singleActive _ /.
Arguments App.comboChanged _ _ /.
Arguments App.comboActive _ _ /.
Arguments App.singleCompletionChanged _ _ /.
Arguments App.singleComplete _ /.
Arguments App.comboCompletionChanged _ _ /.
Arguments App.completeChanged _ _ /.
Arguments App.nextDue _ /.
Arguments App.with_state _ _ /.
Arguments App.with_sessionHistory _ _ /.
Arguments App.with_countdownValue _ _ /.
Arguments App.with_currentAction _ _ /.
Arguments App.with_breakTimeRemaining _ _ /.
Arguments App.with_trainingStartTime _ _ /.
Arguments App.with_trainingEndTime _ _ /.
Arguments App.with_sessionStartTime _ _ /.
Arguments App.with_sessionTotalHits _ _ /.
Arguments App.with_countdownTimerRef _ _ /.
Arguments App.with_actionTimerRef _ _ /.
Arguments App.with_breakTimerRef _ _ /.
Arguments App.with_warningPlayedRef _ _ /.
Arguments App.with_comboTimersRef _ _ /.
Arguments App.with_rendered _ _ /.
Arguments App.with_pending _ _ /.
Arguments App.with_dirty _ _ /.
Arguments App.with_refs _ _ /.
Arguments App.with_timers _ _ /.
Arguments App.with_nextTimer _ _ /.
Arguments App.with_now _ _ /.
Arguments App.with_drawn _ _ /.
Arguments App.with_sounds _ _ /.
Arguments App.with_wakeLock _ _ /.
Arguments App.with_phaseLog _ _ /.
Arguments App.optZ_eqb !_ !_ /.
Arguments App.truthy !_ /.
Arguments App.orZero !_ /.
Arguments TrainingContext.set_mode _ _ /.
Arguments TrainingContext.set_trainingType _ _ /.
Arguments TrainingContext.set_difficulty _ _ /.
Arguments TrainingContext.set_numberOfSessions _ _ /.
Arguments TrainingContext.set_phase _ _ /.
Arguments TrainingContext.set_currentSession _ _ /.
Arguments TrainingContext.set_hitsCompleted _ _ /.
Arguments TrainingContext.set_combosCompleted _ _ /.
Arguments TrainingContext.trainingReducer _ !_ /.
Arguments App.breakDurationOf : simpl never.
Arguments DifficultyConfig.getComboSettings : simpl never.
Arguments DifficultyConfig.getRandomInterval : simpl never.
Arguments DifficultyConfig.randomInRange : simpl never.
Arguments TrainingContext.addToHistory : simpl never.
Arguments App.flush : simpl never.
Arguments App.comboComplete : simpl never.

Section Single.

Import DifficultyConfig TrainingContext App Trace.

Variable draws : nat -> Q.
Variable getEffectiveComboSettings : string -> option ComboConfig.

Lemma optZ_eqb_refl (a : option Z) : optZ_eqb a a = true.
Proof. destruct a; simpl; [apply Z.eqb_refl | reflexivity]. Qed.

Lemma getRandomAction_spec (m : string) (w : World) :
  exists act k,
    getRandomAction draws m w = (act, with_drawn k w)
    /\ (act = "punch" \/ act = "kick").
Proof.
  unfold getRandomAction.
  destruct (String.eqb m "punches"); [exists "punch", (drawn w) |
    destruct (String.eqb m "kicks"); [exists "kick", (drawn w) |]].
  - destruct w; split; [reflexivity | left; reflexivity].
  - destruct w; split; [reflexivity | right; reflexivity].
  - cbn. destruct (Qle_bool (1 # 2) (draws (drawn w)));
      [exists "kick" | exists "punch"]; exists (S (drawn w)); split; auto.
Qed.

Lemma playAction_spec (act : string) (w : World) :
  act = "punch" \/ act = "kick" ->
  playAction act w = (tt, with_sounds (act :: sounds w) w).
Proof. intros [-> | ->]; reflexivity. Qed.

Ltac open_world w :=
  let v := fresh "v" in let p := fresh "p" in let rf := fresh "rf" in
  let s := fresh "s" in
  destruct w as [v p ? rf ? ? ? ? ? ? ?];
  destruct v as [s ? ? ? ? ? ? ? ?];
  destruct s as [? ? ? ? ? ? ? ?];
  destruct rf as [? ? ? ? ?].

Lemma flush_unfold (fuel : nat) (w : World) :
  flush draws getEffectiveComboSettings (S fuel) w
  = if dirty w
    then let (_, w') := commit draws getEffectiveComboSettings w in
         flush draws getEffectiveComboSettings fuel w'
    else (tt, w).
Proof. reflexivity. Qed.

Lemma comboComplete_other (v : Render) :
  typeIs v "combo" = false -> comboComplete v = None.
Proof.
  intros H. unfold comboComplete. rewrite H, andb_false_r.
  destruct (getComboSettings _); reflexivity.
Qed.

Lemma eqb_succ (h : Z) : (h =? h + 1) = false.
Proof. apply Z.eqb_neq. lia. Qed.

Ltac use_eqs :=
  repeat match goal with
         | H : ?b = true |- context [?b] => rewrite H
         | H : ?b = false |- context [?b] => rewrite H
         end.

Ltac crunch' :=
  repeat (progress (cbn -[Z.max Z.add Z.sub Z.eqb Z.leb Z.ltb];
                    rewrite ?Z.eqb_refl, ?optZ_eqb_refl, ?Z.leb_refl, ?eqb_succ;
                    rewrite ?comboComplete_other by reflexivity;
                    use_eqs)).

Ltac flush_step := rewrite flush_unfold; crunch'.

Lemma fire_action (n : Z) (w : World) :
  SingleTraining n w ->
  let w1 := snd (fire draws getEffectiveComboSettings w) in
  Displaying n w1
  /\ (exists act, rendered w1 = with_currentAction (Some act) (rendered w))
  /\ phaseLog w1 = phaseLog w.
Proof.
  intros [Hd Hp Hph Hty Htg (a & t & Ht & Hr)].
  open_world w.
  cbn in Hd, Hp, Hph, Hty, Htg, Ht, Hr. subst.
  cbv zeta. crunch'.
  match goal with
  | |- context [getRandomAction draws ?m ?W] =>
      destruct (getRandomAction_spec m W) as (act & k' & E & Hact); rewrite E
  end.
  crunch'. rewrite playAction_spec by exact Hact. crunch'.
  unfold FUEL. do 2 flush_step.
  split; [split; crunch'; try reflexivity; eauto |].
  split; [exists act; reflexivity | reflexivity].
Qed.

Lemma fire_display_next (n : Z) (w : World) :
  Displaying n w -> hitsOf w + 1 < n ->
  let w2 := snd (fire draws getEffectiveComboSettings w) in
  SingleTraining n w2
  /\ rendered w2
     = with_currentAction None
         (with_state (set_hitsCompleted (state (rendered w)) (hitsOf w + 1))
            (rendered w))
  /\ phaseLog w2 = phaseLog w.
Proof.
  intros [Hd Hp Hph Hty Htg (a & t & Ht) (a' & Hr)] Hlt.
  open_world w.
  cbn in Hd, Hp, Hph, Hty, Htg, Ht, Hr, Hlt. subst.
  apply Z.leb_gt in Hlt.
  cbv zeta. unfold hitsOf. crunch'. unfold FUEL. flush_step.
  rewrite ?andb_false_r. crunch'. flush_step.
  split; [split; crunch'; try reflexivity; eauto |].
  split; reflexivity.
Qed.

Ltac eval_fire tac :=
  match goal with
  | |- context [fire draws getEffectiveComboSettings ?W] =>
      let H := fresh "Efire" in
      eassert (H : snd (fire draws getEffectiveComboSettings W) = _);
      [ tac; reflexivity | rewrite H; clear H ]
  end.

Lemma fire_display_last (n : Z) (w : World) :
  Displaying n w -> hitsOf w + 1 = n -> n <> 0 ->
  let w2 := snd (fire draws getEffectiveComboSettings w) in
  (exists r,
     historyOf w2
     = addToHistory (now w2) r (completedSingle (rendered w) n (now w2)) (historyOf w))
  /\ currentAction (rendered w2) = None
  /\ filter isAction (timers w2) = []
  /\ phaseLog w2 = (nextPhases (rendered w) ++ phaseLog w)%list
  /\ dirty w2 = false.
Proof.
  intros [Hd Hp Hph Hty Htg (a & t & Ht) (a' & Hr)] Hn Hnz.
  open_world w.
  cbn in Hd, Hp, Hph, Hty, Htg, Ht, Hr, Hn. subst.
  apply Z.eqb_neq in Hnz.
  cbv zeta. unfold hitsOf, historyOf, nextPhases, completedSingle.
  cbn [rendered state currentSession numberOfSessions difficulty].
  destruct (currentSession0 <? numberOfSessions0) eqn:Ecn;
    [destruct (breakDurationOf difficulty0 =? 0) eqn:E0;
       [assert (Epos : (0 <? breakDurationOf difficulty0) = false)
          by (apply Z.eqb_eq in E0; rewrite E0; reflexivity)
       | destruct (0 <? breakDurationOf difficulty0) eqn:Epos;
           [destruct (breakDurationOf difficulty0 =? 5) eqn:E5
           | destruct breakTimerRef0]]
    | destruct (Z.max now0 t =? 0) eqn:Eclock];
    eval_fire ltac:(crunch'; unfold FUEL; repeat flush_step);
    cbn -[Z.max Z.add Z.sub addToHistory]; use_eqs;
    (split; [eexists; reflexivity |]); repeat split; reflexivity.
Qed.

Lemma fireN_two (w : World) :
  fireN draws getEffectiveComboSettings 2 w
  = snd (fire draws getEffectiveComboSettings
           (snd (fire draws getEffectiveComboSettings w))).
Proof. reflexivity. Qed.

Lemma fireN_add (a b : nat) (w : World) :
  fireN draws getEffectiveComboSettings (a + b) w
  = fireN draws getEffectiveComboSettings b
      (fireN draws getEffectiveComboSettings a w).
Proof.
  revert w. induction a as [| a IH]; intros w; [reflexivity |].
  cbn [Nat.add App.fireN]. apply IH.
Qed.

Lemma one_cycle (n : Z) (w : World) :
  SingleTraining n w -> hitsOf w + 1 < n ->
  let w' := fireN draws getEffectiveComboSettings 2 w in
  SingleTraining n w'
  /\ hitsOf w' = hitsOf w + 1
  /\ sessionView (rendered w') = sessionView (rendered w)
  /\ phaseLog w' = phaseLog w.
Proof.
  intros Hw Hlt. cbv zeta. rewrite fireN_two.
  destruct (fire_action n w Hw) as (Hd & (act & Er) & Hl).
  assert (Hh : hitsOf (snd (fire draws getEffectiveComboSettings w)) = hitsOf w)
    by (unfold hitsOf; rewrite Er; reflexivity).
  destruct (fire_display_next n _ Hd ltac:(rewrite Hh; exact Hlt)) as (Hs & Er2 & Hl2).
  split; [exact Hs |]. rewrite Hl2, Hl. unfold hitsOf, sessionView.
  rewrite Er2, Er. unfold hitsOf. rewrite Er. repeat split; reflexivity.
Qed.

Lemma cycles (n : Z) (k : nat) :
  forall w,
    SingleTraining n w -> hitsOf w + Z.of_nat k < n ->
    let w' := fireN draws getEffectiveComboSettings (2 * k) w in
    SingleTraining n w'
    /\ hitsOf w' = hitsOf w + Z.of_nat k
    /\ sessionView (rendered w') = sessionView (rendered w)
    /\ phaseLog w' = phaseLog w.
Proof.
  induction k as [| k IH]; intros w Hw Hlt; cbv zeta.
  - cbn [Nat.mul App.fireN]. rewrite Z.add_0_r. auto.
  - replace (2 * S k)%nat with (2 + 2 * k)%nat by lia. rewrite fireN_add.
    destruct (one_cycle n w Hw ltac:(lia)) as (Hw1 & Hh1 & Hv1 & Hl1).
    destruct (IH _ Hw1 ltac:(lia)) as (Hw2 & Hh2 & Hv2 & Hl2).
    split; [exact Hw2 |]. rewrite Hh2, Hv2, Hl2, Hh1, Hv1, Hl1.
    repeat split; try reflexivity. lia.
Qed.

Lemma completedSingle_view (v v' : Render) (n stamp : Z) :
  sessionView v = sessionView v' ->
  completedSingle v n stamp = completedSingle v' n stamp
  /\ nextPhases v = nextPhases v'
  /\ sessionHistory v = sessionHistory v'.
Proof.
  unfold sessionView, completedSingle, nextPhases. intros H.
  injection H as -> -> -> -> -> -> ->. auto.
Qed.

(** The run of a single-mode session, from any state of it in which the
    next stimulus is awaited, over the cycles that are left. *)
Lemma single_session_run (n : Z) (w : World) :
  SingleTraining n w ->
  0 <= hitsOf w < n ->
  let cycles := Z.to_nat (n - hitsOf w) in
  (forall j, (j < cycles)%nat ->
     let wj := fireN draws getEffectiveComboSettings (2 * j) w in
     phaseOf wj = TRAINING
     /\ hitsOf wj = hitsOf w + Z.of_nat j
     /\ historyOf wj = historyOf w
     /\ phaseLog wj = phaseLog w)
  /\ let w' := fireN draws getEffectiveComboSettings (2 * cycles) w in
     (exists r,
        historyOf w'
        = addToHistory (now w') r (completedSingle (rendered w) n (now w'))
            (historyOf w))
     /\ currentAction (rendered w') = None
     /\ filter isAction (timers w') = []
     /\ phaseLog w' = (nextPhases (rendered w) ++ phaseLog w)%list.
Proof.
  intros Hw Hh. cbv zeta. split.
  - intros j Hj.
    destruct (cycles n j w Hw ltac:(lia)) as (Hwj & Hhj & Hvj & Hlj).
    split; [exact (st_phase _ _ Hwj) |]. split; [exact Hhj |].
    split; [| exact Hlj].
    unfold historyOf. apply (completedSingle_view _ _ 0 0 Hvj).
  - remember (Z.to_nat (n - hitsOf w)) as k eqn:Ek.
    destruct k as [| k]; [lia |].
    replace (2 * S k)%nat with (2 * k + 2)%nat by lia. rewrite fireN_add.
    destruct (cycles n k w Hw ltac:(lia)) as (Hwk & Hhk & Hvk & Hlk).
    set (wk := fireN draws getEffectiveComboSettings (2 * k) w) in *.
    rewrite fireN_two.
    destruct (fire_action n wk Hwk) as (Hd & (act & Er) & Hl).
    set (w1 := snd (fire draws getEffectiveComboSettings wk)) in *.
    assert (Hh1 : hitsOf w1 = hitsOf wk) by (unfold hitsOf; rewrite Er; reflexivity).
    assert (Hv1 : sessionView (rendered w1) = sessionView (rendered wk))
      by (rewrite Er; reflexivity).
    destruct (fire_display_last n w1 Hd ltac:(lia) ltac:(lia))
      as ((r & Hhist) & Hact & Htm & Hlog & _).
    destruct (completedSingle_view (rendered w1) (rendered w) n
                (now (snd (fire draws getEffectiveComboSettings w1)))
                ltac:(rewrite Hv1; exact Hvk)) as (Ec & En & Eh).
    split; [exists r; rewrite Hhist, Ec; unfold historyOf; rewrite Eh; reflexivity |].
    split; [exact Hact |]. split; [exact Htm |].
    rewrite Hlog, En, Hl, Hlk. reflexivity.
Qed.

End Single.

(** C1 (as the code has it).  In single-hit mode a session with target [n]
    stays in TRAINING, with an unchanged history, while fewer than [n] hits
    are counted: each stimulus/display cycle (two timers) adds one hit.  On
    the cycle that brings the count to [n] the scheduler leaves TRAINING
    directly for BREAK when currentSession < numberOfSessions and for
    COMPLETE otherwise; no SESSION_END phase is rendered in between.  In the
    same step no timer of the action loop is left pending, the presented
    action is cleared and one entry is put at the head of the history, with
    the final counters ([hitsCompleted] = [totalHits] = [n]) and
    duration = now - sessionStartTime. *)
Theorem single_session_ends_in_break_or_complete
    (draws : nat -> Q)
    (getEffectiveComboSettings : string -> option DifficultyConfig.ComboConfig)
    (n : Z) (w : App.World) :
  Trace.SingleTraining n w ->
  0 <= Trace.hitsOf w < n ->
  let cycles := Z.to_nat (n - Trace.hitsOf w) in
  (forall j, (j < cycles)%nat ->
     let wj := App.fireN draws getEffectiveComboSettings (2 * j) w in
     Trace.phaseOf wj = TrainingContext.TRAINING
     /\ Trace.hitsOf wj = Trace.hitsOf w + Z.of_nat j
     /\ Trace.historyOf wj = Trace.historyOf w
     /\ App.phaseLog wj = App.phaseLog w)
  /\ let w' := App.fireN draws getEffectiveComboSettings (2 * cycles) w in
     (exists r,
        Trace.historyOf w'
        = TrainingContext.addToHistory (App.now w') r
            (Trace.completedSingle (App.rendered w) n (App.now w'))
            (Trace.historyOf w))
     /\ App.currentAction (App.rendered w') = None
     /\ filter Trace.isAction (App.timers w') = []
     /\ App.phaseLog w' = (Trace.nextPhases (App.rendered w) ++ App.phaseLog w)%list.
Proof. exact (single_session_run draws getEffectiveComboSettings n w). Qed.

Lemma singleStart_is_training : Trace.SingleTraining 10 Samples.singleStart.
Proof.
  split; try (vm_compute; reflexivity).
  exists 6, 6014. vm_compute. split; reflexivity.
Defined.

(** The program of two sessions with a fixed target of 10: after 9 cycles
    the phase is still TRAINING, after exactly 10 it is BREAK. *)
Lemma single_session_ends_in_break_or_complete_witness :
  Trace.phaseOf (App.fireN Samples.draws (Samples.profileWith Samples.tenHits)
                   18 Samples.singleStart)
  = TrainingContext.TRAINING
  /\ App.phaseLog (App.fireN Samples.draws (Samples.profileWith Samples.tenHits)
                     20 Samples.singleStart)
     = [TrainingContext.BREAK; TrainingContext.TRAINING;
        TrainingContext.COUNTDOWN; TrainingContext.IDLE].
Proof.
  destruct (single_session_ends_in_break_or_complete Samples.draws
              (Samples.profileWith Samples.tenHits) 10 Samples.singleStart
              singleStart_is_training)
    as [Hbefore (_ & _ & _ & Hlog)].
  - vm_compute. split; [discriminate | reflexivity].
  - split.
    + apply (Hbefore 9%nat). vm_compute. lia.
    + vm_compute in Hlog. vm_compute. exact Hlog.
Defined.

(** C1 fails on the SESSION_END phase: in the program of two sessions with a
    fixed target of 10, the tenth cycle brings the count to 10 and the
    phase rendered next to TRAINING is BREAK; SESSION_END is never
    rendered. *)
Lemma session_end_is_never_rendered :
  let w' := App.fireN Samples.draws (Samples.profileWith Samples.tenHits)
              20 Samples.singleStart in
  Trace.hitsOf w' = 10
  /\ Trace.phaseOf w' = TrainingContext.BREAK
  /\ App.phaseLog w'
     = [TrainingContext.BREAK; TrainingContext.TRAINING;
        TrainingContext.COUNTDOWN; TrainingContext.IDLE]
  /\ ~ In TrainingContext.SESSION_END (App.phaseLog w').
Proof.
  vm_compute. repeat split.
  intros H. repeat (destruct H as [H | H]; [discriminate H |]). exact H.
Qed.

(** ** The machine: stopping a run *)

(** C2, at a stop in the middle of a session.  After three counted hits of
    a single-mode session the confirmed stop renders COMPLETE, keeps the
    counter at 3, leaves no stimulus timer pending and sets the end time;
    but the history is the one from before the stop: no entry is recorded
    for the stopped session. *)
Theorem stop_records_no_history_entry :
  let w := Samples.singleMid in
  let w' := App.exec (App.handleConfirmStop Samples.draws
                        (Samples.profileWith Samples.tenHits)) w in
  Trace.phaseOf w = TrainingContext.TRAINING
  /\ Trace.hitsOf w = 3
  /\ Trace.phaseOf w' = TrainingContext.COMPLETE
  /\ Trace.hitsOf w' = 3
  /\ filter Trace.isStimulus (App.timers w') = []
  /\ App.trainingEndTime (App.rendered w') = Some (App.now w)
  /\ Trace.historyOf w = []
  /\ Trace.historyOf w' = [].
Proof. vm_compute. repeat split. Qed.

(** A natural end of the same session does record it. *)
Lemma natural_end_records_an_entry :
  let w' := App.fireN Samples.draws (Samples.profileWith Samples.tenHits)
              14 Samples.singleMid in
  Trace.phaseOf w' = TrainingContext.BREAK
  /\ map (fun e => TrainingContext.e_hitsCompleted (TrainingContext.data e))
         (Trace.historyOf w') = [10].
Proof. vm_compute. repeat split. Qed.


(** ** The machine: a combo of three strikes

    The combo is followed from the timer that calls [scheduleCombo] to the
    third strike: each strike timer is the next one to fire, at its offset
    from the start of the combo, and its callback presents a stimulus. *)

Section ComboRun.

Import DifficultyConfig TrainingContext App Trace.

Variable draws : nat -> Q.
Variable getEffectiveComboSettings : string -> option ComboConfig.

Ltac open_world w :=
  let v := fresh "v" in let p := fresh "p" in let rf := fresh "rf" in
  let s := fresh "s" in
  destruct w as [v p ? rf ? ? ? ? ? ? ?];
  destruct v as [s ? ? ? ? ? ? ? ?];
  destruct s as [? ? ? ? ? ? ? ?];
  destruct rf as [? ? ? ? ?].

Lemma clearAll_no_timers (hs : list Z) (w : World) :
  timers w = [] -> clearAll hs w = (tt, w).
Proof.
  revert w. induction hs as [| h hs IH]; intros w H; [reflexivity |].
  destruct w; cbn in H; subst.
  cbn [clearAll]. unfold bind, clearTimeout. cbn [timers filter with_timers].
  apply IH. reflexivity.
Qed.

Ltac use_eqs :=
  repeat match goal with
         | H : ?b = true |- context [?b] => rewrite H
         | H : ?b = false |- context [?b] => rewrite H
         end.

Ltac arith :=
  repeat match goal with
         | |- context [Z.max ?a ?b] =>
             first [ rewrite (Z.max_l a b) by lia | rewrite (Z.max_r a b) by lia ]
         | |- context [?a <? ?b] =>
             first [ rewrite (proj2 (Z.ltb_lt a b)) by lia
                   | rewrite (proj2 (Z.ltb_ge a b)) by lia ]
         | |- context [?a <=? ?b] =>
             first [ rewrite (proj2 (Z.leb_le a b)) by lia
                   | rewrite (proj2 (Z.leb_gt a b)) by lia ]
         | |- context [?a =? ?b] =>
             first [ rewrite (proj2 (Z.eqb_eq a b)) by lia
                   | rewrite (proj2 (Z.eqb_neq a b)) by lia ]
         end.

Ltac crunch' :=
  repeat (progress (cbn -[Z.max Z.add Z.sub Z.eqb Z.leb Z.ltb];
                    rewrite ?Z.eqb_refl, ?optZ_eqb_refl, ?Z.leb_refl;
                    rewrite ?comboComplete_other by reflexivity;
                    use_eqs)).

Ltac settle := repeat (progress (crunch'; arith)).

Ltac flush_step :=
  rewrite (flush_unfold draws getEffectiveComboSettings); crunch'.

Ltac eval_fire tac :=
  match goal with
  | |- context [fire draws getEffectiveComboSettings ?W] =>
      let H := fresh "Efire" in
      eassert (H : snd (fire draws getEffectiveComboSettings W) = _);
      [ tac; reflexivity | rewrite H; clear H ]
  end.

Lemma getRandomAction_at (m : string) (w : World) :
  getRandomAction draws m w
  = (actionAt draws m (drawn w), with_drawn (drawnAfterAction m (drawn w)) w).
Proof.
  unfold getRandomAction, actionAt, drawnAfterAction.
  destruct (String.eqb m "punches"); [destruct w; reflexivity |].
  destruct (String.eqb m "kicks"); [destruct w; reflexivity |].
  reflexivity.
Qed.

Lemma actionAt_cue (m : string) (k : nat) :
  actionAt draws m k = "punch" \/ actionAt draws m k = "kick".
Proof.
  unfold actionAt.
  destruct (String.eqb m "punches"); [left; reflexivity |].
  destruct (String.eqb m "kicks"); [right; reflexivity |].
  destruct (Qle_bool _ _); [right | left]; reflexivity.
Qed.

Lemma actionAt_isCue (m : string) (k : nat) : isCue (actionAt draws m k) = true.
Proof. destruct (actionAt_cue m k) as [-> | ->]; reflexivity. Qed.

Ltac strike :=
  settle;
  rewrite getRandomAction_at; crunch';
  rewrite playAction_spec by apply actionAt_cue; settle;
  unfold FUEL; do 2 flush_step.

Lemma three_strikes_run (w : World) (comboConfig : ComboConfig) :
  (forall n, Js.unit_draw (draws n)) ->
  ComboStarting w ->
  getEffectiveComboSettings (id (difficulty (state (rendered w)))) = Some comboConfig ->
  DifficultyConfig.min (strikeInterval comboConfig) = 100 ->
  DifficultyConfig.max (strikeInterval comboConfig) = 100 ->
  getRandomComboSize (draws (drawn w)) comboConfig = 3 ->
  let next := fun w => snd (fire draws getEffectiveComboSettings w) in
  let w0 := next w in
  let w1 := next w0 in
  let w2 := next w1 in
  let w3 := next w2 in
  let start := now w0 in
  let s1 := getRandomStrikeInterval (draws (S (S (drawn w)))) comboConfig in
  let s2 := getRandomStrikeInterval (draws (S (S (S (drawn w))))) comboConfig in
  strikeOffsets w0 w0 = [0; s1; s1 + s2]
  /\ s1 = 100 /\ s2 = 100
  /\ nextFires w0 = Some (StrikeFire, start)
  /\ nextFires w1 = Some (StrikeFire, start + 100)
  /\ nextFires w2 = Some (StrikeFire, start + 200)
  /\ (exists a1 a2 a3,
        presents w0 w1 a1 /\ presents w1 w2 a2 /\ presents w2 w3 a3)
  /\ filter isStrike (timers w3) = [].
Proof.
  intros Hdraws [Hd Hp Hph Hty (h & t & Ht)] Hcfg Hmin Hmax Hsize.
  open_world w.
  cbn in Hd, Hp, Hph, Hty, Ht, Hcfg, Hsize. subst.
  remember (Z.max now0 t) as T eqn:ET.
  assert (Hstep : forall r, Js.unit_draw r -> getRandomStrikeInterval r comboConfig = 100).
  { intros r Hr. unfold getRandomStrikeInterval.
    rewrite randomInRange_degenerate by (assumption || congruence). exact Hmin. }
  cbv zeta. cbn [drawn].
  rewrite !Hstep by apply Hdraws.
  eval_fire ltac:(crunch'; rewrite <- ?ET; rewrite Hcfg; crunch'; rewrite ?Hsize; crunch';
                  rewrite clearAll_no_timers by reflexivity; crunch';
                  change (Pos.to_nat 3) with 3%nat; crunch'; arith; crunch';
                  rewrite !Hstep by apply Hdraws; arith; crunch';
                  unfold FUEL; flush_step).
  split; [unfold strikeOffsets; cbn -[Z.add Z.sub];
          f_equal; [lia | f_equal; [lia | f_equal; lia]] |].
  split; [reflexivity |]. split; [reflexivity |].
  split; [unfold nextFires; settle; reflexivity |].
  eval_fire strike.
  split; [unfold nextFires; settle; reflexivity |].
  eval_fire strike.
  split; [unfold nextFires; settle; reflexivity |].
  eval_fire strike.
  split; [| reflexivity].
  do 3 eexists. unfold presents. cbn [rendered currentAction sounds].
  rewrite !actionAt_isCue. repeat split; reflexivity.
Qed.

End ComboRun.

(** C8. In combo mode, when the combo size is drawn as 3 and the
    strikeInterval range is [100, 100], the combo that [scheduleCombo]
    schedules fires its three strikes 0 ms, 100 ms and 200 ms after the
    start of the combo.  The strike timers are registered at the cumulative
    delays 0, s1 and s1 + s2, where s1 and s2 are two strike intervals
    drawn one after the other, each 100; then the next three timers to
    fire are these strikes, at the start, 100 ms and 200 ms later, none is
    cancelled on the way, and each one puts a punch or a kick on the
    screen and calls its cue; after the third no strike is left pending. *)
Theorem combo_of_three_strikes_at_0_100_200
    (draws : nat -> Q)
    (getEffectiveComboSettings : string -> option DifficultyConfig.ComboConfig)
    (w : App.World) (comboConfig : DifficultyConfig.ComboConfig) :
  (forall n, Js.unit_draw (draws n)) ->
  Trace.ComboStarting w ->
  getEffectiveComboSettings
    (DifficultyConfig.id
       (TrainingContext.difficulty (App.state (App.rendered w))))
    = Some comboConfig ->
  DifficultyConfig.min (DifficultyConfig.strikeInterval comboConfig) = 100 ->
  DifficultyConfig.max (DifficultyConfig.strikeInterval comboConfig) = 100 ->
  DifficultyConfig.getRandomComboSize (draws (App.drawn w)) comboConfig = 3 ->
  let next := fun w => snd (App.fire draws getEffectiveComboSettings w) in
  let w0 := next w in
  let w1 := next w0 in
  let w2 := next w1 in
  let w3 := next w2 in
  let start := App.now w0 in
  let s1 := DifficultyConfig.getRandomStrikeInterval
              (draws (S (S (App.drawn w)))) comboConfig in
  let s2 := DifficultyConfig.getRandomStrikeInterval
              (draws (S (S (S (App.drawn w))))) comboConfig in
  Trace.strikeOffsets w0 w0 = [0; s1; s1 + s2]
  /\ s1 = 100 /\ s2 = 100
  /\ Trace.nextFires w0 = Some (App.StrikeFire, start)
  /\ Trace.nextFires w1 = Some (App.StrikeFire, start + 100)
  /\ Trace.nextFires w2 = Some (App.StrikeFire, start + 200)
  /\ (exists a1 a2 a3,
        Trace.presents w0 w1 a1 /\ Trace.presents w1 w2 a2
        /\ Trace.presents w2 w3 a3)
  /\ filter Trace.isStrike (App.timers w3) = [].
Proof. exact (three_strikes_run draws getEffectiveComboSettings w comboConfig). Qed.

Lemma comboTraining_is_starting : Trace.ComboStarting Samples.comboTraining.
Proof.
  split; try (vm_compute; reflexivity).
  eexists. eexists. vm_compute. reflexivity.
Defined.

(** The first combo of a running session, with combos of up to three
    strikes 100 ms apart and draws of 9/10: the strikes are registered at
    0, 100 and 200 ms, and the third one fires 200 ms after the start of
    the combo, which is 4900 ms on the clock. *)
Lemma combo_of_three_strikes_at_0_100_200_witness :
  let next := fun w =>
    snd (App.fire Samples.high (Samples.profileWith Samples.tenHits) w) in
  let w0 := next Samples.comboTraining in
  Trace.strikeOffsets w0 w0 = [0; 100; 200]
  /\ App.now w0 = 4900
  /\ Trace.nextFires (next (next w0)) = Some (App.StrikeFire, 5100)
  /\ Trace.presented (next (next (next w0))) = 3%nat.
Proof.
  destruct (combo_of_three_strikes_at_0_100_200 Samples.high
              (Samples.profileWith Samples.tenHits) Samples.comboTraining
              (DifficultyConfig.mkCombo 1 3 100 100 3000 4000 15))
    as (Hoff & Hs1 & Hs2 & _ & _ & Hthird & _).
  - intros n. split; discriminate.
  - exact comboTraining_is_starting.
  - vm_compute. reflexivity.
  - reflexivity.
  - reflexivity.
  - vm_compute. reflexivity.
  - cbv zeta. split; [rewrite Hoff, Hs1, Hs2; reflexivity |].
    split; [vm_compute; reflexivity |].
    split; [rewrite Hthird; vm_compute; reflexivity |].
    vm_compute. reflexivity.
Defined.
(** ** The machine: combo-mode sessions *)

Section ComboCompletion.

Import DifficultyConfig TrainingContext App Trace.

Variable draws : nat -> Q.

Lemma clearAll_timers_only (hs : list Z) :
  forall w, exists tm, snd (clearAll hs w) = with_timers tm w.
Proof.
  induction hs as [| h hs IH]; intros w; cbn [clearAll].
  - exists (timers w). destruct w; reflexivity.
  - unfold bind, clearTimeout.
    match goal with
    | |- context [clearAll hs ?w0] => destruct (IH w0) as [tm E]
    end.
    destruct (clearAll hs _) as [u w1]. cbn [snd] in E |- *. subst w1.
    exists tm. reflexivity.
Qed.

(** The entry that the completion effect of combo mode records takes both
    counts from the hit counter of the render in which the effect runs. *)
Lemma comboCompletion_entry (cur : Render) (w : World) (comboConfig : ComboConfig) :
  comboComplete cur = Some comboConfig ->
  sessionHistory (pending (exec (comboCompletionEffect draws cur) w))
  = addToHistory (now w) (draws (drawn w))
      (completedCombo cur comboConfig (now w)) (sessionHistory (rendered w)).
Proof.
  intros Hc. unfold exec, comboCompletionEffect. rewrite Hc.
  unfold bind at 1. cbn [getRefs]. unfold bind at 1.
  assert (E1 : exists tm, snd (clearIfSet (actionTimerRef (refs w)) w) = with_timers tm w).
  { destruct (actionTimerRef (refs w)); cbn; eexists; [reflexivity |].
    instantiate (1 := timers w). destruct w; reflexivity. }
  destruct E1 as [tm1 E1]. destruct (clearIfSet _ w) as [u1 w1].
  cbn [snd] in E1. subst w1. unfold bind at 1.
  destruct (clearAll_timers_only (comboTimersRef (refs w)) (with_timers tm1 w))
    as [tm2 E2].
  destruct (clearAll _ _) as [u2 w2]. cbn [snd] in E2. subst w2.
  unfold finishSession.
  destruct (currentSession (state cur) <? numberOfSessions (state cur));
    destruct w; reflexivity.
Qed.

End ComboCompletion.

(** C10, in two runs: the default Very Easy settings (9 combos of 1 or 2
    strikes) with the draws 0, 1/8, ..., 7/8 in turn, and Normal with
    combos of 3 strikes 100 ms apart (15 combos) with every draw 9/10.
    The timer that completes a combo is registered before the timer that
    ends the display of the combo's last strike, and both are due at the
    same time.  So when the last combo completes, the last strike has been
    presented and is not yet counted: the completion effect runs with the
    counter one short (13 of the 14 strikes presented, 44 of the 45), the
    session leaves TRAINING and its entry is recorded with both counts at
    that value, a rate of 100.  The display of the last strike ends next;
    the counter then reads 14 (45) and the entry stays as it is. *)
Theorem combo_entry_misses_the_last_strike :
  let next := fun rnd d w => snd (App.fire rnd (Samples.profileWith d) w) in
  (let w := App.fireN Samples.eighths (Samples.profileWith Samples.veryEasyDefault)
              44 Samples.comboVeryEasy in
   let w' := next Samples.eighths Samples.veryEasyDefault w in
   let w'' := next Samples.eighths Samples.veryEasyDefault w' in
   (Trace.phaseOf w = TrainingContext.TRAINING
    /\ Trace.combosOf w = 8
    /\ Trace.presented w = 14%nat
    /\ Trace.hitsOf w = 13
    /\ Trace.recordedCounts w = []
    /\ map App.callback (App.timers w) = [App.ComboComplete; App.StrikeDisplayEnd]
    /\ map App.due (App.timers w) = [54925; 54925]
    /\ Trace.nextFires w = Some (App.ComboComplete, 54925))
   /\ (Trace.phaseOf w' = TrainingContext.BREAK
       /\ Trace.presented w' = 14%nat
       /\ Trace.recordedCounts w' = [(Some 9, 13, 13)]
       /\ StatsCalculator.completionRate 13 13 = 100
       /\ Trace.nextFires w' = Some (App.StrikeDisplayEnd, 54925))
   /\ (Trace.hitsOf w'' = 14
       /\ Trace.presented w'' = 14%nat
       /\ Trace.recordedCounts w'' = [(Some 9, 13, 13)]))
  /\ (let w := App.fireN Samples.high (Samples.profileWith Samples.tenHits)
                 118 Samples.comboTraining in
      let w' := next Samples.high Samples.tenHits w in
      let w'' := next Samples.high Samples.tenHits w' in
      (Trace.phaseOf w = TrainingContext.TRAINING
       /\ Trace.combosOf w = 14
       /\ Trace.presented w = 45%nat
       /\ Trace.hitsOf w = 44
       /\ Trace.recordedCounts w = []
       /\ Trace.nextFires w = Some (App.ComboComplete, 67000))
      /\ (Trace.phaseOf w' = TrainingContext.BREAK
          /\ Trace.recordedCounts w' = [(Some 15, 44, 44)]
          /\ Trace.nextFires w' = Some (App.StrikeDisplayEnd, 67000))
      /\ (Trace.hitsOf w'' = 45
          /\ Trace.presented w'' = 45%nat
          /\ Trace.recordedCounts w'' = [(Some 15, 44, 44)])).
Proof. vm_compute. repeat split. Qed.

(** * Further properties of the code *)

(** ** difficultyConfig.js *)



Lemma find_holds {A} (p : A -> bool) (l : list A) (x : A) :
  Js.find p l = Some x -> p x = true.
Proof.
  induction l as [| y l IH]; simpl; [discriminate |].
  destruct (p y) eqn:E; [intros [= <-]; exact E | exact IH].
Qed.

(** X2. The two built-in tables answer for the same ids: for every id,
    [getDifficultyById] finds a difficulty exactly when [getComboSettings]
    finds a combo configuration, and the difficulty found carries the id
    asked for. *)
Theorem builtin_tables_share_their_ids (i : string) :
  (forall d, DifficultyConfig.getDifficultyById i = Some d
             -> DifficultyConfig.b_id d = i)
  /\ (DifficultyConfig.getDifficultyById i = None
      <-> DifficultyConfig.getComboSettings i = None).
Proof.
  split.
  - intros d H. apply find_holds in H. apply String.eqb_eq. exact H.
  - unfold DifficultyConfig.getDifficultyById, DifficultyConfig.getComboSettings,
      DifficultyConfig.DIFFICULTIES, DifficultyConfig.COMBO_SETTINGS.
    cbn [Js.find DifficultyConfig.b_id fst].
    destruct (String.eqb "very-easy" i); [split; intros H; cbn in H; discriminate H |].
    destruct (String.eqb "easy" i); [split; intros H; cbn in H; discriminate H |].
    destruct (String.eqb "normal" i); [split; intros H; cbn in H; discriminate H |].
    destruct (String.eqb "hard" i); [split; intros H; cbn in H; discriminate H |].
    destruct (String.eqb "very-hard" i); [split; intros H; cbn in H; discriminate H |].
    split; reflexivity.
Qed.


(** ** statsCalculator.js *)

Lemma round_nonneg (x : Q) : (0 <= x)%Q -> 0 <= Js.Math_round x.
Proof.
  intros H. unfold Js.Math_round. rewrite <- (Qfloor_Z 0).
  apply Qfloor_resp_le.
  apply Qle_trans with x; [exact H |].
  rewrite <- (Qplus_0_r x) at 1. apply Qplus_le_r. discriminate.
Qed.

(** X3. For a session with [0 <= hitsCompleted <= totalHits] the completion
    rate that [calculateSessionStats] reports is a percentage: a whole
    number between 0 and 100; it is 100 when all the hits are completed
    and 0 when none is. *)
Theorem completion_rate_is_a_percentage (startTime endTime h t : Z) :
  0 <= h <= t -> t < 2 ^ 44 ->
  let rate := StatsCalculator.stat_completionRate
                (StatsCalculator.calculateSessionStats startTime endTime h t) in
  0 <= rate <= 100
  /\ (0 < h -> h = t -> rate = 100)
  /\ (h = 0 -> rate = 0).
Proof.
  intros Hh Ht. cbn [StatsCalculator.calculateSessionStats
                      StatsCalculator.stat_completionRate].
  cbv zeta. unfold StatsCalculator.completionRate.
  destruct (Z.ltb_spec 0 t) as [Hpos | Hneg]; [| lia].
  pose proof (rounded_percentage h t ltac:(lia) ltac:(lia)) as R. cbv zeta in R.
  set (shown := Js.Math_round _) in *.
  unfold Spec.nearest in R.
  replace (2 * (100 * h) + t) with (200 * h + t) in R by lia.
  pose proof (Z.div_mod (200 * h + t) (2 * t) ltac:(lia)) as Hdm.
  pose proof (Z.mod_pos_bound (200 * h + t) (2 * t) ltac:(lia)) as Hr.
  set (q := (200 * h + t) / (2 * t)) in *.
  set (m := (200 * h + t) mod (2 * t)) in *.
  assert (Hq : 0 <= q <= 100) by nia.
  assert (Hq1 : m = 0 -> 1 <= q) by nia.
  split; [| split].
  - destruct R as [-> | [Hm ->]]; [lia |]. specialize (Hq1 Hm). lia.
  - intros Hp He. subst t.
    destruct R as [-> | [Hm ->]]; [nia | nia].
  - intros ->. destruct R as [-> | [Hm ->]]; nia.
Qed.

(** 20 of 30 hits: a rate between 0 and 100. *)
Lemma completion_rate_is_a_percentage_witness :
  0 <= StatsCalculator.stat_completionRate
         (StatsCalculator.calculateSessionStats 1000 61000 20 30) <= 100.
Proof.
  apply (completion_rate_is_a_percentage 1000 61000 20 30); lia.
Defined.

(** X4. [calculateAveragePace] is never negative, and is 0 for fewer than
    two hits or a duration that is not positive; for a session that ends
    after it starts, it is the average pace that [calculateSessionStats]
    reports. *)
Theorem average_pace_of_a_session (startTime endTime hits totalHits : Z) :
  startTime < endTime ->
  StatsCalculator.stat_averagePace
    (StatsCalculator.calculateSessionStats startTime endTime hits totalHits)
  = StatsCalculator.calculateAveragePace hits (endTime - startTime)
  /\ (forall n durationMs, 0 <= StatsCalculator.calculateAveragePace n durationMs)
  /\ (forall n durationMs,
        n < 2 \/ durationMs <= 0 ->
        StatsCalculator.calculateAveragePace n durationMs = 0).
Proof.
  intros Hlt. split; [| split].
  - cbn [StatsCalculator.calculateSessionStats StatsCalculator.stat_averagePace].
    unfold StatsCalculator.averagePace, StatsCalculator.calculateAveragePace.
    destruct (Z.ltb_spec 1 hits), (Z.ltb_spec hits 2),
      (Z.leb_spec (endTime - startTime) 0); try lia; reflexivity.
  - intros n d. unfold StatsCalculator.calculateAveragePace.
    destruct (Z.ltb_spec n 2); [simpl; lia |].
    destruct (Z.leb_spec d 0); [simpl; lia |]. cbn [orb].
    apply round_nonneg. unfold Js.fdiv. apply toDouble_nonneg.
    apply Qle_shift_div_l.
    + change (inject_Z 0 < inject_Z (n - 1))%Q. rewrite <- Zlt_Qlt. lia.
    + rewrite Qmult_0_l. change (inject_Z 0 <= inject_Z d)%Q.
      rewrite <- Zle_Qle. lia.
  - intros n d [H | H]; unfold StatsCalculator.calculateAveragePace.
    + destruct (Z.ltb_spec n 2); [reflexivity | lia].
    + destruct (Z.leb_spec d 0); [rewrite orb_true_r; reflexivity | lia].
Qed.

(** A minute with 31 hits: a pace of 2000 ms. *)
Lemma average_pace_of_a_session_witness :
  StatsCalculator.stat_averagePace
    (StatsCalculator.calculateSessionStats 1000 61000 31 45) = 2000.
Proof.
  rewrite (proj1 (average_pace_of_a_session 1000 61000 31 45 ltac:(lia))).
  vm_compute. reflexivity.
Defined.

Lemma each_below (P : Z -> bool) (b : nat) :
  forallb P (map Z.of_nat (seq 0 b)) = true ->
  forall n, 0 <= n < Z.of_nat b -> P n = true.
Proof.
  intros H n Hn. rewrite forallb_forall in H. apply H.
  apply in_map_iff. exists (Z.to_nat n). split; [lia |].
  apply in_seq. lia.
Qed.

Lemma two_digits (n : Z) :
  0 <= n < 100 ->
  StatsCalculator.padStart2 (Js.String_of n)
  = (Shape.digit (n / 10) ++ Shape.digit (n mod 10))%string
  /\ Js.padStart0 2 (Js.String_of n)
     = (Shape.digit (n / 10) ++ Shape.digit (n mod 10))%string.
Proof.
  intros Hn.
  pose proof (each_below
    (fun n => String.eqb (StatsCalculator.padStart2 (Js.String_of n))
                (Shape.digit (n / 10) ++ Shape.digit (n mod 10))
              && String.eqb (Js.padStart0 2 (Js.String_of n))
                   (Shape.digit (n / 10) ++ Shape.digit (n mod 10)))
    100 ltac:(vm_compute; reflexivity) n Hn) as H.
  cbv beta in H. apply andb_prop in H. destruct H as [H1 H2].
  split; apply String.eqb_eq; assumption.
Qed.

Lemma three_digits (n : Z) :
  0 <= n < 1000 ->
  Js.padStart0 3 (Js.String_of n)
  = (Shape.digit (n / 100) ++ Shape.digit ((n / 10) mod 10)
     ++ Shape.digit (n mod 10))%string.
Proof.
  intros Hn.
  pose proof (each_below
    (fun n => String.eqb (Js.padStart0 3 (Js.String_of n))
                (Shape.digit (n / 100) ++ Shape.digit ((n / 10) mod 10)
                 ++ Shape.digit (n mod 10)))
    1000 ltac:(vm_compute; reflexivity) n Hn) as H.
  apply String.eqb_eq. exact H.
Qed.

Lemma string_app_assoc (a b c : string) :
  ((a ++ b) ++ c = a ++ (b ++ c))%string.
Proof. induction a as [| x a IH]; simpl; [reflexivity | rewrite IH; reflexivity]. Qed.

Lemma string_length_app (a b : string) :
  String.length (a ++ b) = (String.length a + String.length b)%nat.
Proof. induction a as [| x a IH]; simpl; [reflexivity | rewrite IH; reflexivity]. Qed.

(** X5. [formatTime] writes a time under 100 minutes as the five characters
    MM:SS, the minutes and the seconds of the whole seconds elapsed, each
    with two digits; a negative time is written 00:00. *)
Theorem formatTime_writes_MM_SS (ms : Z) :
  0 <= ms < 6000000 ->
  let minutes := ms / 60000 in
  let seconds := (ms / 1000) mod 60 in
  StatsCalculator.formatTime ms
  = (Shape.digit (minutes / 10) ++ Shape.digit (minutes mod 10) ++ ":"
     ++ Shape.digit (seconds / 10) ++ Shape.digit (seconds mod 10))%string
  /\ String.length (StatsCalculator.formatTime ms) = 5%nat
  /\ (forall t, t < 0 -> StatsCalculator.formatTime t = "00:00").
Proof.
  intros Hms minutes seconds.
  assert (Hm : 0 <= minutes < 100)
    by (unfold minutes; split;
        [apply Z.div_pos; lia | apply Z.div_lt_upper_bound; lia]).
  assert (Hs : 0 <= seconds < 60)
    by (unfold seconds; apply Z.mod_pos_bound; lia).
  assert (E : StatsCalculator.formatTime ms
              = (Shape.digit (minutes / 10) ++ Shape.digit (minutes mod 10) ++ ":"
                 ++ Shape.digit (seconds / 10) ++ Shape.digit (seconds mod 10))%string).
  { unfold StatsCalculator.formatTime.
    destruct (Z.ltb_spec ms 0); [lia |]. cbv zeta.
    rewrite Z.div_div by lia. change (1000 * 60) with 60000.
    fold minutes. fold seconds.
    rewrite (proj1 (two_digits minutes ltac:(lia))).
    rewrite (proj1 (two_digits seconds ltac:(lia))).
    rewrite !string_app_assoc. reflexivity. }
  split; [exact E |]. split.
  - rewrite E.
    assert (D : forall k, 0 <= k < 10 -> String.length (Shape.digit k) = 1%nat).
    { intros k Hk.
      pose proof (each_below
        (fun k => Nat.eqb (String.length (Shape.digit k)) 1) 10
        ltac:(vm_compute; reflexivity) k Hk) as H.
      apply Nat.eqb_eq. exact H. }
    rewrite !string_length_app.
    rewrite !D; [reflexivity | | | |];
      try (apply Z.mod_pos_bound; lia);
      (split; [apply Z.div_pos; lia | apply Z.div_lt_upper_bound; lia]).
  - intros t Ht. unfold StatsCalculator.formatTime.
    destruct (Z.ltb_spec t 0); [reflexivity | lia].
Qed.

(** Two and a half minutes. *)
Lemma formatTime_writes_MM_SS_witness :
  StatsCalculator.formatTime 150000 = "02:30".
Proof.
  destruct (formatTime_writes_MM_SS 150000 ltac:(lia)) as [E _].
  rewrite E. vm_compute. reflexivity.
Defined.

Lemma String_of_not_empty (n : Z) : Js.String_of n <> EmptyString.
Proof.
  unfold Js.String_of.
  destruct (Z.to_int n) as [u | u]; [| discriminate].
  destruct u; discriminate.
Qed.

Lemma padStart0_2 (s : string) :
  s <> EmptyString -> Js.padStart0 2 s = StatsCalculator.padStart2 s.
Proof.
  intros Hs. unfold Js.padStart0, StatsCalculator.padStart2.
  destruct s as [| a [| b s]]; [contradiction | reflexivity | reflexivity].
Qed.

(** X6. [formatTimeDetailed] extends [formatTime]: for a time that is not
    negative it writes what [formatTime] writes, then a point and the
    milliseconds within the second with three digits. *)
Theorem formatTimeDetailed_extends_formatTime (ms : Z) :
  0 <= ms ->
  let milliseconds := ms mod 1000 in
  StatsCalculator.formatTimeDetailed ms
  = (StatsCalculator.formatTime ms ++ "."
     ++ Shape.digit (milliseconds / 100)
     ++ Shape.digit ((milliseconds / 10) mod 10)
     ++ Shape.digit (milliseconds mod 10))%string.
Proof.
  intros Hms milliseconds.
  unfold StatsCalculator.formatTimeDetailed, StatsCalculator.formatTime.
  destruct (Z.ltb_spec ms 0); [lia |]. cbv zeta.
  assert (Hsec : 0 <= ms / 1000) by (apply Z.div_pos; lia).
  rewrite !Z.rem_mod_nonneg by lia. fold milliseconds.
  rewrite !padStart0_2 by apply String_of_not_empty.
  rewrite (three_digits milliseconds)
    by (unfold milliseconds; apply Z.mod_pos_bound; lia).
  rewrite !string_app_assoc. reflexivity.
Qed.

(** Two and a half minutes and half a second. *)
Lemma formatTimeDetailed_extends_formatTime_witness :
  StatsCalculator.formatTimeDetailed 150500 = "02:30.500".
Proof.
  rewrite (formatTimeDetailed_extends_formatTime 150500 ltac:(lia)).
  vm_compute. reflexivity.
Defined.


(** ** TrainingContext.jsx: the reducer *)



(** X8. The actions of a run (phase changes, counters, resets) never touch
    the settings: after any sequence of actions without a settings action
    the mode, training type, difficulty and number of sessions are the ones
    before; and a [RESET_ALL] after it leaves the phase IDLE, the session 1
    and both counters 0. *)
Theorem run_actions_keep_the_settings (s : TrainingContext.TrainingState)
    (actions : list TrainingContext.Action) :
  forallb (fun a => negb (Shape.isSetting a)) actions = true ->
  let s' := Shape.dispatched s actions in
  let fresh := TrainingContext.trainingReducer s' TrainingContext.RESET_ALL in
  Shape.settings s' = Shape.settings s
  /\ Shape.settings fresh = Shape.settings s
  /\ TrainingContext.phase fresh = TrainingContext.IDLE
  /\ TrainingContext.currentSession fresh = 1
  /\ TrainingContext.hitsCompleted fresh = 0
  /\ TrainingContext.combosCompleted fresh = 0.
Proof.
  intros H. cbv zeta.
  assert (E : Shape.settings (Shape.dispatched s actions) = Shape.settings s).
  { unfold Shape.dispatched. revert s H.
    induction actions as [| a l IH]; intros s H; [reflexivity |].
    cbn [forallb] in H. apply andb_prop in H. destruct H as [Ha Hl].
    cbn [fold_left]. rewrite (IH _ Hl).
    destruct a as [m | t | d | n | p | | h | | | | |];
      try discriminate Ha; cbn [TrainingContext.trainingReducer];
      try reflexivity.
    destruct (Js.includes TrainingContext.TRAINING_PHASES p); reflexivity. }
  split; [exact E |]. split; [rewrite <- E; reflexivity |].
  repeat split; reflexivity.
Qed.

(** A run of two hits and a combo, reset and left. *)
Lemma run_actions_keep_the_settings_witness :
  Shape.settings
    (Shape.dispatched TrainingContext.initialState
       [TrainingContext.SET_PHASE TrainingContext.TRAINING;
        TrainingContext.INCREMENT_HITS; TrainingContext.INCREMENT_HITS;
        TrainingContext.INCREMENT_COMBOS; TrainingContext.RESET_SESSION;
        TrainingContext.INCREMENT_SESSION])
  = Shape.settings TrainingContext.initialState.
Proof.
  apply (run_actions_keep_the_settings TrainingContext.initialState
           [TrainingContext.SET_PHASE TrainingContext.TRAINING;
            TrainingContext.INCREMENT_HITS; TrainingContext.INCREMENT_HITS;
            TrainingContext.INCREMENT_COMBOS; TrainingContext.RESET_SESSION;
            TrainingContext.INCREMENT_SESSION]).
  reflexivity.
Defined.


(** ** profileUtils.js *)

Section Uuid.

Import ProfileUtils.

Lemma bitor0_of_draw (r : Q) :
  Js.unit_draw r -> 0 <= Js.bitor0 (r * 16) < 16.
Proof.
  intros [Hlo Hhi]. unfold Js.bitor0.
  assert (E : Qle_bool 0 (r * 16) = true).
  { apply Qle_bool_iff. apply Qmult_le_0_compat; [exact Hlo | discriminate]. }
  rewrite E.
  assert (H : 0 <= Qfloor (r * 16) < 16).
  { split.
    - rewrite <- (Qfloor_Z 0). apply Qfloor_resp_le. apply Qle_bool_iff. exact E.
    - rewrite Zlt_Qlt. apply Qle_lt_trans with (r * 16)%Q; [apply Qfloor_le |].
      change (inject_Z 16) with 16%Q. lra. }
  unfold Js.ToInt32. rewrite Z.mod_small by lia. lia.
Qed.

Lemma uuidDigit_x (r : Q) :
  Js.unit_draw r ->
  exists c, uuidDigit "x" r = String c EmptyString /\ Shape.isHexDigit c = true.
Proof.
  intros Hr. unfold uuidDigit. cbn [Ascii.eqb Bool.eqb].
  pose proof (each_below
    (fun v => match Js.toString16 v with
              | String c EmptyString => Shape.isHexDigit c
              | _ => false
              end) 16 ltac:(vm_compute; reflexivity)
    (Js.bitor0 (r * 16)) (bitor0_of_draw r Hr)) as H.
  cbv beta in H.
  destruct (Js.toString16 (Js.bitor0 (r * 16))) as [| c [| ? ?]];
    try discriminate H.
  exists c. split; [reflexivity | exact H].
Qed.

Lemma uuidDigit_y (r : Q) :
  Js.unit_draw r ->
  exists c, uuidDigit "y" r = String c EmptyString
            /\ Shape.isVariantDigit c = true.
Proof.
  intros Hr. unfold uuidDigit. cbn [Ascii.eqb Bool.eqb].
  pose proof (each_below
    (fun v => match Js.toString16 (Z.lor (Z.land v 3) 8) with
              | String c EmptyString => Shape.isVariantDigit c
              | _ => false
              end) 16 ltac:(vm_compute; reflexivity)
    (Js.bitor0 (r * 16)) (bitor0_of_draw r Hr)) as H.
  cbv beta in H.
  destruct (Js.toString16 (Z.lor (Z.land (Js.bitor0 (r * 16)) 3) 8))
    as [| c [| ? ?]]; try discriminate H.
  exists c. split; [reflexivity | exact H].
Qed.

Lemma replaceXY_follows (draws : nat -> Q) (template : string) :
  (forall n, Js.unit_draw (draws n)) ->
  forall k, Shape.follows template (replaceXY template draws k) = true.
Proof.
  intros Hd. induction template as [| p t IH]; intros k; [reflexivity |].
  cbn [replaceXY].
  destruct (Ascii.eqb p "x") eqn:Ex.
  - apply Ascii.eqb_eq in Ex. subst p. cbn [orb].
    destruct (uuidDigit_x (draws k) (Hd k)) as (c & -> & Hc).
    cbn [String.append Shape.follows Ascii.eqb Bool.eqb].
    rewrite Hc. apply IH.
  - destruct (Ascii.eqb p "y") eqn:Ey.
    + apply Ascii.eqb_eq in Ey. subst p. cbn [orb].
      destruct (uuidDigit_y (draws k) (Hd k)) as (c & -> & Hc).
      cbn [String.append Shape.follows Ascii.eqb Bool.eqb].
      rewrite Hc. apply IH.
    + cbn [orb Shape.follows]. rewrite Ex, Ey, Ascii.eqb_refl. apply IH.
Qed.

Lemma follows_length (pattern s : string) :
  Shape.follows pattern s = true -> String.length s = String.length pattern.
Proof.
  revert s. induction pattern as [| p t IH]; intros [| c s] H;
    try discriminate H; [reflexivity |].
  cbn [Shape.follows] in H. apply andb_prop in H. destruct H as [_ H].
  cbn [String.length]. f_equal. apply IH. exact H.
Qed.

End Uuid.

(** X9. Whatever numbers [Math.random()] draws in [0, 1), [generateUUID]
    returns a string in the textual form of a version 4 UUID: 36
    characters, lower-case hexadecimal digits in groups of 8, 4, 4, 4 and 12
    separated by hyphens, with [4] leading the third group and one of [8],
    [9], [a], [b] leading the fourth.  In particular the result is never
    empty and never the id of the default profile. *)
Theorem generateUUID_is_a_version_4_uuid (draws : nat -> Q) (k : nat) :
  (forall n, Js.unit_draw (draws n)) ->
  Shape.isUUIDv4 (ProfileUtils.generateUUID draws k) = true
  /\ String.length (ProfileUtils.generateUUID draws k) = 36%nat
  /\ ProfileUtils.generateUUID draws k <> EmptyString
  /\ ProfileUtils.generateUUID draws k <> ProfileUtils.DEFAULT_PROFILE_ID.
Proof.
  intros Hd.
  unfold ProfileUtils.generateUUID, ProfileUtils.DEFAULT_PROFILE_ID, Shape.isUUIDv4.
  generalize (replaceXY_follows draws "xxxxxxxx-xxxx-4xxx-yxxx-xxxxxxxxxxxx" Hd k).
  generalize (ProfileUtils.replaceXY "xxxxxxxx-xxxx-4xxx-yxxx-xxxxxxxxxxxx" draws k).
  intros u H.
  pose proof (follows_length "xxxxxxxx-xxxx-4xxx-yxxx-xxxxxxxxxxxx" u H) as L.
  split; [exact H |]. split; [exact L |].
  split; intros E; subst u; discriminate L.
Qed.

(** Every draw is 9/10: each [x] becomes [e] and the [y] becomes [a]. *)
Lemma generateUUID_is_a_version_4_uuid_witness :
  Shape.isUUIDv4 (ProfileUtils.generateUUID Samples.high 0) = true
  /\ ProfileUtils.generateUUID Samples.high 0
     = "eeeeeeee-eeee-4eee-aeee-eeeeeeeeeeee".
Proof.
  destruct (generateUUID_is_a_version_4_uuid Samples.high 0) as [H _].
  - intros n. split; discriminate.
  - split; [exact H | vm_compute; reflexivity].
Defined.

(** X10. [createNewProfile] never throws, and the profile it returns holds
    the default difficulties; validated as it is, it raises no warning, and
    it raises an error (the missing name) exactly when the name given is
    empty or blank, so that any other new profile can be saved. *)
Theorem new_profile_passes_validation (uuid : string) (now : Z) (name : string) :
  exists p,
    ProfileUtils.createNewProfile uuid now name = Js.Returned p
    /\ ProfileUtils.difficulties p = Some ProfileUtils.defaultDifficulties
    /\ ProfileUtils.warnings (ProfileUtils.validateProfile p) = []
    /\ (ProfileUtils.errors (ProfileUtils.validateProfile p) = []
        <-> ProfileUtils.trimsToEmpty name = false)
    /\ ProfileUtils.handleSave_accepts p
       = negb (ProfileUtils.trimsToEmpty name).
Proof.
  eexists. split; [reflexivity |].
  split; [reflexivity |]. split; [reflexivity |].
  unfold ProfileUtils.handleSave_accepts, ProfileUtils.validateProfile.
  cbn [ProfileUtils.errors ProfileUtils.difficulties].
  change (ProfileUtils.forEachIndexed ProfileUtils.difficultyErrors _ 0)
    with (@nil string).
  unfold ProfileUtils.nameMissing. cbn [ProfileUtils.p_name].
  destruct (ProfileUtils.trimsToEmpty name); cbn.
  - split; [split; discriminate | reflexivity].
  - split; [split; reflexivity | reflexivity].
Qed.


(** ** ProfileContext.jsx *)

Section Profiles.

Import ProfileUtils ProfileContext.

Lemma hasId_default : hasId DEFAULT_PROFILE_ID createDefaultProfile = true.
Proof. reflexivity. Qed.

Lemma settled_default (customs : list TrainingProfile) :
  Shape.settled {| profiles := createDefaultProfile :: customs;
             activeProfileId := DEFAULT_PROFILE_ID |}.
Proof. split; [exists customs; reflexivity | reflexivity]. Qed.

Lemma mount_settled (uuid : nat -> string) (now : nat -> Z)
    (savedProfiles : option (list TrainingProfile)) (savedActive : option string) :
  Shape.settled (mount uuid now savedProfiles savedActive).
Proof.
  unfold mount, validateActiveProfile.
  cbn [activeProfileId profiles].
  set (ps := initialProfiles uuid now savedProfiles).
  assert (Hps : exists customs, ps = createDefaultProfile :: customs).
  { unfold ps, initialProfiles. destruct savedProfiles; eexists; reflexivity. }
  destruct Hps as [customs Hps].
  set (a := initialActiveProfileId savedActive).
  destruct (String.eqb a EmptyString) eqn:Ee.
  - exfalso. apply String.eqb_eq in Ee. unfold a, initialActiveProfileId in Ee.
    destruct savedActive as [[| c s] |]; discriminate Ee.
  - destruct (String.eqb a DEFAULT_PROFILE_ID) eqn:Ed; cbn [negb andb].
    + apply String.eqb_eq in Ed. rewrite Ed, Hps. apply settled_default.
    + destruct (existsb (hasId a) ps) eqn:Ex.
      * split; [exists customs; exact Hps | exact Ex].
      * rewrite Hps. apply settled_default.
Qed.

Lemma existsb_app_l {A} (p : A -> bool) (l l' : list A) :
  existsb p l = true -> existsb p (l ++ l') = true.
Proof. intros H. rewrite existsb_app, H. reflexivity. Qed.

Lemma after_settled (s : Store) (c : Shape.Call) :
  Shape.settled s -> Shape.settled (Shape.after s c).
Proof.
  intros [[customs Hp] Ha]. destruct c as [u n nm | n up | i | i | u n src nm];
    cbn [Shape.after].
  - unfold createProfile. destruct (createNewProfile u n nm) as [p |];
      [| split; [exists customs; exact Hp | exact Ha]].
    split; cbn [profiles activeProfileId].
    + exists (customs ++ [p])%list. rewrite Hp. reflexivity.
    + apply existsb_app_l. exact Ha.
  - unfold updateProfile.
    destruct (hasId DEFAULT_PROFILE_ID up) eqn:Eu;
      [split; [exists customs; exact Hp | exact Ha] |].
    split; cbn [profiles activeProfileId].
    + rewrite Hp. cbn [map createDefaultProfile isReadOnly isTrue negb].
      rewrite andb_false_r. eexists. reflexivity.
    + apply existsb_exists in Ha. destruct Ha as (p & Hin & Hid).
      apply existsb_exists.
      exists (if sameId (p_id p) (p_id up) && negb (isTrue (isReadOnly p))
              then touched n up else p).
      split; [apply (in_map (fun p => if sameId (p_id p) (p_id up)
                                         && negb (isTrue (isReadOnly p))
                                      then touched n up else p)); exact Hin |].
      destruct (sameId (p_id p) (p_id up) && negb (isTrue (isReadOnly p))) eqn:Es;
        [| exact Hid].
      apply andb_prop in Es. destruct Es as [Es _].
      unfold hasId in Hid |- *. cbn [touched p_id].
      unfold sameId in Es.
      destruct (p_id p) as [x |], (p_id up) as [y |]; try discriminate.
      apply String.eqb_eq in Es. subst y. exact Hid.
  - unfold deleteProfile.
    destruct (String.eqb i DEFAULT_PROFILE_ID) eqn:Ei;
      [split; [exists customs; exact Hp | exact Ha] |].
    assert (Hd : hasId i createDefaultProfile = false).
    { unfold hasId. cbn [createDefaultProfile p_id].
      rewrite String.eqb_sym. exact Ei. }
    split; cbn [profiles activeProfileId].
    + rewrite Hp. cbn [filter]. rewrite Hd. cbn [negb]. eexists. reflexivity.
    + destruct (String.eqb (activeProfileId s) i) eqn:Eact.
      * rewrite Hp. cbn [filter]. rewrite Hd. reflexivity.
      * apply existsb_exists in Ha. destruct Ha as (p & Hin & Hid).
        apply existsb_exists. exists p. split; [| exact Hid].
        apply filter_In. split; [exact Hin |].
        unfold hasId in Hid |- *. destruct (p_id p) as [x |]; [| discriminate].
        apply String.eqb_eq in Hid. subst x. rewrite Eact. reflexivity.
  - unfold setActiveProfile.
    destruct (existsb (hasId i) (profiles s)) eqn:Ex;
      [| split; [exists customs; exact Hp | exact Ha]].
    split; [exists customs; exact Hp | exact Ex].
  - unfold duplicateProfile.
    destruct (Js.find (hasId src) (profiles s)) as [source |];
      [| split; [exists customs; exact Hp | exact Ha]].
    destruct (difficulties source) as [ds |];
      [| split; [exists customs; exact Hp | exact Ha]].
    destruct (Js.mapOrThrow copyDifficulty ds) as [copies |];
      [| split; [exists customs; exact Hp | exact Ha]].
    split; cbn [profiles activeProfileId fst].
    + exists (customs ++ [ {| p_id := Some u; p_name := Some nm;
                             isDefault := Some false; isReadOnly := Some false;
                             createdAt := Some n; updatedAt := Some n;
                             difficulties := Some copies |} ])%list.
      rewrite Hp. reflexivity.
    + apply existsb_app_l. exact Ha.
Qed.

Lemma find_of_existsb {A} (p : A -> bool) (l : list A) :
  existsb p l = true -> exists x, Js.find p l = Some x /\ p x = true.
Proof.
  induction l as [| y l IH]; cbn; [discriminate |].
  destruct (p y) eqn:E; [intros _; exists y; auto | exact IH].
Qed.

End Profiles.

(** X11. The default profile is always there.  From whatever the storage
    holds when the provider mounts, and after any sequence of calls to
    [createProfile], [updateProfile], [deleteProfile], [setActiveProfile]
    and [duplicateProfile], each one rendered, the built-in default profile
    is the first of the list, unchanged, and the active id is the id of a
    profile of the list, which is the active profile. *)
Theorem default_profile_is_always_there
    (uuid : nat -> string) (now : nat -> Z)
    (savedProfiles : option (list ProfileUtils.TrainingProfile))
    (savedActive : option string) (calls : list Shape.Call) :
  let s := Shape.afterAll
             (ProfileContext.mount uuid now savedProfiles savedActive) calls in
  (exists customs,
     ProfileContext.profiles s = ProfileUtils.createDefaultProfile :: customs)
  /\ exists p,
       ProfileContext.activeProfile s = Some p
       /\ In p (ProfileContext.profiles s)
       /\ ProfileContext.hasId (ProfileContext.activeProfileId s) p = true.
Proof.
  cbv zeta.
  assert (H : Shape.settled
                (Shape.afterAll
                   (ProfileContext.mount uuid now savedProfiles savedActive) calls)).
  { unfold Shape.afterAll.
    generalize (mount_settled uuid now savedProfiles savedActive).
    generalize (ProfileContext.mount uuid now savedProfiles savedActive).
    induction calls as [| c l IH]; intros s Hs; [exact Hs |].
    cbn [fold_left]. apply IH. apply after_settled. exact Hs. }
  destruct H as [Hd Ha]. split; [exact Hd |].
  destruct (find_of_existsb _ _ Ha) as (p & Hf & Hp).
  exists p. unfold ProfileContext.activeProfile. rewrite Hf.
  split; [reflexivity |]. split; [| exact Hp].
  clear - Hf. induction (ProfileContext.profiles _) as [| y l IH];
    cbn in Hf; [discriminate |].
  destruct (ProfileContext.hasId _ y); [injection Hf as <-; left; reflexivity |].
  right. apply IH. exact Hf.
Qed.

(** ** useLocalStorage.js *)

Section Storage.

Import UseLocalStorage.

Lemma removeItem_filter (key : string) (st : Storage) (p : string * string -> bool) :
  removeItem key (filter p st)
  = filter (fun e => p e && negb (String.eqb (fst e) key)) st.
Proof.
  unfold removeItem. induction st as [| e st IH]; [reflexivity |].
  cbn [filter]. destruct (p e); cbn [filter andb];
    [destruct (negb (String.eqb (fst e) key)); rewrite IH; reflexivity | exact IH].
Qed.

Lemma removeAll_filter (keys : list string) :
  forall (st : Storage) (p : string * string -> bool),
    fold_left (fun st' key => removeItem key st') keys (filter p st)
    = filter (fun e => p e && negb (existsb (String.eqb (fst e)) keys)) st.
Proof.
  induction keys as [| k keys IH]; intros st p; cbn [fold_left existsb].
  - apply filter_ext. intros e. rewrite andb_true_r. reflexivity.
  - rewrite removeItem_filter, IH. apply filter_ext. intros e.
    rewrite negb_orb, andb_assoc. reflexivity.
Qed.

Lemma filter_all {A} (l : list A) : filter (fun _ => true) l = l.
Proof. induction l as [| x l IH]; [reflexivity | cbn; rewrite IH; reflexivity]. Qed.

End Storage.

(** X12. [clearStorageByPrefix] removes from the storage exactly the
    entries whose key is not empty and starts with the prefix, and keeps
    the others in their order; [combat-reflex] is the prefix when none is
    given.  Cleared once, the storage is not changed by clearing it
    again. *)
Theorem clearStorageByPrefix_removes_the_prefixed_keys
    (prefix : option string) (st : UseLocalStorage.Storage) :
  let p := Js.nullish prefix "combat-reflex" in
  UseLocalStorage.clearStorageByPrefix prefix st = filter (Shape.kept p) st
  /\ UseLocalStorage.clearStorageByPrefix prefix
       (UseLocalStorage.clearStorageByPrefix prefix st)
     = UseLocalStorage.clearStorageByPrefix prefix st.
Proof.
  cbv zeta.
  assert (E : forall st0,
             UseLocalStorage.clearStorageByPrefix prefix st0
             = filter (Shape.kept (Js.nullish prefix "combat-reflex")) st0).
  { intros st0. unfold UseLocalStorage.clearStorageByPrefix.
    set (p := Js.nullish prefix "combat-reflex").
    rewrite <- (filter_all st0) at 2. rewrite removeAll_filter.
    apply filter_ext_in. intros e Hin. cbn [andb]. unfold Shape.kept. f_equal.
    unfold UseLocalStorage.keysToRemove.
    destruct (negb (String.eqb (fst e) EmptyString) && Js.startsWith (fst e) p) eqn:B.
    - apply existsb_exists. exists (fst e). split; [| apply String.eqb_refl].
      apply filter_In. split; [apply in_map; exact Hin | exact B].
    - destruct (existsb _ _) eqn:X; [| reflexivity].
      apply existsb_exists in X. destruct X as (k & Hk & Ek).
      apply String.eqb_eq in Ek. subst k.
      apply filter_In in Hk. destruct Hk as [_ Hk]. congruence. }
  split; [apply E |].
  rewrite !E. set (k := Shape.kept _).
  induction st as [| e st IH]; [reflexivity |].
  cbn [filter]. destruct (k e) eqn:Ke; [| exact IH].
  cbn [filter]. rewrite Ke, IH. reflexivity.
Qed.


(** ** App.jsx: the strikes of a combo *)

Section ComboShape.

Import DifficultyConfig TrainingContext App Trace.

Variable draws : nat -> Q.
Variable comboConfig : ComboConfig.
Variable comboSize : Z.

Hypothesis draws_unit : forall n, Js.unit_draw (draws n).
Hypothesis interval_ordered :
  0 <= min (strikeInterval comboConfig) <= max (strikeInterval comboConfig).


Lemma strikeDelays_head (n : nat) (i cd : Z) (k : nat) :
  hd_error (strikeDelays draws comboConfig comboSize (S n) i cd k) = Some cd.
Proof. reflexivity. Qed.



End ComboShape.




(** ** TrainingContext.jsx: the history cell *)

(** X14. Calls of [addToHistory] made from the same render all start from
    the list of that render: after any number of them the history holds
    the entry of the last call followed by the first 9 entries of the
    rendered list, and the entries of the calls before it are not
    recorded.  [clearHistory] leaves the empty list, whatever was held. *)
Theorem calls_of_one_render_keep_the_last
    (c : TrainingContext.History)
    (calls : list (Z * Q * TrainingContext.SessionData))
    (stamp : Z) (r : Q) (entry : TrainingContext.SessionData) :
  UseLocalStorage.latest
    (UseLocalStorage.rerender
       (Shape.recordedTogether c (calls ++ [(stamp, r, entry)])))
  = TrainingContext.stampEntry stamp r entry
      :: firstn 9 (UseLocalStorage.storedValue c)
  /\ UseLocalStorage.storedValue
       (UseLocalStorage.rerender (TrainingContext.actions_clearHistory c)) = [].
Proof.
  split; [| reflexivity].
  unfold Shape.recordedTogether. rewrite fold_left_app. cbn [fold_left fst snd].
  assert (E : forall l c0,
             UseLocalStorage.storedValue
               (fold_left (fun c' call =>
                             TrainingContext.actions_addToHistory
                               (fst (fst call)) (snd (fst call)) (snd call) c')
                          l c0)
             = UseLocalStorage.storedValue c0).
  { induction l as [| x l IH]; intros c0; [reflexivity |].
    cbn [fold_left]. rewrite IH. reflexivity. }
  cbn [UseLocalStorage.rerender UseLocalStorage.latest
       TrainingContext.actions_addToHistory UseLocalStorage.setValue].
  rewrite E. reflexivity.
Qed.


(** ** The profiles across a reload *)

(** X15. A new profile survives a reload: what [createNewProfile] returns
    for a name that is not empty is left unchanged by [mergeWithDefaults],
    which is applied to every stored profile when the provider mounts;
    neither a new id nor new dates are given to it. *)
Theorem new_profile_survives_reload
    (uuid : string) (now : Z) (name : string) (uuid' : string) (now' : Z) :
  uuid <> EmptyString -> name <> EmptyString ->
  exists p,
    ProfileUtils.createNewProfile uuid now name = Js.Returned p
    /\ ProfileUtils.mergeWithDefaults uuid' now' p = p.
Proof.
  intros Hu Hn. eexists. split; [reflexivity |].
  unfold ProfileUtils.mergeWithDefaults.
  cbn [ProfileUtils.p_id ProfileUtils.p_name ProfileUtils.isDefault
       ProfileUtils.isReadOnly ProfileUtils.createdAt ProfileUtils.updatedAt
       Js.or_string Js.nullish].
  apply String.eqb_neq in Hu, Hn. rewrite Hu, Hn.
  f_equal.
Qed.

(** A profile named Mine. *)
Lemma new_profile_survives_reload_witness :
  exists p,
    ProfileUtils.createNewProfile "0b6e" 5 "Mine" = Js.Returned p
    /\ ProfileUtils.mergeWithDefaults "ffff" 9 p = p.
Proof.
  apply (new_profile_survives_reload "0b6e" 5 "Mine" "ffff" 9); discriminate.
Defined.

(** X16. With nothing stored, the active profile is the default one and
    the combo settings in effect are those of the built-in table: for every
    id, [getEffectiveComboSettings] returns the copy of what
    [getComboSettings] finds, and nothing when it finds nothing. *)
Theorem default_profile_gives_the_builtin_combos
    (uuid : nat -> string) (now : nat -> Z) (difficultyId : string) :
  let s := ProfileContext.mount uuid now None None in
  ProfileContext.activeProfile s = Some ProfileUtils.createDefaultProfile
  /\ ProfileContext.getEffectiveComboSettings s difficultyId
     = Js.Returned
         (option_map Shape.ofBuiltin
            (DifficultyConfig.getComboSettings difficultyId)).
Proof.
  cbv zeta. split; [reflexivity |].
  unfold ProfileContext.getEffectiveComboSettings,
    ProfileContext.getEffectiveSettings.
  change (ProfileContext.activeProfile (ProfileContext.mount uuid now None None))
    with (Some ProfileUtils.createDefaultProfile).
  cbv -[String.eqb].
  destruct (String.eqb "very-easy" difficultyId); [reflexivity |].
  destruct (String.eqb "easy" difficultyId); [reflexivity |].
  destruct (String.eqb "normal" difficultyId); [reflexivity |].
  destruct (String.eqb "hard" difficultyId); [reflexivity |].
  destruct (String.eqb "very-hard" difficultyId); reflexivity.
Qed.

(** ** What is kept in the storage *)

Section Kept.

Import UseLocalStorage.

Lemma getItem_filter_other (key other : string) (st : Storage) :
  other <> key ->
  getItem other (removeItem key st) = getItem other st.
Proof.
  intros Hne. unfold getItem, removeItem. f_equal.
  induction st as [| e st IH]; [reflexivity |].
  cbn [filter Js.find].
  destruct (String.eqb (fst e) key) eqn:Ek; cbn [negb].
  - apply String.eqb_eq in Ek.
    assert (Eo : String.eqb (fst e) other = false)
      by (apply String.eqb_neq; congruence).
    rewrite Eo. exact IH.
  - cbn [Js.find]. destruct (String.eqb (fst e) other); [reflexivity | exact IH].
Qed.

Lemma getItem_removed (key : string) (st : Storage) :
  getItem key (removeItem key st) = None.
Proof.
  unfold getItem, removeItem.
  induction st as [| e st IH]; [reflexivity |].
  cbn [filter]. destruct (String.eqb (fst e) key) eqn:Ek; cbn [negb]; [exact IH |].
  cbn [Js.find]. rewrite Ek. exact IH.
Qed.

End Kept.

(** X17. [removeFromStorage] removes its key and nothing else: the key is
    no longer found, every other key is found with the value it had, and
    removing a key that is not there changes nothing. *)
Theorem removeFromStorage_removes_one_key
    (key : string) (st : UseLocalStorage.Storage) :
  UseLocalStorage.getItem key (UseLocalStorage.removeFromStorage key st) = None
  /\ (forall other, other <> key ->
        UseLocalStorage.getItem other (UseLocalStorage.removeFromStorage key st)
        = UseLocalStorage.getItem other st)
  /\ (forallb (fun e => negb (String.eqb (fst e) key)) st = true ->
      UseLocalStorage.removeFromStorage key st = st).
Proof.
  unfold UseLocalStorage.removeFromStorage.
  split; [apply getItem_removed |].
  split; [intros other Hne; apply getItem_filter_other; exact Hne |].
  intros H. unfold UseLocalStorage.removeItem.
  induction st as [| e st IH]; [reflexivity |].
  cbn [forallb] in H. apply andb_prop in H. destruct H as [He Hs].
  cbn [filter]. rewrite He, (IH Hs). reflexivity.
Qed.

(** X18. The default profile is never written to the storage: what the
    provider keeps under its key is the list of the profiles that are not
    flagged [isDefault], in their order, and the key is removed when there
    is none; so with nothing stored at the mount, nothing is stored after
    it. *)
Theorem default_profile_is_not_persisted
    (s : ProfileContext.Store) (uuid : nat -> string) (now : nat -> Z)
    (savedActive : option string) :
  (forall customs,
     ProfileContext.persistedProfiles s = Some customs ->
     customs <> []
     /\ customs
        = filter (fun p => negb (ProfileContext.isTrue (ProfileUtils.isDefault p)))
                 (ProfileContext.profiles s)
     /\ ~ In ProfileUtils.createDefaultProfile customs)
  /\ (ProfileContext.persistedProfiles s = None <->
      forall p, In p (ProfileContext.profiles s) ->
                ProfileContext.isTrue (ProfileUtils.isDefault p) = true)
  /\ ProfileContext.persistedProfiles
       (ProfileContext.mount uuid now None savedActive) = None.
Proof.
  unfold ProfileContext.persistedProfiles.
  set (keep := fun p => negb (ProfileContext.isTrue (ProfileUtils.isDefault p))).
  split; [| split].
  - intros customs H.
    destruct (filter keep (ProfileContext.profiles s)) as [| p l] eqn:E;
      [discriminate H |].
    injection H as <-. split; [discriminate |]. split; [reflexivity |].
    intros Hin. rewrite <- E in Hin. apply filter_In in Hin.
    destruct Hin as [_ Hk]. discriminate Hk.
  - split.
    + intros H p Hin.
      destruct (filter keep (ProfileContext.profiles s)) as [| q l] eqn:E;
        [| discriminate H].
      destruct (ProfileContext.isTrue (ProfileUtils.isDefault p)) eqn:Ed;
        [reflexivity |].
      assert (Hp : In p (filter keep (ProfileContext.profiles s)))
        by (apply filter_In; split; [exact Hin | unfold keep; rewrite Ed; reflexivity]).
      rewrite E in Hp. destruct Hp.
    + intros H.
      destruct (filter keep (ProfileContext.profiles s)) as [| q l] eqn:E;
        [reflexivity |].
      assert (Hq : In q (filter keep (ProfileContext.profiles s)))
        by (rewrite E; left; reflexivity).
      apply filter_In in Hq. destruct Hq as [Hin Hk].
      unfold keep in Hk. rewrite (H q Hin) in Hk. discriminate Hk.
  - unfold ProfileContext.mount, ProfileContext.validateActiveProfile.
    cbn [ProfileContext.initialProfiles ProfileContext.profiles
         ProfileContext.activeProfileId].
    destruct (negb _ && negb _); [destruct (existsb _ _) |]; reflexivity.
Qed.
